(** * Corabastos bulletin loader: a shallow embedding of [corabastos.py]

    The script downloads the daily bulletin of Corabastos (a PDF), reads the
    tables of every page with pdfplumber, stacks them in one pandas
    DataFrame, stamps the date and appends the rows to a Google sheet.

    The embedding follows the script function by function and keeps its
    names.  Python integers are [Z], [str] is [string] (one [ascii] per
    Latin-1 code point), exceptions are the [Raise] side of [result], and
    the two collaborators with effects (HTTP and the worksheet) are threaded
    explicitly as state.  The fragments of the Python library, of pandas and
    of gspread the script calls are modelled next to it, each under the
    name it has in Python. *)

From Stdlib Require Import ZArith List String Ascii Bool Lia Arith.
From Stdlib Require Import DecimalString.
Import ListNotations.

Local Open Scope string_scope.
Local Open Scope Z_scope.

Set Implicit Arguments.

(* ================================================================== *)
(** * Python built-ins *)
(* ================================================================== *)

Module Py.

(** Exceptions the modelled code can raise. *)
Inductive exn : Type :=
| KeyError
| IndexError
| ValueError (msg : string)
| InvalidIndexError (msg : string)
| RequestException (msg : string).

(** A computation either returns or raises. *)
Inductive result (A : Type) : Type :=
| Ok (a : A)
| Raise (e : exn).
Arguments Ok {A} a.
Arguments Raise {A} e.

Definition bind {A B : Type} (c : result A) (k : A -> result B) : result B :=
  match c with
  | Ok a => k a
  | Raise e => Raise e
  end.

(** [f] on every element in turn, up to the first that raises. *)
Fixpoint mapM {A B : Type} (f : A -> result B) (l : list A)
  : result (list B) :=
  match l with
  | [] => Ok []
  | x :: t =>
      match f x with
      | Ok y => match mapM f t with
                | Ok ys => Ok (y :: ys)
                | Raise e => Raise e
                end
      | Raise e => Raise e
      end
  end.

(** [len(l)]. *)
Definition len {A : Type} (l : list A) : Z := Z.of_nat (List.length l).

(** [enumerate(l, start)]. *)
Fixpoint enumerate {A : Type} (start : Z) (l : list A) : list (Z * A) :=
  match l with
  | [] => []
  | x :: t => (start, x) :: enumerate (start + 1) t
  end.

(** [str(n)] and [f"{n}"] for an [int]. *)
Definition str (n : Z) : string := NilZero.string_of_int (Z.to_int n).

(** [s.zfill]-like padding of a digit string on the left, up to [w]. *)
Fixpoint zeros (k : nat) : string :=
  match k with
  | O => ""
  | S k' => String "0" (zeros k')
  end.

Definition zfill (w : nat) (digits : string) : string :=
  zeros (w - String.length digits) ++ digits.

(** [f"{n:0wd}"] and ["%0wd" % n]: sign first, zeros between the sign and
    the digits, at least [w] characters. *)
Definition fmt_0d (w : nat) (n : Z) : string :=
  if n <? 0 then "-" ++ zfill (w - 1) (str (- n)) else zfill w (str n).

(** [str.lower] on one Latin-1 code point: A-Z and the accented capitals
    U+00C0-U+00DE (the multiplication sign U+00D7 apart) move by 32. *)
Definition lower_char (c : ascii) : ascii :=
  let n := nat_of_ascii c in
  if ((65 <=? n) && (n <=? 90))%nat
     || ((192 <=? n) && (n <=? 222) && negb (n =? 215))%nat
  then ascii_of_nat (n + 32)
  else c.

Fixpoint lower (s : string) : string :=
  match s with
  | EmptyString => EmptyString
  | String c t => String (lower_char c) (lower t)
  end.

(** [needle in hay] on strings. *)
Fixpoint contains (needle hay : string) : bool :=
  String.prefix needle hay
  || match hay with
     | EmptyString => false
     | String _ t => contains needle t
     end.

(** [d.get(k)] on a dict written as its item list. *)
Fixpoint dict_get {V : Type} (d : list (Z * V)) (k : Z) : option V :=
  match d with
  | [] => None
  | (k', v) :: t => if k' =? k then Some v else dict_get t k
  end.

(** [d[k]]. *)
Definition dict_item {V : Type} (d : list (Z * V)) (k : Z) : result V :=
  match dict_get d k with
  | Some v => Ok v
  | None => Raise KeyError
  end.

End Py.

Import Py.

Notation "x <- c ;; k" := (bind c (fun x => k))
  (at level 61, c at next level, right associativity).

(* ================================================================== *)
(** * [datetime.date] *)
(* ================================================================== *)

Module Datetime.

(** A [datetime.date]: the three integer fields. *)
Record date : Type := Date { year : Z; month : Z; day : Z }.

Definition is_leap (y : Z) : bool :=
  (y mod 4 =? 0) && (negb (y mod 100 =? 0) || (y mod 400 =? 0)).

Definition DAYS_IN_MONTH : list Z :=
  [-1; 31; 28; 31; 30; 31; 30; 31; 31; 30; 31; 30; 31].

Definition DAYS_BEFORE_MONTH : list Z :=
  [-1; 0; 31; 59; 90; 120; 151; 181; 212; 243; 273; 304; 334].

Definition days_in_month (y m : Z) : Z :=
  if (m =? 2) && is_leap y then 29
  else nth (Z.to_nat m) DAYS_IN_MONTH 0.

(** The check of the [date] constructor: what every [date] satisfies. *)
Definition valid_date (d : date) : bool :=
  (1 <=? year d) && (year d <=? 9999)
  && (1 <=? month d) && (month d <=? 12)
  && (1 <=? day d) && (day d <=? days_in_month (year d) (month d)).

Definition days_before_year (y : Z) : Z :=
  let y := y - 1 in
  y * 365 + y / 4 - y / 100 + y / 400.

Definition days_before_month (y m : Z) : Z :=
  nth (Z.to_nat m) DAYS_BEFORE_MONTH 0
  + (if (2 <? m) && is_leap y then 1 else 0).

(** [date.toordinal()]: 1 is 0001-01-01. *)
Definition toordinal (d : date) : Z :=
  days_before_year (year d) + days_before_month (year d) (month d) + day d.

(** [date.weekday()]: 0 is Monday, 6 is Sunday. *)
Definition weekday (d : date) : Z := (toordinal d + 6) mod 7.

(** [date.isoformat()]: ["%04d-%02d-%02d"]. *)
Definition isoformat (d : date) : string :=
  fmt_0d 4 (year d) ++ "-" ++ fmt_0d 2 (month d) ++ "-" ++ fmt_0d 2 (day d).

End Datetime.

Import Datetime.

(* ================================================================== *)
(** * The script: date gate and candidate URLs *)
(* ================================================================== *)

Definition SPANISH_MONTHS : list (Z * string) :=
  [ (1, "enero"); (2, "febrero"); (3, "marzo"); (4, "abril");
    (5, "mayo"); (6, "junio"); (7, "julio"); (8, "agosto");
    (9, "septiembre"); (10, "octubre"); (11, "noviembre");
    (12, "diciembre") ].

Definition es_dia_habil (fecha : date) : bool := weekday fecha <? 5.

(** The prefix every candidate shares, up to the year. *)
Definition uploads : string := "https://corabastos.com.co/wp-content/uploads/".

Definition construir_urls_candidatas (fecha : date) : result (list string) :=
  let year := year fecha in
  let month := month fecha in
  let day := day fecha in
  mes_nombre <- dict_item SPANISH_MONTHS month ;;
  let base := uploads ++ str year ++ "/" ++ fmt_0d 2 month ++ "/" in
  let candidatos :=
    [ base ++ "Boletin-" ++ fmt_0d 2 day ++ mes_nombre ++ str year ++ ".pdf";
      base ++ "Boletin-" ++ str day ++ mes_nombre ++ str year ++ ".pdf";
      base ++ "Boletin_diario_" ++ str year ++ fmt_0d 2 month ++ fmt_0d 2 day
           ++ ".pdf" ] in
  Ok candidatos.

(* ================================================================== *)
(** * [requests]: one GET, as seen by the script *)
(* ================================================================== *)

Module Requests.

Definition bytes : Type := list Byte.byte.

(** What the script reads of a response. *)
Record Response : Type := mkResponse {
  status_code : Z;
  headers : list (string * string);
  content : bytes
}.

(** [headers.get(key, default)]: header names compare without case. *)
Fixpoint headers_get (hs : list (string * string)) (key default : string)
  : string :=
  match hs with
  | [] => default
  | (k, v) :: t =>
      if String.eqb (lower k) (lower key) then v
      else headers_get t key default
  end.

End Requests.

Import Requests.

(* ================================================================== *)
(** * The script: document locator *)
(* ================================================================== *)

(** The test of line 83 on a response that came back. *)
Definition aceptado (resp : Response) : bool :=
  let content_type := lower (headers_get (headers resp) "Content-Type" "") in
  (status_code resp =? 200) && contains "pdf" content_type.

Section Locator.

(** The network: [requests_get url w] is [requests.get(url, timeout=20)]
    in the world [w]; it returns a response or raises, and leaves the
    world in a new state. *)
Variable World : Type.
Variable requests_get : string -> World -> result Response * World.

(** The world together with the list of the URLs requested so far. *)
Record Net : Type := mkNet { world : World; requested : list string }.

Definition get (url : string) (net : Net) : result Response * Net :=
  let (r, w) := requests_get url (world net) in
  (r, {| world := w; requested := (requested net ++ [url])%list |}).

(** The [for url in urls] loop of [descargar_pdf]; [None] is what is
    returned after the loop. *)
Fixpoint probar (urls : list string) (net : Net) : option bytes * Net :=
  match urls with
  | [] => (None, net)
  | url :: rest =>
      match get url net with
      | (Ok resp, net') =>
          if aceptado resp then (Some (content resp), net')
          else probar rest net'
      | (Raise _, net') => probar rest net'
      end
  end.

Definition descargar_pdf (fecha : date) (net : Net)
  : result (option bytes) * Net :=
  match construir_urls_candidatas fecha with
  | Raise e => (Raise e, net)
  | Ok urls => let (r, net') := probar urls net in (Ok r, net')
  end.

(** The responses of a run of GETs, one after the other, from [w]. *)
Fixpoint respuestas (urls : list string) (w : World)
  : list (result Response) :=
  match urls with
  | [] => []
  | url :: rest =>
      let (r, w') := requests_get url w in r :: respuestas rest w'
  end.

(** A GET that does not end the loop: it raised, or line 83 said no. *)
Definition rechazado (r : result Response) : bool :=
  match r with
  | Ok resp => negb (aceptado resp)
  | Raise _ => true
  end.

End Locator.

(* ================================================================== *)
(** * pdfplumber: what [page.extract_tables()] returns *)
(* ================================================================== *)

Module Pdfplumber.

(** A cell is its text, or [None] where the grid has no cell. *)
Definition Cell : Type := option string.
Definition Row : Type := list Cell.
Definition Table : Type := list Row.
(** A page, as the list of its detected tables. *)
Definition Page : Type := list Table.
(** An opened document, as the list of its pages. *)
Definition PDF : Type := list Page.

End Pdfplumber.

Import Pdfplumber.

(* ================================================================== *)
(** * pandas: the DataFrame operations the script calls *)
(* ================================================================== *)

Module Pandas.

(** A value in a frame.  [VNone], [VNaN] and [VNA] are the three
    missing values: Python's [None], the [NaN] that fills a column a
    frame did not have, and [pd.NA]. *)
Inductive value : Type :=
| VStr (s : string)
| VInt (n : Z)
| VNone
| VNaN
| VNA.

Definition isna (v : value) : bool :=
  match v with
  | VNone | VNaN | VNA => true
  | VStr _ | VInt _ => false
  end.

Definition of_cell (c : Cell) : value :=
  match c with
  | Some s => VStr s
  | None => VNone
  end.

(** A column label: a header cell, or a name the script gives. *)
Definition label : Type := option string.

(** [str] of a label, as error messages show it. *)
Definition repr (l : label) : string :=
  match l with
  | Some s => s
  | None => "None"
  end.

Definition label_eq_dec (a b : label) : {a = b} + {a <> b}.
Proof. decide equality. apply string_dec. Defined.

Definition label_eqb (a b : label) : bool :=
  if label_eq_dec a b then true else false.

(** A frame, row by row; [ignore_index=True] leaves the row labels
    without meaning, so they are not kept. *)
Record DataFrame : Type := mkDF {
  columns : list label;
  data : list (list value)
}.

Definition max_width (rows : list Row) : nat :=
  fold_right (fun r m => Nat.max (List.length r) m) O rows.

Definition pad_row (k : nat) (r : Row) : list value :=
  (map of_cell r ++ repeat VNone (k - List.length r))%list.

(** [pd.DataFrame(rows, columns=header)] on a list of lists: short rows
    are filled with [None] up to the longest, and the number of columns
    that gives must be the number of labels. *)
Definition DataFrame_new (rows : list Row) (header : list label)
  : result DataFrame :=
  let k := max_width rows in
  if Nat.eqb (List.length header) k
  then Ok (mkDF header (map (pad_row k) rows))
  else Raise (ValueError (str (len header)
                ++ " columns passed, passed data had "
                ++ str (Z.of_nat k) ++ " columns")).

(** [df[key] = v] with a scalar: every column labelled [key] takes the
    value; when there is none, a new last column is added. *)
Definition setitem (key : label) (v : value) (df : DataFrame) : DataFrame :=
  if existsb (label_eqb key) (columns df)
  then mkDF (columns df)
            (map (fun row =>
                    map (fun cx => if label_eqb (fst cx) key then v
                                   else snd cx)
                        (combine (columns df) row))
                 (data df))
  else mkDF (columns df ++ [key])%list
            (map (fun row => (row ++ [v])%list) (data df)).

(** Position of the first column labelled [c]. *)
Fixpoint index_of (c : label) (cols : list label) : option nat :=
  match cols with
  | [] => None
  | c' :: t =>
      if label_eqb c' c then Some O
      else option_map S (index_of c t)
  end.

(** The value of a row under the label [c]; [NaN] when the frame has no
    such column. *)
Definition cell (c : label) (cols : list label) (row : list value) : value :=
  match index_of c cols with
  | Some j => nth j row VNaN
  | None => VNaN
  end.

(** The labels of [l] in the order they first appear. *)
Fixpoint unique_from (seen l : list label) : list label :=
  match l with
  | [] => []
  | c :: t =>
      if existsb (label_eqb c) seen then unique_from seen t
      else c :: unique_from (c :: seen) t
  end.

Definition unique (l : list label) : list label := unique_from [] l.

Fixpoint is_unique (l : list label) : bool :=
  match l with
  | [] => true
  | c :: t => negb (existsb (label_eqb c) t) && is_unique t
  end.

Definition columns_eqb (a b : list label) : bool :=
  if list_eq_dec label_eq_dec a b then true else false.

Definition reindex (cols : list label) (df : DataFrame) : list (list value) :=
  map (fun row => map (fun c => cell c (columns df) row) cols) (data df).

(** [pd.concat(frames, ignore_index=True)]: rows one under the other.
    Frames with the same columns are stacked as they are.  Otherwise the
    columns are the union of the frames' labels in order of first
    appearance, every frame is re-indexed on them ([NaN] where it has no
    such column), and that fails on a frame with a repeated label. *)
Definition concat (frames : list DataFrame) : result DataFrame :=
  match frames with
  | [] => Raise (ValueError "No objects to concatenate")
  | f :: rest =>
      if forallb (fun g => columns_eqb (columns g) (columns f)) rest
      then Ok (mkDF (columns f) (flat_map data frames))
      else if forallb (fun g => is_unique (columns g)) frames
      then
        let cols := unique (flat_map columns frames) in
        Ok (mkDF cols (flat_map (reindex cols) frames))
      else Raise (InvalidIndexError
                    "Reindexing only valid with uniquely valued Index objects")
  end.

(** What [replace] does to one value. *)
Definition replace_value (s : string) (v x : value) : value :=
  match x with
  | VStr s' => if String.eqb s' s then v else x
  | _ => x
  end.

(** [df.replace(s, v)] for a string [s]. *)
Definition replace (s : string) (v : value) (df : DataFrame) : DataFrame :=
  mkDF (columns df) (map (map (replace_value s v)) (data df)).

(** [df.dropna(how="all")]: a row goes when all its values are missing. *)
Definition dropna_all (df : DataFrame) : DataFrame :=
  mkDF (columns df) (filter (fun row => negb (forallb isna row)) (data df)).

(** [df.insert(loc, column, v)] with a scalar; a label the frame already
    has is refused. *)
Definition insert (loc : nat) (column : label) (v : value) (df : DataFrame)
  : result DataFrame :=
  if existsb (label_eqb column) (columns df)
  then Raise (ValueError ("cannot insert " ++ repr column
                          ++ ", already exists"))
  else if (List.length (columns df) <? loc)%nat
  then Raise IndexError
  else Ok (mkDF (firstn loc (columns df) ++ column :: skipn loc (columns df))%list
                (map (fun row => (firstn loc row ++ v :: skipn loc row)%list)
                     (data df))).

End Pandas.

Import Pandas.

(* ================================================================== *)
(** * The script: table extraction and the date column *)
(* ================================================================== *)

(** The error of line 109. *)
Definition NoTablesFound : exn :=
  ValueError "No se encontraron tablas en el PDF.".

Definition pagina : label := Some "pagina".
Definition tabla : label := Some "tabla".
Definition Fecha : label := Some "Fecha".

(** [not table], for a list. *)
Definition vacia {A : Type} (l : list A) : bool :=
  match l with
  | [] => true
  | _ :: _ => false
  end.

(** Lines 99-106: the body of the inner loop, on the frames kept so far. *)
Definition paso_tabla (page_num table_idx : Z) (table : Table)
  (all_tables : list DataFrame) : result (list DataFrame) :=
  if vacia table || (len table <? 2) then Ok all_tables
  else
    match table with
    | [] => Raise IndexError
    | header :: rows =>
        df <- DataFrame_new rows header ;;
        let df := setitem pagina (VInt page_num) df in
        let df := setitem tabla (VInt (table_idx + 1)) df in
        Ok (all_tables ++ [df])%list
    end.

(** [for table_idx, table in enumerate(tables)]. *)
Fixpoint for_tables (page_num : Z) (tables : list (Z * Table))
  (all_tables : list DataFrame) : result (list DataFrame) :=
  match tables with
  | [] => Ok all_tables
  | (table_idx, table) :: rest =>
      all_tables' <- paso_tabla page_num table_idx table all_tables ;;
      for_tables page_num rest all_tables'
  end.

(** [for page_num, page in enumerate(pdf.pages, start=1)]. *)
Fixpoint for_pages (pages : list (Z * Page)) (all_tables : list DataFrame)
  : result (list DataFrame) :=
  match pages with
  | [] => Ok all_tables
  | (page_num, tables) :: rest =>
      all_tables' <- for_tables page_num (enumerate 0 tables) all_tables ;;
      for_pages rest all_tables'
  end.

(** The three last statements, on the frames the loops kept. *)
Definition unir (all_tables : list DataFrame) : result DataFrame :=
  df_total <- concat all_tables ;;
  let df_total := replace "" VNA df_total in
  let df_total := dropna_all df_total in
  Ok df_total.

(** [extraer_tablas_pdf], on the document pdfplumber opened. *)
Definition extraer_tablas_pdf (pdf : PDF) : result DataFrame :=
  all_tables <- for_pages (enumerate 1 pdf) [] ;;
  if vacia all_tables then Raise NoTablesFound
  else unir all_tables.

Definition agregar_fecha (df : DataFrame) (fecha : date) : result DataFrame :=
  insert 0 Fecha (VStr (isoformat fecha)) df.

(** Lines 150-155 of [main]: extraction, then the date. *)
Definition extraer_y_fechar (pdf : PDF) (fecha : date) : result DataFrame :=
  df <- extraer_tablas_pdf pdf ;;
  agregar_fecha df fecha.

(** ** What the claims call a usable table *)

(** The tables with a header and at least one data row, in the order the
    loops meet them, each with its page number and its ordinal on the
    page (both from 1). *)
Definition usables_pagina (page_num : Z) (tables : list (Z * Table))
  : list (Z * Z * Table) :=
  flat_map (fun it => if (2 <=? List.length (snd it))%nat
                      then [(page_num, fst it + 1, snd it)] else [])
           tables.

Definition usables_desde (pages : list (Z * Page)) : list (Z * Z * Table) :=
  flat_map (fun pp => usables_pagina (fst pp) (enumerate 0 (snd pp))) pages.

Definition usables (pdf : PDF) : list (Z * Z * Table) :=
  usables_desde (enumerate 1 pdf).

(** The table with ordinal [i] on page [p], both counted from 1. *)
Definition tabla_en (pdf : PDF) (p i : Z) : option Table :=
  if (1 <=? p) && (1 <=? i)
  then match nth_error pdf (Z.to_nat (p - 1)) with
       | Some page => nth_error page (Z.to_nat (i - 1))
       | None => None
       end
  else None.

(** The rows of a frame tagged page [p], table [i]. *)
Definition value_eqb (a b : value) : bool :=
  match a, b with
  | VStr s, VStr t => String.eqb s t
  | VInt n, VInt m => n =? m
  | VNone, VNone | VNaN, VNaN | VNA, VNA => true
  | _, _ => false
  end.

Definition filas_de (p i : Z) (df : DataFrame) : list (list value) :=
  filter (fun row => value_eqb (cell pagina (columns df) row) (VInt p)
                     && value_eqb (cell tabla (columns df) row) (VInt i))
         (data df).

(** The frame lines 101-105 make of a usable table. *)
Definition marco (u : Z * Z * Table) : result DataFrame :=
  let '(page_num, ordinal, table) := u in
  match table with
  | [] => Raise IndexError
  | header :: rows =>
      df <- DataFrame_new rows header ;;
      Ok (setitem tabla (VInt ordinal) (setitem pagina (VInt page_num) df))
  end.

(** Every row has one value per column. *)
Definition rectangular (df : DataFrame) : Prop :=
  Forall (fun row => List.length row = List.length (columns df)) (data df).

(** Every row of the frame is tagged page [p], table [i]. *)
Definition etiquetado (p i : Z) (df : DataFrame) : Prop :=
  Forall (fun row => cell pagina (columns df) row = VInt p
                     /\ cell tabla (columns df) row = VInt i)
         (data df).

(** The number of data rows of a table: all but the header. *)
Definition aporte (table : Table) : nat := (List.length table - 1)%nat.

(** What a usable table adds to the rows tagged page [p], table [i]: its
    data rows when it is that table, nothing otherwise. *)
Definition peso (p i : Z) (u : Z * Z * Table) : nat :=
  if (fst (fst u) =? p) && (snd (fst u) =? i) then aporte (snd u) else O.

(** The detected tables of all pages, in document order. *)
Definition todas_las_tablas (pdf : PDF) : list Table :=
  flat_map (fun page : Page => page) pdf.

(** A grid with as many cells in every data row as in its header, and no
    header text twice. *)
Definition bien_formada (table : Table) : bool :=
  match table with
  | [] => true
  | header :: rows =>
      forallb (fun r => Nat.eqb (List.length r) (List.length header)) rows
      && is_unique header
  end.

(* ================================================================== *)
(** * The script: sink writer *)
(* ================================================================== *)

Section Sink.

(** The worksheet: [get_all_values ws] is [ws.get_all_values()],
    [append_row r ws] the sheet after [ws.append_row(r)], and
    [append_rows rs ws] the sheet after
    [ws.append_rows(rs, value_input_option="USER_ENTERED")]. *)
Variable Worksheet : Type.
Variable get_all_values : Worksheet -> list (list string).
Variable append_row : list label -> Worksheet -> Worksheet.
Variable append_rows : list (list value) -> Worksheet -> Worksheet.

(** A write the script asked for. *)
Inductive escritura : Type :=
| Fila (row : list label)
| Filas (rows : list (list value)).

(** The sheet together with the writes made so far. *)
Record Hoja : Type := mkHoja { ws : Worksheet; escrito : list escritura }.

Definition inicializar_encabezados_si_vacio (h : Hoja) (df : DataFrame)
  : Hoja :=
  let existing := get_all_values (ws h) in
  if vacia existing
  then {| ws := append_row (columns df) (ws h);
          escrito := (escrito h ++ [Fila (columns df)])%list |}
  else h.

Definition append_df_to_sheet (h : Hoja) (df : DataFrame) : Hoja :=
  let values := data df in
  if vacia values then h
  else {| ws := append_rows values (ws h);
          escrito := (escrito h ++ [Filas values])%list |}.

End Sink.

(** A worksheet of gspread 6, for running the sink.  The state is the
    list of the rows the sheet holds, [[]] for a sheet with no row.

    [values_get] is the reply of the service for the whole sheet: it has
    no [values] entry when the sheet holds nothing.  [get_all_values]
    reads it as the library does, [response.get("values", [[]])]: a
    sheet with no row reads as one row of no cell, [[[]]], which Python
    takes as true; no state reads as the empty list. *)
Module HojaLista.

Definition texto (l : label) : string :=
  match l with
  | Some s => s
  | None => ""
  end.

Definition Worksheet : Type := list (list string).

Definition values_get (w : Worksheet) : option (list (list string)) :=
  match w with
  | [] => None
  | _ :: _ => Some w
  end.

Definition get_all_values (w : Worksheet) : list (list string) :=
  match values_get w with
  | Some values => values
  | None => [[]]
  end.

Definition append_row (r : list label) (w : Worksheet) : Worksheet :=
  (w ++ [map texto r])%list.

(** The number of rows the sheet holds, header included. *)
Definition filas (w : Worksheet) : nat := List.length w.

End HojaLista.

(* ================================================================== *)
(** * Vocabulary of the properties *)
(* ================================================================== *)

(** The integers [lo], [lo+1], ..., [n] of them. *)
Fixpoint rango (lo : Z) (n : nat) : list Z :=
  match n with
  | O => []
  | S k => lo :: rango (lo + 1) k
  end.

(** The character of a decimal digit. *)
Definition digito (k : Z) : ascii := ascii_of_nat (48 + Z.to_nat k).

Definition un_digito (n : Z) : string := String (digito n) "".

Definition dos_digitos (n : Z) : string :=
  String (digito (n / 10)) (String (digito (n mod 10)) "").

Definition cuatro_digitos (n : Z) : string :=
  String (digito (n / 1000))
    (String (digito ((n / 100) mod 10))
       (String (digito ((n / 10) mod 10))
          (String (digito (n mod 10)) ""))).

Definition es_digito (c : ascii) : bool :=
  ((48 <=? nat_of_ascii c) && (nat_of_ascii c <=? 57))%nat.

Fixpoint todos_digitos (s : string) : bool :=
  match s with
  | EmptyString => true
  | String c t => es_digito c && todos_digitos t
  end.

(** The twelve month names, January first. *)
Definition meses : list string := map snd SPANISH_MONTHS.

(** [u] has, right after the fixed prefix, a path segment of four digits
    and then the month on two digits. *)
Definition segmento_anio_mes (fecha : date) (u : string) : Prop :=
  exists Y resto,
    u = uploads ++ Y ++ "/" ++ dos_digitos (month fecha) ++ "/" ++ resto
    /\ String.length Y = 4%nat
    /\ todos_digitos Y = true.

(** Monday to Sunday, as [weekday] numbers them. *)
Inductive dia_semana : Type :=
| Lunes | Martes | Miercoles | Jueves | Viernes | Sabado | Domingo.

Definition dia_de (fecha : date) : dia_semana :=
  nth (Z.to_nat (weekday fecha))
      [Lunes; Martes; Miercoles; Jueves; Viernes; Sabado; Domingo] Domingo.

(** A network to run the locator on: the numeric daily-bulletin name of
    5 March 2024 is served as a PDF, the padded name cannot be reached,
    and anything else is an HTML page with status 404.  The world counts
    the requests. *)
Definition red_ejemplo (url : string) (w : nat) : result Response * nat :=
  if String.eqb url
       "https://corabastos.com.co/wp-content/uploads/2024/03/Boletin_diario_20240305.pdf"
  then (Ok (mkResponse 200 [("content-type", "Application/PDF")]
              [Byte.x25; Byte.x50; Byte.x44; Byte.x46]), S w)
  else if String.eqb url
       "https://corabastos.com.co/wp-content/uploads/2024/03/Boletin-05marzo2024.pdf"
  then (Raise (RequestException "timed out"), S w)
  else (Ok (mkResponse 404 [("Content-Type", "text/html")] []), S w).

(** [table[0]]: the header row of a table that has one. *)
Definition encabezado (table : Table) : list label :=
  match table with
  | [] => []
  | header :: _ => header
  end.

(** The provenance a row carries: what it holds under [pagina] and under
    [tabla]. *)
Definition etiqueta (cols : list label) (row : list value) : value * value :=
  (cell pagina cols row, cell tabla cols row).

(** Whether a value of the final frame shows a cell of a table: the
    text of the cell, and a missing value where the grid had no cell or
    the cell was the empty string.  Which of the missing values stands
    there is the column dtype's matter and is left open. *)
Definition muestra (c : Cell) (v : value) : bool :=
  match c with
  | Some s => if String.eqb s "" then isna v else value_eqb v (VStr s)
  | None => isna v
  end.

(** The number a string of decimal digits writes. *)
Definition valor_digito (c : ascii) : Z := Z.of_nat (nat_of_ascii c) - 48.

Fixpoint valor_desde (acc : Z) (s : string) : Z :=
  match s with
  | EmptyString => acc
  | String c t => valor_desde (10 * acc + valor_digito c) t
  end.

Definition valor (s : string) : Z := valor_desde 0 s.

(* ================================================================== *)
(** * The script: upload and [main] *)
(* ================================================================== *)

Definition SHEET_NAME : string := "Boletin".

(** What [sh.worksheet(name)] can do: return the sheet, raise
    [WorksheetNotFound], or raise something else. *)
Inductive busqueda (W : Type) : Type :=
| Encontrada (ws : W)
| NoEncontrada
| OtraFalla (e : exn).
Arguments Encontrada {W} ws.
Arguments NoEncontrada {W}.
Arguments OtraFalla {W} e.

Section Orquestador.

(** The outside of a run.  The network is the one of the locator.
    [pdfplumber_open] reads the tables of a document, or raises.  The
    spreadsheet service is reached through [get_gspread_client] (lines
    38-50: credentials from the environment, refreshed), [open_by_key],
    [worksheet], [add_worksheet] and the three calls on a worksheet; each
    of them acts on the world and can raise.  [SPREADSHEET_ID] is the
    value of the environment variable read at line 16. *)
Variable World : Type.
Variable requests_get : string -> World -> result Response * World.
Variable pdfplumber_open : bytes -> result PDF.
Variables Client Spreadsheet Worksheet : Type.
Variable get_gspread_client : World -> result Client * World.
Variable open_by_key : Client -> string -> World -> result Spreadsheet * World.
Variable worksheet : Spreadsheet -> string -> World -> busqueda Worksheet * World.
Variable add_worksheet :
  Spreadsheet -> string -> Z -> Z -> World -> result Worksheet * World.
Variable get_all_values : Worksheet -> World -> result (list (list string)) * World.
Variable append_row : Worksheet -> list label -> World -> result unit * World.
Variable append_rows : Worksheet -> list (list value) -> World -> result unit * World.
Variable SPREADSHEET_ID : string.

(** The state of a run: the network with the URLs requested, and the
    writes asked of the worksheet so far. *)
Record Corrida : Type := mkCorrida {
  red : Net World;
  escritos : list escritura
}.

(** A call that acts on the world. *)
Definition en_mundo {A : Type} (op : World -> A * World) (c : Corrida)
  : A * Corrida :=
  let (a, w) := op (world (red c)) in
  (a, {| red := {| world := w; requested := requested (red c) |};
         escritos := escritos c |}).

Definition anotar (e : escritura) (c : Corrida) : Corrida :=
  {| red := red c; escritos := (escritos c ++ [e])%list |}.

(** [inicializar_encabezados_si_vacio] (lines 123-126) on a worksheet
    whose calls can raise. *)
Definition inicializar_encabezados_si_vacio_ws (ws : Worksheet)
  (df : DataFrame) (c : Corrida) : result unit * Corrida :=
  match en_mundo (get_all_values ws) c with
  | (Raise e, c1) => (Raise e, c1)
  | (Ok existing, c1) =>
      if vacia existing
      then en_mundo (append_row ws (columns df)) (anotar (Fila (columns df)) c1)
      else (Ok tt, c1)
  end.

(** [append_df_to_sheet] (lines 129-132) on a worksheet whose calls can
    raise. *)
Definition append_df_to_sheet_ws (ws : Worksheet) (df : DataFrame)
  (c : Corrida) : result unit * Corrida :=
  let values := data df in
  if vacia values then (Ok tt, c)
  else en_mundo (append_rows ws values) (anotar (Filas values) c).

(** Lines 158-163: the client, the spreadsheet, and the worksheet, made
    when it is not found. *)
Definition abrir_hoja (c : Corrida) : result Worksheet * Corrida :=
  match en_mundo get_gspread_client c with
  | (Raise e, c1) => (Raise e, c1)
  | (Ok gc, c1) =>
      match en_mundo (open_by_key gc SPREADSHEET_ID) c1 with
      | (Raise e, c2) => (Raise e, c2)
      | (Ok sh, c2) =>
          match en_mundo (worksheet sh SHEET_NAME) c2 with
          | (Encontrada ws, c3) => (Ok ws, c3)
          | (NoEncontrada, c3) =>
              en_mundo (add_worksheet sh SHEET_NAME 1000 30) c3
          | (OtraFalla e, c3) => (Raise e, c3)
          end
      end
  end.

(** Lines 157-169: the upload.  Whatever is raised inside is caught. *)
Definition cargar (df : DataFrame) (c : Corrida) : Corrida :=
  match abrir_hoja c with
  | (Raise _, c1) => c1
  | (Ok ws, c1) =>
      match inicializar_encabezados_si_vacio_ws ws df c1 with
      | (Raise _, c2) => c2
      | (Ok _, c2) => snd (append_df_to_sheet_ws ws df c2)
      end
  end.

(** [extraer_tablas_pdf] from the bytes: line 95 opens the document. *)
Definition extraer_de_bytes (pdf_bytes : bytes) : result DataFrame :=
  pdf <- pdfplumber_open pdf_bytes ;;
  extraer_tablas_pdf pdf.

Definition con_red (net : Net World) (c : Corrida) : Corrida :=
  {| red := net; escritos := escritos c |}.

(** [main], with today's date as [hoy].  It returns [None] ([Ok tt]) or
    lets an exception through. *)
Definition main (hoy : date) (c : Corrida) : result unit * Corrida :=
  if negb (es_dia_habil hoy) then (Ok tt, c)
  else
    match descargar_pdf requests_get hoy (red c) with
    | (Raise e, net') => (Raise e, con_red net' c)
    | (Ok None, net') => (Ok tt, con_red net' c)
    | (Ok (Some pdf_bytes), net') =>
        match extraer_de_bytes pdf_bytes with
        | Raise _ => (Ok tt, con_red net' c)
        | Ok df =>
            match agregar_fecha df hoy with
            | Raise e => (Raise e, con_red net' c)
            | Ok df => (Ok tt, cargar df (con_red net' c))
            end
        end
    end.

End Orquestador.

Section Cargas.

(** A worksheet whose calls return, as in the sink writer above. *)
Variable Worksheet : Type.
Variable get_all_values : Worksheet -> list (list string).
Variable append_row : list label -> Worksheet -> Worksheet.
Variable append_rows : list (list value) -> Worksheet -> Worksheet.

(** Lines 165-166, one run after the other, one frame per run. *)
Definition cargas (dfs : list DataFrame) (h : Hoja Worksheet) : Hoja Worksheet :=
  fold_left
    (fun h df =>
       append_df_to_sheet append_rows
         (inicializar_encabezados_si_vacio get_all_values append_row h df) df)
    dfs h.

End Cargas.

(** Is the write a header row? *)
Definition es_fila (e : escritura) : bool :=
  match e with
  | Fila _ => true
  | Filas _ => false
  end.

(** Collaborators to run [main] on: the network of [red_ejemplo], a
    parser that finds one table in any document, and a spreadsheet
    service whose sheet is a [HojaLista] kept beside the request
    counter. *)
Module Ensayo.

Definition World : Type := (nat * list (list string))%type.

Definition requests_get (url : string) (w : World) : result Response * World :=
  let (r, n) := red_ejemplo url (fst w) in (r, (n, snd w)).

Definition tabla_con_fecha : Table :=
  [ [Some "Fecha"; Some "Precio"]; [Some "05/03"; Some "1000"] ].

Definition tabla_de_precios : Table :=
  [ [Some "Producto"; Some "Precio"]; [Some "Papa"; Some "1000"] ].

Definition abrir_con_fecha (b : bytes) : result PDF := Ok [ [tabla_con_fecha] ].
Definition abrir_precios (b : bytes) : result PDF := Ok [ [tabla_de_precios] ].

Definition get_gspread_client (w : World) : result unit * World := (Ok tt, w).
Definition open_by_key (gc : unit) (key : string) (w : World)
  : result unit * World := (Ok tt, w).
Definition worksheet (sh : unit) (name : string) (w : World)
  : busqueda unit * World := (Encontrada tt, w).
Definition add_worksheet (sh : unit) (name : string) (rows cols : Z) (w : World)
  : result unit * World := (Ok tt, w).
Definition get_all_values (ws : unit) (w : World)
  : result (list (list string)) * World :=
  (Ok (HojaLista.get_all_values (snd w)), w).

Definition texto_valor (v : value) : string :=
  match v with
  | VStr s => s
  | VInt n => str n
  | VNone | VNaN | VNA => ""
  end.

Definition append_row (ws : unit) (r : list label) (w : World)
  : result unit * World :=
  (Ok tt, (fst w, (snd w ++ [map HojaLista.texto r])%list)).
Definition append_rows (ws : unit) (rs : list (list value)) (w : World)
  : result unit * World :=
  (Ok tt, (fst w, (snd w ++ map (map texto_valor) rs)%list)).

(** The same sheet for the sink writer whose calls return. *)
Definition append_rows_lista (rs : list (list value)) (w : HojaLista.Worksheet)
  : HojaLista.Worksheet :=
  (w ++ map (map texto_valor) rs)%list.

End Ensayo.

(** [main] on the collaborators of [Ensayo], from a world with no request
    made and a sheet with no row. *)
Definition inicio_ensayo : Corrida Ensayo.World :=
  mkCorrida (mkNet ((0%nat, []) : Ensayo.World) []) [].

Definition main_ensayo (abrir : bytes -> result PDF) (hoy : date)
  : result unit * Corrida Ensayo.World :=
  main Ensayo.requests_get abrir Ensayo.get_gspread_client Ensayo.open_by_key
       Ensayo.worksheet Ensayo.add_worksheet Ensayo.get_all_values
       Ensayo.append_row Ensayo.append_rows "hoja-de-ensayo" hoy inicio_ensayo.

(* ================================================================== *)
(** * Properties: Python built-ins and dates *)
(* ================================================================== *)

Unset Implicit Arguments.

Lemma rango_In (lo : Z) (n : nat) (z : Z) :
  lo <= z < lo + Z.of_nat n -> In z (rango lo n).
Proof.
  revert lo. induction n as [|k IH]; intros lo Hz.
  - lia.
  - simpl. destruct (Z.eq_dec lo z) as [->|Hne].
    + now left.
    + right. apply IH. lia.
Qed.

(** A boolean fact checked on every integer of a range holds on the range. *)
Lemma por_casos (f : Z -> bool) (lo hi : Z) :
  forallb f (rango lo (Z.to_nat (hi - lo + 1))) = true ->
  forall z, lo <= z <= hi -> f z = true.
Proof.
  intros Hall z Hz. rewrite forallb_forall in Hall.
  apply Hall, rango_In. lia.
Qed.

Lemma str_un_digito (n : Z) : 0 <= n <= 9 -> str n = un_digito n.
Proof.
  intros Hn. apply String.eqb_eq.
  apply (@por_casos (fun z => String.eqb (str z) (un_digito z)) 0 9);
    [vm_compute; reflexivity | lia].
Qed.

Lemma str_dos_digitos (n : Z) : 10 <= n <= 99 -> str n = dos_digitos n.
Proof.
  intros Hn. apply String.eqb_eq.
  apply (@por_casos (fun z => String.eqb (str z) (dos_digitos z)) 10 99);
    [vm_compute; reflexivity | lia].
Qed.

Lemma str_cuatro_digitos (n : Z) :
  1000 <= n <= 9999 -> str n = cuatro_digitos n.
Proof.
  intros Hn. apply String.eqb_eq.
  apply (@por_casos (fun z => String.eqb (str z) (cuatro_digitos z)) 1000 9999);
    [vm_compute; reflexivity | lia].
Qed.

Lemma fmt_02d_dos_digitos (n : Z) : 0 <= n <= 99 -> fmt_0d 2 n = dos_digitos n.
Proof.
  intros Hn. apply String.eqb_eq.
  apply (@por_casos (fun z => String.eqb (fmt_0d 2 z) (dos_digitos z)) 0 99);
    [vm_compute; reflexivity | lia].
Qed.

Lemma fmt_04d_cuatro_digitos (n : Z) :
  0 <= n <= 9999 -> fmt_0d 4 n = cuatro_digitos n.
Proof.
  intros Hn. apply String.eqb_eq.
  apply (@por_casos (fun z => String.eqb (fmt_0d 4 z) (cuatro_digitos z)) 0 9999);
    [vm_compute; reflexivity | lia].
Qed.

(** [str] never gives the empty string: it starts with a digit or a sign. *)
Lemma str_no_vacio (n : Z) : str n <> "".
Proof.
  unfold str. destruct (Z.to_int n) as [d|d]; simpl.
  - destruct d; simpl; discriminate.
  - discriminate.
Qed.

Lemma todos_digitos_cuatro (n : Z) :
  0 <= n <= 9999 -> todos_digitos (cuatro_digitos n) = true.
Proof.
  intros Hn.
  apply (@por_casos (fun z => todos_digitos (cuatro_digitos z)) 0 9999);
    [vm_compute; reflexivity | lia].
Qed.

Lemma todos_digitos_dos (n : Z) :
  0 <= n <= 99 -> todos_digitos (dos_digitos n) = true.
Proof.
  intros Hn.
  apply (@por_casos (fun z => todos_digitos (dos_digitos z)) 0 99);
    [vm_compute; reflexivity | lia].
Qed.

Lemma append_inv_head (s a b : string) : s ++ a = s ++ b -> a = b.
Proof.
  induction s as [|c s IH]; simpl; intros H.
  - exact H.
  - injection H as H. auto.
Qed.

Lemma days_in_month_le_31 (y m : Z) : 1 <= m <= 12 -> days_in_month y m <= 31.
Proof.
  intros Hm. unfold days_in_month.
  assert (Hc : In m (rango 1 12)) by (apply rango_In; lia).
  simpl in Hc.
  repeat (destruct Hc as [<-|Hc]; [destruct (is_leap y); simpl; lia|]).
  contradiction.
Qed.

(** What the constructor of [date] guarantees about the fields. *)
Lemma valid_date_campos (d : date) :
  valid_date d = true ->
  1 <= year d <= 9999 /\ 1 <= month d <= 12 /\ 1 <= day d <= 31.
Proof.
  unfold valid_date. rewrite !andb_true_iff, !Z.leb_le.
  intros [[[[[? ?] ?] ?] ?] Hd].
  assert (days_in_month (year d) (month d) <= 31)
    by (apply days_in_month_le_31; lia).
  lia.
Qed.

Lemma weekday_rango (d : date) : 0 <= weekday d < 7.
Proof. unfold weekday. apply Z.mod_pos_bound. lia. Qed.

Lemma meses_mes (m : Z) :
  1 <= m <= 12 ->
  exists mes, dict_get SPANISH_MONTHS m = Some mes
              /\ nth_error meses (Z.to_nat (m - 1)) = Some mes
              /\ mes <> "".
Proof.
  intros Hm.
  assert (Hc : In m (rango 1 12)) by (apply rango_In; lia).
  simpl in Hc.
  repeat (destruct Hc as [<-|Hc];
          [eexists; repeat split; try reflexivity; discriminate|]).
  contradiction.
Qed.

(* ================================================================== *)
(** * Properties: date gate *)
(* ================================================================== *)

(** The week of Monday 11 March 2024, as [weekday] and the gate see it. *)
Example semana_de_marzo_2024 :
  map (fun d => (weekday (Date 2024 3 d), es_dia_habil (Date 2024 3 d)))
      [11; 12; 13; 14; 15; 16; 17]
  = [(0, true); (1, true); (2, true); (3, true); (4, true);
     (5, false); (6, false)].
Proof. reflexivity. Qed.

Lemma dia_de_weekday (fecha : date) :
  (dia_de fecha = Sabado <-> weekday fecha = 5)
  /\ (dia_de fecha = Domingo <-> weekday fecha = 6).
Proof.
  unfold dia_de. pose proof (weekday_rango fecha) as Hr.
  assert (Hc : In (weekday fecha) (rango 0 7)) by (apply rango_In; lia).
  simpl in Hc.
  repeat (destruct Hc as [<-|Hc]; [simpl; split; split; (discriminate || reflexivity || lia)|]).
  contradiction.
Qed.

(** C8: [es_dia_habil] answers true exactly when the weekday of the date
    is one of 0..4 (Monday to Friday, 0 being Monday), and false exactly
    on Saturday (5) and Sunday (6). *)
Theorem C8_es_dia_habil (fecha : date) :
  (es_dia_habil fecha = true <-> 0 <= weekday fecha <= 4)
  /\ (es_dia_habil fecha = false <-> weekday fecha = 5 \/ weekday fecha = 6)
  /\ (es_dia_habil fecha = false <->
      dia_de fecha = Sabado \/ dia_de fecha = Domingo).
Proof.
  pose proof (weekday_rango fecha) as Hr.
  pose proof (dia_de_weekday fecha) as [Hs Hd].
  unfold es_dia_habil.
  rewrite Z.ltb_lt, Z.ltb_ge, Hs, Hd.
  repeat split; intros; lia.
Qed.

(* ================================================================== *)
(** * Properties: candidate URLs *)
(* ================================================================== *)

(** The list [construir_urls_candidatas] returns, for a month it knows. *)
Lemma construir_urls_candidatas_eq (fecha : date) (mes : string) :
  dict_get SPANISH_MONTHS (month fecha) = Some mes ->
  construir_urls_candidatas fecha =
  Ok (let base := uploads ++ str (year fecha) ++ "/"
                  ++ fmt_0d 2 (month fecha) ++ "/" in
      [ base ++ "Boletin-" ++ fmt_0d 2 (day fecha) ++ mes
             ++ str (year fecha) ++ ".pdf";
        base ++ "Boletin-" ++ str (day fecha) ++ mes
             ++ str (year fecha) ++ ".pdf";
        base ++ "Boletin_diario_" ++ str (year fecha)
             ++ fmt_0d 2 (month fecha) ++ fmt_0d 2 (day fecha) ++ ".pdf" ]).
Proof.
  intros Hm. unfold construir_urls_candidatas, dict_item. rewrite Hm.
  reflexivity.
Qed.

(** A month outside 1..12 is a [KeyError]; a [date] never has one. *)
Lemma construir_urls_candidatas_KeyError (fecha : date) :
  dict_get SPANISH_MONTHS (month fecha) = None ->
  construir_urls_candidatas fecha = Raise KeyError.
Proof.
  intros Hm. unfold construir_urls_candidatas, dict_item. rewrite Hm.
  reflexivity.
Qed.

Lemma uploads_no_vacio (s : string) : uploads ++ s <> "".
Proof. discriminate. Qed.

(** C6, as the code has it: for every valid date the function returns
    exactly three non-empty strings.  Each starts with the fixed prefix,
    then the year in plain decimal, a slash, the month on two digits with a
    leading zero, a slash.  The file names are, in order, (a) the day on
    two digits, the Spanish month name and the year, (b) the day without
    padding, the month name and the year, (c) [Boletin_diario_] followed
    by year, two-digit month and two-digit day.  The year has exactly four
    digits when it is at least 1000; it is not padded below that. *)
Theorem C6_construir_urls_candidatas (fecha : date) :
  valid_date fecha = true ->
  exists mes : string,
    nth_error meses (Z.to_nat (month fecha - 1)) = Some mes
    /\ mes <> ""
    /\ (let Y := str (year fecha) in
        let MM := dos_digitos (month fecha) in
        let DD := dos_digitos (day fecha) in
        let D := if day fecha <? 10 then un_digito (day fecha)
                 else dos_digitos (day fecha) in
        let base := uploads ++ Y ++ "/" ++ MM ++ "/" in
        construir_urls_candidatas fecha =
        Ok [ base ++ "Boletin-" ++ DD ++ mes ++ Y ++ ".pdf";
             base ++ "Boletin-" ++ D ++ mes ++ Y ++ ".pdf";
             base ++ "Boletin_diario_" ++ Y ++ MM ++ DD ++ ".pdf" ]
        /\ Y <> ""
        /\ (1000 <= year fecha -> Y = cuatro_digitos (year fecha)))
    /\ (forall us, construir_urls_candidatas fecha = Ok us ->
                   List.length us = 3%nat /\ Forall (fun u => u <> "") us).
Proof.
  intros Hv. apply valid_date_campos in Hv as (Hy & Hm & Hd).
  destruct (meses_mes _ Hm) as (mes & Hget & Hnth & Hne).
  exists mes. split; [exact Hnth|]. split; [exact Hne|].
  assert (HD : str (day fecha) =
               if day fecha <? 10 then un_digito (day fecha)
               else dos_digitos (day fecha)).
  { destruct (day fecha <? 10) eqn:E.
    - apply Z.ltb_lt in E. apply str_un_digito. lia.
    - apply Z.ltb_ge in E. apply str_dos_digitos. lia. }
  rewrite (construir_urls_candidatas_eq fecha mes Hget).
  rewrite !fmt_02d_dos_digitos by lia. rewrite <- HD.
  cbv zeta. split; [|intros us Hus; injection Hus as <-].
  - split; [reflexivity|]. split; [apply str_no_vacio|].
    intros H1000. apply str_cuatro_digitos. lia.
  - split; [reflexivity|]. repeat constructor; apply uploads_no_vacio.
Qed.

(** C6, witness: 5 March 2024. *)
Lemma C6_construir_urls_candidatas_witness :
  exists mes : string,
    nth_error meses (Z.to_nat (month (Date 2024 3 5) - 1)) = Some mes
    /\ mes <> ""
    /\ (let Y := str (year (Date 2024 3 5)) in
        let MM := dos_digitos (month (Date 2024 3 5)) in
        let DD := dos_digitos (day (Date 2024 3 5)) in
        let D := if day (Date 2024 3 5) <? 10
                 then un_digito (day (Date 2024 3 5))
                 else dos_digitos (day (Date 2024 3 5)) in
        let base := uploads ++ Y ++ "/" ++ MM ++ "/" in
        construir_urls_candidatas (Date 2024 3 5) =
        Ok [ base ++ "Boletin-" ++ DD ++ mes ++ Y ++ ".pdf";
             base ++ "Boletin-" ++ D ++ mes ++ Y ++ ".pdf";
             base ++ "Boletin_diario_" ++ Y ++ MM ++ DD ++ ".pdf" ]
        /\ Y <> ""
        /\ (1000 <= year (Date 2024 3 5) ->
            Y = cuatro_digitos (year (Date 2024 3 5))))
    /\ (forall us, construir_urls_candidatas (Date 2024 3 5) = Ok us ->
                   List.length us = 3%nat /\ Forall (fun u => u <> "") us).
Proof. apply (C6_construir_urls_candidatas (Date 2024 3 5)). reflexivity. Defined.

(** C6 as stated fails below the year 1000: on 5 March 999, a valid
    [date], the path segment after the prefix is [999/03/], so no
    candidate has a four-digit year there. *)
Lemma C6_counterexample :
  valid_date (Date 999 3 5) = true
  /\ construir_urls_candidatas (Date 999 3 5) =
     Ok [ "https://corabastos.com.co/wp-content/uploads/999/03/Boletin-05marzo999.pdf";
          "https://corabastos.com.co/wp-content/uploads/999/03/Boletin-5marzo999.pdf";
          "https://corabastos.com.co/wp-content/uploads/999/03/Boletin_diario_9990305.pdf" ]
  /\ forall us, construir_urls_candidatas (Date 999 3 5) = Ok us ->
       forall u, In u us -> ~ segmento_anio_mes (Date 999 3 5) u.
Proof.
  split; [reflexivity|]. split; [reflexivity|].
  intros us Hus u Hu (Y & resto & Heq & Hlen & Hdig).
  vm_compute in Hus. injection Hus as <-.
  destruct Y as [|a [|b [|c [|d [|e Y]]]]]; try discriminate Hlen.
  simpl in Hu.
  destruct Hu as [<-|[<-|[<-|[]]]];
    change uploads with "https://corabastos.com.co/wp-content/uploads/" in Heq;
    cbn [append] in Heq; injection Heq as <- <- <- <- _;
    vm_compute in Hdig; discriminate Hdig.
Qed.

(** C10: from the tenth of the month on, padding the day changes nothing,
    so the first two candidates are the same string; the third differs
    from them, and the list holds two distinct locations. *)
Theorem C10_dos_urls_distintas (fecha : date) :
  valid_date fecha = true ->
  10 <= day fecha ->
  exists u1 u3 : string,
    construir_urls_candidatas fecha = Ok [u1; u1; u3]
    /\ u1 <> u3
    /\ List.length (nodup string_dec [u1; u1; u3]) = 2%nat.
Proof.
  intros Hv H10. apply valid_date_campos in Hv as (Hy & Hm & Hd).
  destruct (meses_mes _ Hm) as (mes & Hget & _ & _).
  rewrite (construir_urls_candidatas_eq fecha mes Hget). cbv zeta.
  rewrite (fmt_02d_dos_digitos (day fecha)) by lia.
  rewrite (str_dos_digitos (day fecha)) by lia.
  eexists _, _. split; [reflexivity|].
  assert (Hne : forall b x y : string,
             b ++ "Boletin-" ++ x <> b ++ "Boletin_diario_" ++ y).
  { intros b x y H. apply append_inv_head in H. discriminate H. }
  split; [apply Hne|].
  cbn [nodup].
  destruct (in_dec string_dec _ [_; _]) as [_|Hn]; [|elim Hn; now left].
  destruct (in_dec string_dec _ [_]) as [[He|[]]|_]; [|reflexivity].
  symmetry in He. now apply Hne in He.
Qed.

(** C10, witness: 15 March 2024. *)
Lemma C10_dos_urls_distintas_witness :
  exists u1 u3 : string,
    construir_urls_candidatas (Date 2024 3 15) = Ok [u1; u1; u3]
    /\ u1 <> u3
    /\ List.length (nodup string_dec [u1; u1; u3]) = 2%nat.
Proof.
  apply (C10_dos_urls_distintas (Date 2024 3 15)); [reflexivity | simpl; lia].
Defined.

(* ================================================================== *)
(** * Properties: document locator *)
(* ================================================================== *)

Lemma prefix_spec (n h : string) :
  String.prefix n h = true <-> exists b, h = n ++ b.
Proof.
  revert h. induction n as [|c n IH]; intros [|c' h]; cbn [String.prefix append].
  - split; [now exists ""|reflexivity].
  - split; [now eexists|reflexivity].
  - split; [discriminate|]. intros [b Hb]. discriminate Hb.
  - destruct (ascii_dec c c') as [->|Hne].
    + rewrite IH. split; intros [b Hb]; exists b.
      * now rewrite Hb.
      * now injection Hb.
    + split; [discriminate|]. intros [b Hb]. injection Hb as Hc _.
      now elim Hne.
Qed.

(** [contains] is Python's [in]: some text, the needle, some text. *)
Lemma contains_spec (n h : string) :
  contains n h = true <-> exists a b, h = a ++ n ++ b.
Proof.
  induction h as [|c h IH].
  - cbn [contains]. rewrite orb_false_r, prefix_spec. split.
    + intros [b Hb]. now exists "", b.
    + intros (a & b & Hab). destruct a; [now exists b|discriminate Hab].
  - cbn [contains]. rewrite orb_true_iff, prefix_spec, IH. split.
    + intros [[b Hb]|(a & b & Hab)].
      * now exists "", b.
      * exists (String c a), b. now rewrite Hab.
    + intros (a & b & Hab). destruct a as [|c' a].
      * left. now exists b.
      * right. exists a, b. now injection Hab.
Qed.

Lemma lower_app (a b : string) : lower (a ++ b) = lower a ++ lower b.
Proof. induction a as [|c a IH]; simpl; [reflexivity | now rewrite IH]. Qed.

Lemma lower_app_inv (s a b : string) :
  lower s = a ++ b -> exists s1 s2, s = s1 ++ s2 /\ lower s1 = a /\ lower s2 = b.
Proof.
  revert s. induction a as [|c a IH]; intros s H.
  - now exists "", s.
  - destruct s as [|c' s]; [discriminate H|].
    simpl in H. injection H as Hc H.
    destruct (IH _ H) as (s1 & s2 & -> & <- & <-).
    exists (String c' s1), s2. simpl. now rewrite Hc.
Qed.

(** The lower-cased text has [needle] exactly when the text has a piece
    that is [needle] up to letter case. *)
Lemma contains_lower_spec (needle h : string) :
  contains needle (lower h) = true <->
  exists a x b, h = a ++ x ++ b /\ lower x = needle.
Proof.
  rewrite contains_spec. split.
  - intros (a & b & H).
    apply lower_app_inv in H as (s1 & s2 & -> & <- & H2).
    apply lower_app_inv in H2 as (x & s3 & -> & <- & <-).
    now exists s1, x, s3.
  - intros (a & x & b & -> & <-). exists (lower a), (lower b).
    now rewrite !lower_app.
Qed.

(** Line 83: status 200, and [pdf] in the declared content type, in any
    letter case (no header counts as the empty content type). *)
Lemma aceptado_spec (resp : Response) :
  aceptado resp = true <->
  status_code resp = 200
  /\ exists a x b,
       headers_get (headers resp) "Content-Type" "" = a ++ x ++ b
       /\ lower x = "pdf".
Proof.
  unfold aceptado. cbv zeta.
  now rewrite andb_true_iff, Z.eqb_eq, contains_lower_spec.
Qed.

(** A valid date always gets its three candidates. *)
Lemma tres_candidatos (fecha : date) :
  valid_date fecha = true ->
  exists u1 u2 u3 : string,
    construir_urls_candidatas fecha = Ok [u1; u2; u3].
Proof.
  intros Hv. apply valid_date_campos in Hv as (_ & Hm & _).
  destruct (meses_mes _ Hm) as (mes & Hget & _ & _).
  rewrite (construir_urls_candidatas_eq fecha mes Hget). cbv zeta.
  now eexists _, _, _.
Qed.

Section LocatorProps.

Variable World : Type.
Variable requests_get : string -> World -> result Response * World.

(** The loop, read against the answers the network would give to the
    whole list: it stops at the first answer line 83 accepts, returns its
    body, and has requested the URLs up to that one and no other; when no
    answer is accepted it has requested them all and returns [None]. *)
Lemma probar_spec (urls : list string) (net : Net World) :
  let rs := respuestas requests_get urls (world net) in
  match probar requests_get urls net with
  | (Some payload, net') =>
      exists k resp,
        nth_error rs k = Some (Ok resp)
        /\ aceptado resp = true
        /\ payload = content resp
        /\ Forall (fun r => rechazado r = true) (firstn k rs)
        /\ requested net' = (requested net ++ firstn (S k) urls)%list
  | (None, net') =>
      Forall (fun r => rechazado r = true) rs
      /\ requested net' = (requested net ++ urls)%list
  end.
Proof.
  revert net. induction urls as [|url rest IH]; intros net; cbv zeta.
  - simpl. split; [constructor | now rewrite app_nil_r].
  - cbn [probar respuestas]. unfold get.
    destruct (requests_get url (world net)) as [r w'] eqn:Hget.
    set (net1 := {| world := w'; requested := (requested net ++ [url])%list |}).
    assert (Hskip : rechazado r = true ->
      match probar requests_get rest net1 with
      | (Some payload, net') =>
          exists k resp,
            nth_error (r :: respuestas requests_get rest w') k = Some (Ok resp)
            /\ aceptado resp = true
            /\ payload = content resp
            /\ Forall (fun r => rechazado r = true)
                      (firstn k (r :: respuestas requests_get rest w'))
            /\ requested net' = (requested net ++ firstn (S k) (url :: rest))%list
      | (None, net') =>
          Forall (fun r => rechazado r = true)
                 (r :: respuestas requests_get rest w')
          /\ requested net' = (requested net ++ url :: rest)%list
      end).
    { intros Hr. specialize (IH net1). cbv zeta in IH.
      destruct (probar requests_get rest net1) as [[payload|] net'].
      - destruct IH as (k & resp & Hk & Hacc & Hp & Hall & Hreq).
        exists (S k), resp. split; [exact Hk|]. split; [exact Hacc|].
        split; [exact Hp|]. split.
        + simpl. now constructor.
        + rewrite Hreq. unfold net1. cbn [requested].
          rewrite <- app_assoc. reflexivity.
      - destruct IH as [Hall Hreq]. split; [now constructor|].
        rewrite Hreq. unfold net1. cbn [requested].
        rewrite <- app_assoc. reflexivity. }
    destruct r as [resp|e].
    + destruct (aceptado resp) eqn:Hacc.
      * exists O, resp. split; [reflexivity|]. split; [exact Hacc|].
        split; [reflexivity|]. split; [constructor|reflexivity].
      * apply Hskip. simpl. now rewrite Hacc.
    + now apply Hskip.
Qed.

Lemma descargar_pdf_eq (fecha : date) (urls : list string) (net : Net World) :
  construir_urls_candidatas fecha = Ok urls ->
  descargar_pdf requests_get fecha net =
  (Ok (fst (probar requests_get urls net)), snd (probar requests_get urls net)).
Proof.
  intros Hu. unfold descargar_pdf. rewrite Hu.
  now destruct (probar requests_get urls net).
Qed.

(** C5: for every date the locator asks for the three candidates in
    list order.  Read against the answers [rs] the network gives to the
    three requests in turn: it returns the body of the first answer that
    has status 200 and [pdf], in any letter case, in its content type,
    and has then requested the candidates up to that one and none after
    it; an answer that raised or was refused only moves the loop on; when
    no answer is accepted it returns [None] after the three requests,
    and never raises.  When only the third answer is accepted, the three
    candidates have been requested, in order, and its body is returned. *)
Theorem C5_descargar_pdf (fecha : date) (net : Net World) :
  valid_date fecha = true ->
  exists u1 u2 u3 : string,
    construir_urls_candidatas fecha = Ok [u1; u2; u3]
    /\ (let rs := respuestas requests_get [u1; u2; u3] (world net) in
        match descargar_pdf requests_get fecha net with
        | (Ok (Some payload), net') =>
            exists k resp,
              nth_error rs k = Some (Ok resp)
              /\ aceptado resp = true
              /\ payload = content resp
              /\ Forall (fun r => rechazado r = true) (firstn k rs)
              /\ requested net'
                 = (requested net ++ firstn (S k) [u1; u2; u3])%list
        | (Ok None, net') =>
            Forall (fun r => rechazado r = true) rs
            /\ requested net' = (requested net ++ [u1; u2; u3])%list
        | (Raise _, _) => False
        end)
    /\ (forall r1 r2 resp3,
          respuestas requests_get [u1; u2; u3] (world net)
          = [r1; r2; Ok resp3] ->
          rechazado r1 = true -> rechazado r2 = true ->
          aceptado resp3 = true ->
          exists net',
            descargar_pdf requests_get fecha net
            = (Ok (Some (content resp3)), net')
            /\ requested net' = (requested net ++ [u1; u2; u3])%list)
    /\ (forall resp,
          aceptado resp = true <->
          status_code resp = 200
          /\ exists a x b,
               headers_get (headers resp) "Content-Type" "" = a ++ x ++ b
               /\ lower x = "pdf")
    /\ (forall r,
          rechazado r = true <->
          match r with
          | Ok resp => aceptado resp = false
          | Raise _ => True
          end).
Proof.
  intros Hv.
  destruct (tres_candidatos fecha Hv) as (u1 & u2 & u3 & Hu).
  exists u1, u2, u3. split; [exact Hu|].
  assert (Hb :
    let rs := respuestas requests_get [u1; u2; u3] (world net) in
    match descargar_pdf requests_get fecha net with
    | (Ok (Some payload), net') =>
        exists k resp,
          nth_error rs k = Some (Ok resp)
          /\ aceptado resp = true
          /\ payload = content resp
          /\ Forall (fun r => rechazado r = true) (firstn k rs)
          /\ requested net'
             = (requested net ++ firstn (S k) [u1; u2; u3])%list
    | (Ok None, net') =>
        Forall (fun r => rechazado r = true) rs
        /\ requested net' = (requested net ++ [u1; u2; u3])%list
    | (Raise _, _) => False
    end).
  { rewrite (descargar_pdf_eq fecha _ net Hu).
    pose proof (probar_spec [u1; u2; u3] net) as Hp. cbv zeta in Hp |- *.
    destruct (probar requests_get [u1; u2; u3] net) as [[payload|] net'];
      exact Hp. }
  split; [exact Hb|]. split; [|split].
  - intros r1 r2 resp3 Hrs Hr1 Hr2 Hacc. cbv zeta in Hb. rewrite Hrs in Hb.
    destruct (descargar_pdf requests_get fecha net) as [[[payload|]|e] net'].
    + destruct Hb as (k & resp & Hk & Ha & -> & _ & Hreq).
      destruct k as [|[|[|k]]]; simpl in Hk.
      * injection Hk as ->. simpl in Hr1. rewrite Ha in Hr1. discriminate.
      * injection Hk as ->. simpl in Hr2. rewrite Ha in Hr2. discriminate.
      * injection Hk as ->. exists net'. split; [reflexivity|exact Hreq].
      * destruct k; discriminate Hk.
    + destruct Hb as [Hall _].
      apply Forall_inv_tail, Forall_inv_tail, Forall_inv in Hall.
      simpl in Hall. rewrite Hacc in Hall. discriminate.
    + contradiction.
  - apply aceptado_spec.
  - intros [resp|e]; simpl; [|tauto].
    destruct (aceptado resp); simpl; split; congruence.
Qed.

End LocatorProps.

(** C5, witness: 5 March 2024 on [red_ejemplo], where the first request
    fails, the second gets a 404 page and the third the PDF. *)
Lemma C5_descargar_pdf_witness :
  valid_date (Date 2024 3 5) = true
  /\ exists u1 u2 u3 : string,
       construir_urls_candidatas (Date 2024 3 5) = Ok [u1; u2; u3]
       /\ fst (descargar_pdf red_ejemplo (Date 2024 3 5) (mkNet 0%nat []))
          = Ok (Some [Byte.x25; Byte.x50; Byte.x44; Byte.x46])
       /\ requested (snd (descargar_pdf red_ejemplo (Date 2024 3 5)
                                        (mkNet 0%nat [])))
          = [u1; u2; u3].
Proof.
  split; [reflexivity|].
  destruct (C5_descargar_pdf nat red_ejemplo (Date 2024 3 5) (mkNet 0%nat [])
              eq_refl) as (u1 & u2 & u3 & Hu & _ & Hsc & _).
  exists u1, u2, u3. split; [exact Hu|].
  vm_compute in Hu. injection Hu as <- <- <-.
  destruct (Hsc (Raise (RequestException "timed out"))
                (Ok (mkResponse 404 [("Content-Type", "text/html")] []))
                (mkResponse 200 [("content-type", "Application/PDF")]
                            [Byte.x25; Byte.x50; Byte.x44; Byte.x46])
                eq_refl eq_refl eq_refl eq_refl) as (net' & Heq & Hreq).
  rewrite Heq. split; [reflexivity|exact Hreq].
Defined.

(* ================================================================== *)
(** * Properties: sink writer *)
(* ================================================================== *)

Lemma vacia_true {A : Type} (l : list A) : vacia l = true <-> l = [].
Proof. destruct l; simpl; split; congruence. Qed.

Lemma vacia_false {A : Type} (l : list A) : vacia l = false <-> l <> [].
Proof. destruct l; simpl; split; congruence. Qed.

Lemma app_uno_distinto {A : Type} (l : list A) (x : A) : (l ++ [x])%list <> l.
Proof.
  intros H. apply (f_equal (@List.length A)) in H.
  rewrite length_app in H. simpl in H. lia.
Qed.

Section SinkProps.

Variable Worksheet : Type.
Variable get_all_values : Worksheet -> list (list string).
Variable append_row : list label -> Worksheet -> Worksheet.

(** What the function does with any worksheet: when [get_all_values]
    returns the empty list it makes one write, the row of the frame's
    column labels; when it returns anything else it writes nothing and
    leaves the sheet as it is.  So the header row is written if and only
    if the reading is the empty list. *)
Lemma inicializar_encabezados_si_vacio_lectura
  (h : Hoja Worksheet) (df : DataFrame) :
  let h' := inicializar_encabezados_si_vacio get_all_values append_row h df in
  (get_all_values (ws h) = [] ->
     ws h' = append_row (columns df) (ws h)
     /\ escrito h' = (escrito h ++ [Fila (columns df)])%list)
  /\ (get_all_values (ws h) <> [] -> h' = h)
  /\ (escrito h' = (escrito h ++ [Fila (columns df)])%list <->
      get_all_values (ws h) = [])
  /\ (escrito h' = escrito h <-> get_all_values (ws h) <> []).
Proof.
  cbv zeta. unfold inicializar_encabezados_si_vacio.
  destruct (vacia (get_all_values (ws h))) eqn:E.
  - apply vacia_true in E. cbn [ws escrito].
    split; [intros _; split; reflexivity|].
    split; [intros Hne; now elim Hne|].
    split; [tauto|].
    split; [intros Habs; now apply app_uno_distinto in Habs|].
    intros Hne; now elim Hne.
  - apply vacia_false in E.
    split; [intros He; now elim E|].
    split; [reflexivity|].
    split; [|tauto].
    split; [intros Habs; symmetry in Habs; now apply app_uno_distinto in Habs|].
    intros He; now elim E.
Qed.

End SinkProps.

(** The worksheet of gspread 6 never reads as the empty list. *)
Lemma get_all_values_no_vacio (w : HojaLista.Worksheet) :
  HojaLista.get_all_values w <> [].
Proof. destruct w; discriminate. Qed.

(** So on it the function is the identity. *)
Lemma inicializar_encabezados_si_vacio_gspread
  (h : Hoja HojaLista.Worksheet) (df : DataFrame) :
  inicializar_encabezados_si_vacio
    HojaLista.get_all_values HojaLista.append_row h df = h.
Proof.
  unfold inicializar_encabezados_si_vacio.
  destruct (vacia (HojaLista.get_all_values (ws h))) eqn:E; [|reflexivity].
  apply vacia_true in E. now apply get_all_values_no_vacio in E.
Qed.

(** C7, as the code behaves on the worksheet of gspread 6: the header
    row is not written on a sheet that holds zero rows.  Such a sheet
    reads as [[[]]], one row of no cell, so [not existing] is false and
    [append_row] is not called: for every sheet and every frame the
    function leaves the sheet and the log of writes as they were, the
    log is in no case the old one with the row of column labels added,
    and a sheet with zero rows still has zero rows afterwards.  With at
    least one row nothing is written, as intended. *)
Theorem C7_hoja_vacia_sin_encabezado
  (h : Hoja HojaLista.Worksheet) (df : DataFrame) :
  let h' := inicializar_encabezados_si_vacio
              HojaLista.get_all_values HojaLista.append_row h df in
  h' = h
  /\ escrito h' <> (escrito h ++ [Fila (columns df)])%list
  /\ (HojaLista.filas (ws h) = 0%nat ->
      HojaLista.get_all_values (ws h) = [[]]
      /\ vacia (HojaLista.get_all_values (ws h)) = false
      /\ HojaLista.filas (ws h') = 0%nat).
Proof.
  cbv zeta. rewrite inicializar_encabezados_si_vacio_gspread.
  split; [reflexivity|].
  split; [intros Habs; symmetry in Habs; now apply app_uno_distinto in Habs|].
  intros H0. destruct h as [w es]. cbn [ws] in *.
  destruct w as [|r w]; [|discriminate H0].
  repeat split.
Qed.

(** The sink on a sheet with no row and on a sheet with one: neither
    gets the header. *)
Example encabezados_en_hoja_vacia :
  inicializar_encabezados_si_vacio HojaLista.get_all_values HojaLista.append_row
    (mkHoja ([] : HojaLista.Worksheet) [])
    (mkDF [Fecha; Some "Producto"; pagina; tabla] [])
  = mkHoja [] [].
Proof. reflexivity. Qed.

Example encabezados_en_hoja_con_filas :
  inicializar_encabezados_si_vacio HojaLista.get_all_values HojaLista.append_row
    (mkHoja ([["otra"; "cosa"]] : HojaLista.Worksheet) [])
    (mkDF [Fecha; Some "Producto"; pagina; tabla] [])
  = mkHoja [["otra"; "cosa"]] [].
Proof. reflexivity. Qed.

(* ================================================================== *)
(** * Properties: labels, cells and frames *)
(* ================================================================== *)

Lemma label_eqb_eq (a b : label) : label_eqb a b = true <-> a = b.
Proof. unfold label_eqb. destruct (label_eq_dec a b); split; congruence. Qed.

Lemma label_eqb_neq (a b : label) : label_eqb a b = false <-> a <> b.
Proof. unfold label_eqb. destruct (label_eq_dec a b); split; congruence. Qed.

Lemma label_eqb_refl (a : label) : label_eqb a a = true.
Proof. now apply label_eqb_eq. Qed.

Lemma label_eqb_sym (a b : label) : label_eqb a b = label_eqb b a.
Proof.
  unfold label_eqb.
  destruct (label_eq_dec a b), (label_eq_dec b a); congruence.
Qed.

Lemma existsb_label (c : label) (l : list label) :
  existsb (label_eqb c) l = true <-> In c l.
Proof.
  rewrite existsb_exists. split.
  - intros (x & Hx & He). apply label_eqb_eq in He. now subst.
  - intros Hc. exists c. split; [exact Hc | apply label_eqb_refl].
Qed.

Lemma existsb_label_false (c : label) (l : list label) :
  existsb (label_eqb c) l = false <-> ~ In c l.
Proof.
  rewrite <- existsb_label. destruct (existsb (label_eqb c) l); split; congruence.
Qed.

Lemma index_of_nth (c : label) (cols : list label) (j : nat) :
  index_of c cols = Some j -> nth_error cols j = Some c.
Proof.
  revert j. induction cols as [|c' t IH]; intros j; simpl; [discriminate|].
  destruct (label_eqb c' c) eqn:E.
  - intros [= <-]. apply label_eqb_eq in E. now subst.
  - destruct (index_of c t) as [k|]; simpl; [|discriminate].
    intros [= <-]. simpl. now apply IH.
Qed.

Lemma index_of_None (c : label) (cols : list label) :
  index_of c cols = None <-> ~ In c cols.
Proof.
  induction cols as [|c' t IH]; simpl; [tauto|].
  destruct (label_eqb c' c) eqn:E.
  - apply label_eqb_eq in E. split; [discriminate | intros H; elim H; now left].
  - apply label_eqb_neq in E. destruct (index_of c t); simpl.
    + split; [discriminate|]. intros H. exfalso. apply H. right.
      apply Decidable.not_not; [|now rewrite <- IH].
      destruct (in_dec label_eq_dec c t); [now left | now right].
    + split; [|reflexivity]. intros _ [H|H]; [congruence|]. now apply IH.
Qed.

Lemma index_of_In (c : label) (cols : list label) :
  In c cols -> exists j, index_of c cols = Some j.
Proof.
  intros Hin. destruct (index_of c cols) as [j|] eqn:E; [now exists j|].
  apply index_of_None in E. contradiction.
Qed.

Lemma cell_notin (c : label) (cols : list label) (row : list value) :
  ~ In c cols -> cell c cols row = VNaN.
Proof. intros H. unfold cell. apply index_of_None in H. now rewrite H. Qed.

(** A row computed label by label holds under a label what was computed
    for it. *)
Lemma cell_map_cols (F : label -> value) (c : label) (cols : list label) :
  In c cols -> cell c cols (map F cols) = F c.
Proof.
  intros Hin. unfold cell. destruct (index_of_In c cols Hin) as [j Hj].
  rewrite Hj. apply index_of_nth in Hj.
  apply nth_error_split in Hj as (l1 & l2 & -> & <-).
  rewrite map_app. simpl. rewrite app_nth2; rewrite length_map; [|lia].
  now rewrite Nat.sub_diag.
Qed.

Lemma cell_map_row (f : value -> value) (c : label) (cols : list label)
  (row : list value) :
  f VNaN = VNaN -> cell c cols (map f row) = f (cell c cols row).
Proof.
  intros Hf. unfold cell. destruct (index_of c cols) as [j|]; [|now rewrite Hf].
  rewrite <- Hf at 1. apply map_nth.
Qed.

(** A value other than [NaN] read under a label is a value of the row. *)
Lemma cell_In (c : label) (cols : list label) (row : list value) (v : value) :
  cell c cols row = v -> v <> VNaN -> In v row.
Proof.
  unfold cell. intros Hc Hv. destruct (index_of c cols) as [j|]; [|congruence].
  destruct (Nat.lt_ge_cases j (List.length row)) as [Hlt|Hge].
  - rewrite <- Hc. now apply nth_In.
  - rewrite nth_overflow in Hc by exact Hge. congruence.
Qed.

(** How [setitem] acts on a row when the label is already a column. *)
Lemma cell_setitem_existing (key c : label) (v : value) (cols : list label)
  (row : list value) :
  List.length row = List.length cols -> In c cols ->
  cell c cols (map (fun cx => if label_eqb (fst cx) key then v else snd cx)
                   (combine cols row))
  = if label_eqb c key then v else cell c cols row.
Proof.
  unfold cell. revert row. induction cols as [|c' t IH]; intros row Hlen Hin.
  - contradiction.
  - destruct row as [|x r]; [discriminate Hlen|]. simpl in Hlen.
    cbn [index_of combine map fst snd].
    destruct (label_eqb c' c) eqn:E.
    + apply label_eqb_eq in E. subst c'. reflexivity.
    + apply label_eqb_neq in E. destruct Hin as [Hin|Hin]; [congruence|].
      specialize (IH r ltac:(lia) Hin).
      destruct (index_of c t) as [j|]; simpl; exact IH.
Qed.

(** How [setitem] acts on a row when the label is a new column. *)
Lemma cell_setitem_new (key c : label) (v : value) (cols : list label)
  (row : list value) :
  List.length row = List.length cols -> ~ In key cols ->
  cell c (cols ++ [key]) (row ++ [v])
  = if label_eqb c key then v else cell c cols row.
Proof.
  unfold cell. revert row. induction cols as [|c' t IH]; intros row Hlen Hnot.
  - destruct row; [|discriminate Hlen]. simpl.
    rewrite (label_eqb_sym key c). now destruct (label_eqb c key).
  - destruct row as [|x r]; [discriminate Hlen|]. simpl in Hlen.
    cbn [index_of app].
    destruct (label_eqb c' c) eqn:E.
    + apply label_eqb_eq in E. subst c'. simpl.
      assert (Hck : label_eqb c key = false).
      { apply label_eqb_neq. intros ->. apply Hnot. now left. }
      now rewrite Hck.
    + assert (Hnot' : ~ In key t) by (intros H; apply Hnot; now right).
      specialize (IH r ltac:(lia) Hnot').
      destruct (index_of c (t ++ [key])) as [j|], (index_of c t) as [j'|];
        simpl; exact IH.
Qed.

(** The row [setitem] makes of a row of [df]. *)
Lemma setitem_filas (key : label) (v : value) (df : DataFrame) :
  rectangular df ->
  exists G : list value -> list value,
    data (setitem key v df) = map G (data df)
    /\ forall row, In row (data df) ->
         List.length (G row) = List.length (columns (setitem key v df))
         /\ forall c, cell c (columns (setitem key v df)) (G row)
                      = if label_eqb c key then v
                        else cell c (columns df) row.
Proof.
  intros Hrect. unfold rectangular in Hrect. rewrite Forall_forall in Hrect.
  unfold setitem. destruct (existsb (label_eqb key) (columns df)) eqn:E.
  - apply existsb_label in E. eexists. split; [reflexivity|].
    intros row Hrow. cbn [columns]. specialize (Hrect row Hrow). split.
    + rewrite length_map, length_combine. lia.
    + intros c. destruct (in_dec label_eq_dec c (columns df)) as [Hc|Hc].
      * now apply cell_setitem_existing.
      * rewrite !cell_notin by exact Hc.
        assert (Hck : label_eqb c key = false)
          by (apply label_eqb_neq; congruence).
        now rewrite Hck.
  - apply existsb_label_false in E. eexists. split; [reflexivity|].
    intros row Hrow. cbn [columns]. specialize (Hrect row Hrow). split.
    + rewrite !length_app. simpl. lia.
    + intros c. now apply cell_setitem_new.
Qed.

Lemma setitem_rectangular (key : label) (v : value) (df : DataFrame) :
  rectangular df -> rectangular (setitem key v df).
Proof.
  intros Hrect. destruct (setitem_filas key v df Hrect) as (G & HG & Hrow).
  unfold rectangular. rewrite HG, Forall_forall. intros row' Hin.
  apply in_map_iff in Hin as (row & <- & Hin). now apply Hrow.
Qed.

Lemma setitem_length (key : label) (v : value) (df : DataFrame) :
  List.length (data (setitem key v df)) = List.length (data df).
Proof.
  unfold setitem. destruct (existsb _ _); cbn [data]; apply length_map.
Qed.

Lemma is_unique_app_uno (cols : list label) (key : label) :
  is_unique cols = true -> ~ In key cols -> is_unique (cols ++ [key]) = true.
Proof.
  induction cols as [|c t IH]; simpl; intros Hu Hnot; [reflexivity|].
  apply andb_true_iff in Hu as [Hc Ht]. apply andb_true_iff. split.
  - apply negb_true_iff, existsb_label_false.
    apply negb_true_iff, existsb_label_false in Hc.
    rewrite in_app_iff. simpl. intros [H|[H|[]]]; [contradiction|].
    apply Hnot. left. now symmetry.
  - apply IH; [exact Ht|]. intros H. apply Hnot. now right.
Qed.

Lemma setitem_is_unique (key : label) (v : value) (df : DataFrame) :
  is_unique (columns df) = true -> is_unique (columns (setitem key v df)) = true.
Proof.
  intros Hu. unfold setitem.
  destruct (existsb (label_eqb key) (columns df)) eqn:E; cbn [columns].
  - exact Hu.
  - apply is_unique_app_uno; [exact Hu | now apply existsb_label_false].
Qed.

Lemma max_width_ge (rows : list Row) (r : Row) :
  In r rows -> (List.length r <= max_width rows)%nat.
Proof.
  induction rows as [|r' t IH]; simpl; [contradiction|].
  intros [->|Hin]; [lia|]. specialize (IH Hin). lia.
Qed.

Lemma max_width_igual (rows : list Row) (k : nat) :
  rows <> [] -> Forall (fun r => List.length r = k) rows -> max_width rows = k.
Proof.
  induction rows as [|r t IH]; [congruence|]. intros _ Hall.
  apply Forall_cons_iff in Hall as [Hr Ht]. simpl.
  destruct t as [|r' t'].
  - simpl. lia.
  - rewrite IH; [lia | discriminate | exact Ht].
Qed.

Lemma pad_row_length (k : nat) (r : Row) :
  (List.length r <= k)%nat -> List.length (pad_row k r) = k.
Proof.
  intros Hle. unfold pad_row. rewrite length_app, length_map, repeat_length. lia.
Qed.

(** A frame that was built has the header as columns, one row per data
    row, and one value per column in every row. *)
Lemma DataFrame_new_Ok (rows : list Row) (header : list label) (df : DataFrame) :
  DataFrame_new rows header = Ok df ->
  columns df = header
  /\ rectangular df
  /\ List.length (data df) = List.length rows.
Proof.
  unfold DataFrame_new.
  destruct (Nat.eqb (List.length header) (max_width rows)) eqn:E; [|discriminate].
  apply Nat.eqb_eq in E. intros [= <-]. cbn [columns data].
  split; [reflexivity|]. split; [|apply length_map].
  unfold rectangular. cbn [columns data]. rewrite Forall_forall.
  intros row' Hin. apply in_map_iff in Hin as (r & <- & Hin).
  rewrite E. apply pad_row_length. now apply max_width_ge.
Qed.

(** The constructor accepts every grid with a data row and as many cells
    in each data row as in the header. *)
Lemma DataFrame_new_bien (rows : list Row) (header : list label) :
  rows <> [] ->
  Forall (fun r => List.length r = List.length header) rows ->
  exists df, DataFrame_new rows header = Ok df.
Proof.
  intros Hne Hall. unfold DataFrame_new.
  rewrite (max_width_igual rows (List.length header) Hne Hall).
  rewrite Nat.eqb_refl. now eexists.
Qed.

(** The error of the constructor is not the error of line 109: its
    message starts with a number. *)
Lemma DataFrame_new_Raise (rows : list Row) (header : list label) (e : exn) :
  DataFrame_new rows header = Raise e -> e <> NoTablesFound.
Proof.
  unfold DataFrame_new. destruct (Nat.eqb _ _); [discriminate|].
  intros [= <-]. unfold NoTablesFound, str.
  destruct (Z.to_int (len header)) as [d|d]; [|discriminate].
  destruct d; discriminate.
Qed.

(** The frame of a usable table: as many rows as the table has data
    rows, every one tagged with the page and the ordinal. *)
Lemma marco_Ok (p i : Z) (t : Table) (g : DataFrame) :
  marco (p, i, t) = Ok g ->
  etiquetado p i g
  /\ List.length (data g) = aporte t
  /\ rectangular g
  /\ exists header rows,
       t = header :: rows
       /\ (is_unique header = true -> is_unique (columns g) = true).
Proof.
  unfold marco. destruct t as [|header rows]; [discriminate|].
  destruct (DataFrame_new rows header) as [df|e] eqn:Hnew; [|discriminate].
  cbn [bind]. intros [= <-].
  apply DataFrame_new_Ok in Hnew as (Hcols & Hrect & Hlen).
  pose proof (setitem_rectangular pagina (VInt p) df Hrect) as Hrect1.
  destruct (setitem_filas pagina (VInt p) df Hrect) as (G1 & HG1 & Hrow1).
  destruct (setitem_filas tabla (VInt i) _ Hrect1) as (G2 & HG2 & Hrow2).
  split; [|split; [|split]].
  - unfold etiquetado. rewrite HG2, Forall_forall. intros row' Hin.
    apply in_map_iff in Hin as (row1 & <- & Hin1).
    destruct (Hrow2 row1 Hin1) as [_ Hc2]. rewrite !Hc2.
    split; [|reflexivity].
    change (label_eqb pagina tabla) with false. cbv iota.
    rewrite HG1 in Hin1. apply in_map_iff in Hin1 as (row & <- & Hin).
    destruct (Hrow1 row Hin) as [_ Hc1]. rewrite Hc1.
    now rewrite label_eqb_refl.
  - rewrite !setitem_length, Hlen. unfold aporte. simpl. lia.
  - now apply setitem_rectangular.
  - exists header, rows. split; [reflexivity|]. intros Hu.
    apply setitem_is_unique, setitem_is_unique. now rewrite Hcols.
Qed.

(* ================================================================== *)
(** * Properties: concatenation, cleaning *)
(* ================================================================== *)

Lemma unique_from_In (seen l : list label) (c : label) :
  In c (unique_from seen l) <-> In c l /\ ~ In c seen.
Proof.
  revert seen. induction l as [|x t IH]; intros seen; simpl; [tauto|].
  destruct (existsb (label_eqb x) seen) eqn:E.
  - apply existsb_label in E. rewrite IH. split.
    + intros [Hc Hn]. tauto.
    + intros [[->|Hc] Hn]; [contradiction | tauto].
  - apply existsb_label_false in E. simpl. rewrite IH. simpl. split.
    + intros [->|[Hc Hn]]; [tauto|]. split; [tauto|].
      intros H. apply Hn. now right.
    + intros [[->|Hc] Hn]; [now left|].
      destruct (label_eq_dec x c) as [->|Hne]; [now left|].
      right. split; [exact Hc|]. intros [H|H]; congruence.
Qed.

Lemma unique_In (l : list label) (c : label) : In c (unique l) <-> In c l.
Proof. unfold unique. rewrite unique_from_In. simpl. tauto. Qed.

Lemma columns_eqb_eq (a b : list label) : columns_eqb a b = true <-> a = b.
Proof.
  unfold columns_eqb. destruct (list_eq_dec label_eq_dec a b); split; congruence.
Qed.

(** The rows of a concatenation are the rows of the frames, in order, each
    moved to the columns of the result; a row keeps under every label the
    value it had. *)
Lemma concat_Ok (frames : list DataFrame) (df : DataFrame) :
  concat frames = Ok df ->
  exists T : DataFrame -> list value -> list value,
    data df = flat_map (fun g => map (T g) (data g)) frames
    /\ forall g, In g frames ->
       forall row c, cell c (columns df) (T g row) = cell c (columns g) row.
Proof.
  unfold concat. destruct frames as [|f rest]; [discriminate|].
  destruct (forallb (fun g => columns_eqb (columns g) (columns f)) rest) eqn:Eq.
  - intros [= <-]. exists (fun _ row => row). cbn [columns data]. split.
    + change (flat_map data (f :: rest)
              = flat_map (fun g => map (fun row => row) (data g)) (f :: rest)).
      generalize (f :: rest). intros l.
      induction l as [|g t IH]; simpl; [reflexivity|].
      now rewrite map_id, IH.
    + intros g [<-|Hin] row c; [reflexivity|].
      rewrite forallb_forall in Eq. specialize (Eq g Hin).
      apply columns_eqb_eq in Eq. now rewrite Eq.
  - destruct (forallb (fun g => is_unique (columns g)) (f :: rest)); [|discriminate].
    intros [= <-]. cbn [columns data].
    set (cols := unique (flat_map columns (f :: rest))).
    exists (fun g row => map (fun c => cell c (columns g) row) cols).
    split; [reflexivity|].
    intros g Hin row c.
    destruct (in_dec label_eq_dec c cols) as [Hc|Hc].
    + now rewrite (cell_map_cols (fun c => cell c (columns g) row)).
    + rewrite cell_notin by exact Hc. symmetry. apply cell_notin.
      intros Hg. apply Hc. apply unique_In, in_flat_map. now exists g.
Qed.

Lemma concat_bien (frames : list DataFrame) :
  frames <> [] ->
  Forall (fun g => is_unique (columns g) = true) frames ->
  exists df, concat frames = Ok df.
Proof.
  intros Hne Hall. unfold concat. destruct frames as [|f rest]; [congruence|].
  destruct (forallb _ rest); [now eexists|].
  assert (Hu : forallb (fun g => is_unique (columns g)) (f :: rest) = true).
  { apply forallb_forall. now apply Forall_forall. }
  rewrite Hu. now eexists.
Qed.

Lemma concat_Raise (frames : list DataFrame) (e : exn) :
  concat frames = Raise e -> e <> NoTablesFound.
Proof.
  unfold concat. destruct frames as [|f rest]; [intros [= <-]; discriminate|].
  destruct (forallb _ rest); [discriminate|].
  destruct (forallb _ (f :: rest)); [discriminate|].
  intros [= <-]. discriminate.
Qed.

Lemma filter_todo {A : Type} (f : A -> bool) (l : list A) :
  (forall x, In x l -> f x = true) -> filter f l = l.
Proof.
  induction l as [|x t IH]; simpl; intros H; [reflexivity|].
  rewrite (H x) by now left. f_equal. apply IH. intros y Hy. apply H. now right.
Qed.

(** A row with an integer under some label is not a row of missing
    values. *)
Lemma fila_con_entero (c : label) (cols : list label) (row : list value) (n : Z) :
  cell c cols row = VInt n -> forallb isna row = false.
Proof.
  intros Hc. apply cell_In in Hc; [|discriminate].
  destruct (forallb isna row) eqn:E; [|reflexivity].
  rewrite forallb_forall in E. specialize (E _ Hc). discriminate E.
Qed.

Lemma replace_value_VInt (s : string) (v : value) (n : Z) :
  replace_value s v (VInt n) = VInt n.
Proof. reflexivity. Qed.

(** [dropna(how="all")] after the replacement drops nothing from a frame
    whose rows all carry an integer under [pagina]. *)
Lemma dropna_all_nada (df : DataFrame) :
  (forall row, In row (data df) -> exists n, cell pagina (columns df) row = VInt n) ->
  dropna_all (replace "" VNA df) = replace "" VNA df.
Proof.
  intros Htag. unfold dropna_all, replace. cbn [columns data]. f_equal.
  apply filter_todo. intros row' Hin.
  apply in_map_iff in Hin as (row & <- & Hin).
  destruct (Htag row Hin) as [n Hn]. apply negb_true_iff.
  apply (fila_con_entero pagina (columns df) _ n).
  rewrite cell_map_row by reflexivity. now rewrite Hn.
Qed.

(** The three last statements on tagged frames: every row of every frame
    is in the result, in order; a row keeps under every label the value it
    had, the empty string apart, which becomes [pd.NA]. *)
Lemma unir_Ok (frames : list DataFrame) (df : DataFrame) :
  Forall (fun g => exists p i, etiquetado p i g) frames ->
  unir frames = Ok df ->
  exists (dfc : DataFrame) (T : DataFrame -> list value -> list value),
    concat frames = Ok dfc
    /\ df = replace "" VNA dfc
    /\ dropna_all (replace "" VNA dfc) = replace "" VNA dfc
    /\ data df = flat_map (fun g => map (T g) (data g)) frames
    /\ forall g, In g frames ->
       forall row c, cell c (columns df) (T g row)
                     = replace_value "" VNA (cell c (columns g) row).
Proof.
  intros Htags. unfold unir.
  destruct (concat frames) as [dfc|e] eqn:Hc; [|discriminate].
  cbn [bind]. intros [= <-].
  destruct (concat_Ok frames dfc Hc) as (T & Hdata & Hcell).
  assert (Hnada : dropna_all (replace "" VNA dfc) = replace "" VNA dfc).
  { apply dropna_all_nada. intros row Hin. rewrite Hdata in Hin.
    apply in_flat_map in Hin as (g & Hg & Hin).
    apply in_map_iff in Hin as (row0 & <- & Hin0).
    rewrite Forall_forall in Htags. destruct (Htags g Hg) as (p & i & Het).
    unfold etiquetado in Het. rewrite Forall_forall in Het.
    exists p. rewrite Hcell by exact Hg. now apply Het. }
  exists dfc, (fun g row => map (replace_value "" VNA) (T g row)).
  split; [reflexivity|]. split; [exact Hnada|]. split; [exact Hnada|].
  rewrite Hnada. cbn [replace data columns]. split.
  - rewrite Hdata. clear. induction frames as [|g t IH]; simpl; [reflexivity|].
    now rewrite map_app, map_map, IH.
  - intros g Hg row c. rewrite cell_map_row by reflexivity.
    now rewrite Hcell.
Qed.

(* ================================================================== *)
(** * Properties: the loops of [extraer_tablas_pdf] *)
(* ================================================================== *)

Lemma mapM_app {A B : Type} (f : A -> result B) (a b : list A) :
  mapM f (a ++ b)%list =
  (xs <- mapM f a ;; ys <- mapM f b ;; Ok (xs ++ ys)%list).
Proof.
  induction a as [|x t IH]; simpl.
  - now destruct (mapM f b).
  - destruct (f x) as [y|e]; [|reflexivity]. rewrite IH.
    destruct (mapM f t) as [ys|e]; [|reflexivity]. simpl.
    now destruct (mapM f b).
Qed.

Lemma mapM_Ok {A B : Type} (f : A -> result B) (l : list A) (ys : list B) :
  mapM f l = Ok ys -> Forall2 (fun x y => f x = Ok y) l ys.
Proof.
  revert ys. induction l as [|x t IH]; simpl; intros ys.
  - intros [= <-]. constructor.
  - destruct (f x) as [y|e] eqn:Hx; [|discriminate].
    destruct (mapM f t) as [ys'|e]; [|discriminate].
    intros [= <-]. constructor; [exact Hx | now apply IH].
Qed.

Lemma mapM_Raise {A B : Type} (f : A -> result B) (l : list A) (e : exn) :
  mapM f l = Raise e -> exists x, In x l /\ f x = Raise e.
Proof.
  induction l as [|x t IH]; simpl; [discriminate|].
  destruct (f x) as [y|e'] eqn:Hx.
  - destruct (mapM f t) as [ys|e'']; [discriminate|].
    intros [= <-]. destruct (IH eq_refl) as (x' & Hin & Hx').
    exists x'. split; [now right | exact Hx'].
  - intros [= <-]. exists x. split; [now left | exact Hx].
Qed.

Lemma mapM_bien {A B : Type} (f : A -> result B) (l : list A) :
  Forall (fun x => exists y, f x = Ok y) l -> exists ys, mapM f l = Ok ys.
Proof.
  induction l as [|x t IH]; simpl; intros Hall; [now eexists|].
  apply Forall_cons_iff in Hall as [[y Hy] Ht].
  destruct (IH Ht) as [ys Hys]. rewrite Hy, Hys. now eexists.
Qed.

(** One turn of the inner loop adds the frame of the table when the table
    is usable, and nothing otherwise. *)
Lemma paso_tabla_spec (page_num table_idx : Z) (table : Table)
  (all_tables : list DataFrame) :
  paso_tabla page_num table_idx table all_tables =
  (fs <- mapM marco (usables_pagina page_num [(table_idx, table)]) ;;
   Ok (all_tables ++ fs)%list).
Proof.
  unfold paso_tabla, usables_pagina, len.
  destruct table as [|header [|r rows]].
  - simpl. now rewrite app_nil_r.
  - simpl. now rewrite app_nil_r.
  - replace (vacia (header :: r :: rows)
             || (Z.of_nat (List.length (header :: r :: rows)) <? 2))
      with false
      by (symmetry; apply orb_false_iff; split;
          [reflexivity | apply Z.ltb_ge; simpl List.length; lia]).
    cbn [flat_map fst snd List.length Nat.leb app mapM marco].
    now destruct (DataFrame_new (r :: rows) header).
Qed.

Lemma usables_pagina_cons (page_num : Z) (it : Z * Table)
  (rest : list (Z * Table)) :
  usables_pagina page_num (it :: rest)
  = (usables_pagina page_num [it] ++ usables_pagina page_num rest)%list.
Proof. unfold usables_pagina. simpl. now rewrite app_nil_r. Qed.

Lemma for_tables_spec (page_num : Z) (tables : list (Z * Table))
  (all_tables : list DataFrame) :
  for_tables page_num tables all_tables =
  (fs <- mapM marco (usables_pagina page_num tables) ;;
   Ok (all_tables ++ fs)%list).
Proof.
  revert all_tables. induction tables as [|[idx t] rest IH]; intros acc.
  - simpl. now rewrite app_nil_r.
  - cbn [for_tables].
    rewrite (usables_pagina_cons page_num (idx, t) rest), mapM_app.
    rewrite paso_tabla_spec.
    destruct (mapM marco (usables_pagina page_num [(idx, t)])) as [fs|e];
      [|reflexivity].
    cbn [bind]. rewrite IH.
    destruct (mapM marco (usables_pagina page_num rest)) as [gs|e];
      [|reflexivity].
    cbn [bind]. now rewrite app_assoc.
Qed.

(** The two loops together: the frames of the usable tables, in order,
    up to the first the constructor refuses. *)
Lemma for_pages_spec (pages : list (Z * Page)) (all_tables : list DataFrame) :
  for_pages pages all_tables =
  (fs <- mapM marco (usables_desde pages) ;; Ok (all_tables ++ fs)%list).
Proof.
  revert all_tables. induction pages as [|[pn page] rest IH]; intros acc.
  - simpl. now rewrite app_nil_r.
  - cbn [for_pages]. rewrite for_tables_spec.
    unfold usables_desde. cbn [flat_map fst snd]. rewrite mapM_app.
    destruct (mapM marco (usables_pagina pn (enumerate 0 page))) as [fs|e];
      [|reflexivity].
    cbn [bind]. rewrite IH. unfold usables_desde.
    destruct (mapM marco _) as [gs|e]; [|reflexivity].
    cbn [bind]. now rewrite app_assoc.
Qed.

Lemma extraer_tablas_pdf_spec (pdf : PDF) :
  extraer_tablas_pdf pdf =
  (fs <- mapM marco (usables pdf) ;;
   if vacia fs then Raise NoTablesFound else unir fs).
Proof.
  unfold extraer_tablas_pdf, usables. rewrite for_pages_spec.
  now destruct (mapM marco (usables_desde (enumerate 1 pdf))).
Qed.

Lemma marco_Raise (u : Z * Z * Table) (e : exn) :
  marco u = Raise e ->
  (2 <= List.length (snd u))%nat -> e <> NoTablesFound.
Proof.
  destruct u as [[p i] t]. unfold marco.
  destruct t as [|header rows]; [simpl; lia|].
  destruct (DataFrame_new rows header) as [df|e'] eqn:Hnew; [discriminate|].
  cbn [bind]. intros [= <-] _. now apply DataFrame_new_Raise in Hnew.
Qed.

(** Everything in [usables] has a header and a data row, and sits in the
    document at its page and ordinal. *)
Lemma usables_pagina_In (pn : Z) (tables : list (Z * Table)) (u : Z * Z * Table) :
  In u (usables_pagina pn tables) ->
  (2 <= List.length (snd u))%nat
  /\ fst (fst u) = pn
  /\ In (snd (fst u) - 1, snd u) tables.
Proof.
  unfold usables_pagina. rewrite in_flat_map. intros ([idx t] & Hin & Hu).
  cbn [fst snd] in Hu. destruct (2 <=? List.length t)%nat eqn:E; [|contradiction].
  destruct Hu as [<-|[]]. cbn [fst snd]. apply Nat.leb_le in E.
  replace (idx + 1 - 1) with idx by lia. auto.
Qed.

Lemma usables_desde_In (pages : list (Z * Page)) (u : Z * Z * Table) :
  In u (usables_desde pages) -> (2 <= List.length (snd u))%nat.
Proof.
  unfold usables_desde. rewrite in_flat_map. intros (pp & _ & Hu).
  now apply usables_pagina_In in Hu.
Qed.

(* ================================================================== *)
(** * Properties: counting rows *)
(* ================================================================== *)

Lemma list_sum_flat_map {A B : Type} (w : B -> nat) (f : A -> list B)
  (l : list A) :
  list_sum (map w (flat_map f l))
  = list_sum (map (fun x => list_sum (map w (f x))) l).
Proof.
  induction l as [|x t IH]; simpl; [reflexivity|].
  now rewrite map_app, list_sum_app, IH.
Qed.

Lemma list_sum_ext {A : Type} (f g : A -> nat) (l : list A) :
  (forall x, In x l -> f x = g x) ->
  list_sum (map f l) = list_sum (map g l).
Proof.
  induction l as [|x t IH]; simpl; intros H; [reflexivity|].
  rewrite (H x) by now left. f_equal. apply IH. intros y Hy. apply H. now right.
Qed.

Lemma length_filter_flat_map {A B : Type} (test : B -> bool) (h : A -> list B)
  (l : list A) :
  List.length (filter test (flat_map h l))
  = list_sum (map (fun x => List.length (filter test (h x))) l).
Proof.
  induction l as [|x t IH]; simpl; [reflexivity|].
  now rewrite filter_app, length_app, IH.
Qed.

Lemma length_flat_map_sum {A B : Type} (h : A -> list B) (l : list A) :
  List.length (flat_map h l) = list_sum (map (fun x => List.length (h x)) l).
Proof.
  induction l as [|x t IH]; simpl; [reflexivity|].
  now rewrite length_app, IH.
Qed.

(** Sums along two lists paired element by element. *)
Lemma list_sum_Forall2 {A B : Type} (R : A -> B -> Prop) (w : A -> nat)
  (m : B -> nat) (l : list A) (l' : list B) :
  Forall2 R l l' ->
  (forall x y, In x l -> In y l' -> R x y -> m y = w x) ->
  list_sum (map m l') = list_sum (map w l).
Proof.
  induction 1 as [|x y t t' Hxy Hrest IH]; intros Hmw; [reflexivity|].
  simpl. rewrite (Hmw x y) by (auto; now left). f_equal.
  apply IH. intros x' y' Hx' Hy'. apply Hmw; now right.
Qed.

Lemma enumerate_In {A : Type} (s k : Z) (x : A) (l : list A) :
  In (k, x) (enumerate s l) ->
  s <= k /\ nth_error l (Z.to_nat (k - s)) = Some x.
Proof.
  revert s. induction l as [|y t IH]; intros s; simpl; [contradiction|].
  intros [[= <- <-]|Hin].
  - rewrite Z.sub_diag. split; [lia | reflexivity].
  - destruct (IH _ Hin) as [Hle Hnth]. split; [lia|].
    replace (Z.to_nat (k - s)) with (S (Z.to_nat (k - (s + 1)))) by lia.
    exact Hnth.
Qed.

(** In a sum over [enumerate], selecting one index selects one element. *)
Lemma list_sum_enumerate {A : Type} (f : A -> nat) (s k : Z) (l : list A) :
  list_sum (map (fun it => if fst it =? k then f (snd it) else O)
                (enumerate s l))
  = if s <=? k
    then match nth_error l (Z.to_nat (k - s)) with
         | Some x => f x
         | None => O
         end
    else O.
Proof.
  revert s. induction l as [|y t IH]; intros s.
  - simpl. destruct (s <=? k); [|reflexivity].
    now destruct (Z.to_nat (k - s)).
  - cbn [enumerate map list_sum fold_right fst snd]. rewrite IH.
    destruct (s =? k) eqn:E.
    + apply Z.eqb_eq in E. subst k.
      replace (s + 1 <=? s) with false by (symmetry; apply Z.leb_gt; lia).
      rewrite Z.leb_refl, Z.sub_diag. simpl. lia.
    + apply Z.eqb_neq in E. destruct (s <=? k) eqn:Hle.
      * apply Z.leb_le in Hle.
        replace (s + 1 <=? k) with true by (symmetry; apply Z.leb_le; lia).
        replace (Z.to_nat (k - s)) with (S (Z.to_nat (k - (s + 1)))) by lia.
        reflexivity.
      * apply Z.leb_gt in Hle.
        replace (s + 1 <=? k) with false by (symmetry; apply Z.leb_gt; lia).
        reflexivity.
Qed.

Lemma list_sum_enumerate_todos {A : Type} (f : A -> nat) (s : Z) (l : list A) :
  list_sum (map (fun it => f (snd it)) (enumerate s l)) = list_sum (map f l).
Proof.
  revert s. induction l as [|y t IH]; intros s; simpl; [reflexivity|].
  now rewrite IH.
Qed.

Lemma list_sum_usables_pagina (w : Z * Z * Table -> nat) (pn : Z)
  (tables : list (Z * Table)) :
  list_sum (map w (usables_pagina pn tables))
  = list_sum (map (fun it => if (2 <=? List.length (snd it))%nat
                             then w (pn, fst it + 1, snd it) else O)
                  tables).
Proof.
  unfold usables_pagina. rewrite list_sum_flat_map.
  apply list_sum_ext. intros [idx t] _. cbn [fst snd].
  destruct (2 <=? List.length t)%nat; simpl; lia.
Qed.

Lemma aporte_cero (t : Table) : (List.length t <= 1)%nat -> aporte t = O.
Proof. unfold aporte. lia. Qed.

(** Over the usable tables of a document, the weights for page [p],
    table [i] add up to the data rows of the table found there. *)
Lemma suma_peso (pdf : PDF) (p i : Z) :
  list_sum (map (peso p i) (usables pdf))
  = match tabla_en pdf p i with
    | Some t => aporte t
    | None => O
    end.
Proof.
  unfold usables, usables_desde. rewrite list_sum_flat_map.
  transitivity
    (list_sum (map (fun pp : Z * Page =>
                      if fst pp =? p
                      then (if 1 <=? i
                            then match nth_error (snd pp) (Z.to_nat (i - 1)) with
                                 | Some t => aporte t
                                 | None => O
                                 end
                            else O)
                      else O)
                   (enumerate 1 pdf))).
  - apply list_sum_ext. intros [pn page] _. cbn [fst snd].
    rewrite list_sum_usables_pagina.
    destruct (pn =? p) eqn:Ep.
    + rewrite <- (Z.sub_0_r (i - 1)).
      replace (1 <=? i) with (0 <=? i - 1)
        by (destruct (0 <=? i - 1) eqn:E1, (1 <=? i) eqn:E2; try reflexivity;
            rewrite ?Z.leb_le, ?Z.leb_gt in *; lia).
      rewrite <- (list_sum_enumerate aporte 0 (i - 1) page).
      apply list_sum_ext. intros [idx t] _. unfold peso. cbn [fst snd].
      rewrite Ep. cbn [andb].
      replace (idx + 1 =? i) with (idx =? i - 1)
        by (destruct (idx =? i - 1) eqn:E1, (idx + 1 =? i) eqn:E2;
            try reflexivity; rewrite ?Z.eqb_eq, ?Z.eqb_neq in *; lia).
      destruct (2 <=? List.length t)%nat eqn:E2; [reflexivity|].
      apply Nat.leb_gt in E2. rewrite aporte_cero by lia.
      now destruct (idx =? i - 1).
    + transitivity (list_sum (map (fun _ : Z * Table => O) (enumerate 0 page))).
      * apply list_sum_ext. intros [idx t] _. unfold peso. cbn [fst snd].
        rewrite Ep. now destruct (2 <=? List.length t)%nat.
      * induction (enumerate 0 page); simpl; auto.
  - rewrite (list_sum_enumerate
               (fun page : Page =>
                  if 1 <=? i
                  then match nth_error page (Z.to_nat (i - 1)) with
                       | Some t => aporte t
                       | None => O
                       end
                  else O) 1 p pdf).
    unfold tabla_en. destruct (1 <=? p); cbn [andb]; [|reflexivity].
    destruct (nth_error pdf (Z.to_nat (p - 1))) as [page|];
      destruct (1 <=? i); reflexivity.
Qed.

Lemma suma_aporte (pdf : PDF) :
  list_sum (map (fun u => aporte (snd u)) (usables pdf))
  = list_sum (map aporte (todas_las_tablas pdf)).
Proof.
  unfold usables, usables_desde, todas_las_tablas.
  rewrite !list_sum_flat_map.
  rewrite <- (list_sum_enumerate_todos
                (fun page : Page => list_sum (map aporte page)) 1 pdf).
  apply list_sum_ext. intros [pn page] _. cbn [fst snd].
  rewrite list_sum_usables_pagina.
  rewrite <- (list_sum_enumerate_todos aporte 0 page).
  apply list_sum_ext. intros [idx t] _. cbn [fst snd].
  destruct (2 <=? List.length t)%nat eqn:E2; [reflexivity|].
  apply Nat.leb_gt in E2. rewrite aporte_cero by lia. reflexivity.
Qed.

(** A usable table is the table of the document at its page and ordinal. *)
Lemma usables_tabla_en (pdf : PDF) (p i : Z) (t : Table) :
  In (p, i, t) (usables pdf) ->
  tabla_en pdf p i = Some t /\ (2 <= List.length t)%nat /\ 1 <= p /\ 1 <= i.
Proof.
  unfold usables, usables_desde. rewrite in_flat_map.
  intros ([pn page] & Hpage & Hu). cbn [fst snd] in Hu.
  apply usables_pagina_In in Hu as (Hlen & Hp & Hin). cbn [fst snd] in *.
  subst pn. apply enumerate_In in Hpage as [Hp1 Hpage].
  apply enumerate_In in Hin as [Hi1 Hin]. rewrite Z.sub_0_r in Hin.
  unfold tabla_en.
  replace (1 <=? p) with true by (symmetry; apply Z.leb_le; lia).
  replace (1 <=? i) with true by (symmetry; apply Z.leb_le; lia).
  cbn [andb]. unfold PDF, Page in *. rewrite Hpage.
  repeat split; (exact Hin || lia).
Qed.

(* ================================================================== *)
(** * Properties: the extracted frame *)
(* ================================================================== *)

Lemma Forall2_In_r {A B : Type} (R : A -> B -> Prop) (l : list A) (l' : list B) :
  Forall2 R l l' -> forall y, In y l' -> exists x, In x l /\ R x y.
Proof.
  induction 1 as [|x y t t' Hxy _ IH]; intros z Hz; [contradiction|].
  destruct Hz as [<-|Hz].
  - exists x. split; [now left | exact Hxy].
  - destruct (IH z Hz) as (x' & Hin & Hr). exists x'. split; [now right | exact Hr].
Qed.

Lemma Forall2_nil_iff {A B : Type} (R : A -> B -> Prop) (l : list A) (l' : list B) :
  Forall2 R l l' -> (l = [] <-> l' = []).
Proof. destruct 1; split; congruence. Qed.

(** A successful extraction, step by step: the loops kept the frames of
    the usable tables; there is at least one; they were concatenated; the
    empty strings were replaced; [dropna] dropped nothing; and the rows of
    the result are the data rows of the frames, in order, each holding
    under every label what it held in its frame, save that an empty string
    has become [pd.NA]. *)
Lemma extraer_tablas_pdf_Ok (pdf : PDF) (df : DataFrame) :
  extraer_tablas_pdf pdf = Ok df ->
  exists (fs : list DataFrame) (dfc : DataFrame)
         (T : DataFrame -> list value -> list value),
    Forall2 (fun u g => marco u = Ok g) (usables pdf) fs
    /\ for_pages (enumerate 1 pdf) [] = Ok fs
    /\ fs <> []
    /\ concat fs = Ok dfc
    /\ df = replace "" VNA dfc
    /\ dropna_all (replace "" VNA dfc) = replace "" VNA dfc
    /\ data df = flat_map (fun g => map (T g) (data g)) fs
    /\ forall g, In g fs ->
       forall row c, cell c (columns df) (T g row)
                     = replace_value "" VNA (cell c (columns g) row).
Proof.
  intros Hex. pose proof Hex as Hloops.
  rewrite extraer_tablas_pdf_spec in Hex.
  unfold extraer_tablas_pdf in Hloops. rewrite for_pages_spec in Hloops.
  fold (usables pdf) in Hloops.
  destruct (mapM marco (usables pdf)) as [fs|e] eqn:Hm; [|discriminate].
  cbn [bind] in Hex, Hloops. clear Hloops.
  destruct (vacia fs) eqn:Hv; [discriminate|]. apply vacia_false in Hv.
  apply mapM_Ok in Hm as HF.
  assert (Htags : Forall (fun g => exists p i, etiquetado p i g) fs).
  { apply Forall_forall. intros g Hg.
    destruct (Forall2_In_r _ _ _ HF g Hg) as ([[p i] t] & _ & Hu).
    exists p, i. now apply marco_Ok in Hu. }
  destruct (unir_Ok fs df Htags Hex) as (dfc & T & Hc & Hdf & Hnada & Hdata & Hcell).
  exists fs, dfc, T. repeat split; try assumption.
  unfold extraer_tablas_pdf in *. rewrite for_pages_spec.
  fold (usables pdf). now rewrite Hm.
Qed.

Lemma length_filter_const {A : Type} (f : A -> bool) (b : bool) (l : list A) :
  (forall x, In x l -> f x = b) ->
  List.length (filter f l) = if b then List.length l else O.
Proof.
  induction l as [|x t IH]; simpl; intros H; [now destruct b|].
  rewrite (H x) by now left.
  assert (Ht : forall y, In y t -> f y = b) by (intros y Hy; apply H; now right).
  specialize (IH Ht). destruct b; simpl; lia.
Qed.

(** The rows of the result tagged [p], [i] are as many as the data rows
    of the table with ordinal [i] on page [p]; none when there is no such
    table, or when it has no data row. *)
Lemma filas_de_aporte (pdf : PDF) (df : DataFrame) (p i : Z) :
  extraer_tablas_pdf pdf = Ok df ->
  List.length (filas_de p i df)
  = match tabla_en pdf p i with
    | Some t => aporte t
    | None => O
    end.
Proof.
  intros Hex.
  destruct (extraer_tablas_pdf_Ok pdf df Hex)
    as (fs & dfc & T & HF & _ & _ & _ & _ & _ & Hdata & Hcell).
  rewrite <- suma_peso. unfold filas_de. rewrite Hdata.
  rewrite length_filter_flat_map.
  apply (list_sum_Forall2 (fun u g => marco u = Ok g)); [exact HF|].
  intros [[p' i'] t'] g _ Hg Hu.
  apply marco_Ok in Hu as (Het & Hlen & _).
  unfold etiquetado in Het. rewrite Forall_forall in Het.
  rewrite (length_filter_const _ ((p' =? p) && (i' =? i))).
  - rewrite length_map, Hlen. unfold peso. cbn [fst snd]. reflexivity.
  - intros row' Hin. apply in_map_iff in Hin as (row & <- & Hin).
    rewrite !Hcell by exact Hg. destruct (Het row Hin) as [-> ->].
    reflexivity.
Qed.

(** The result has one row for every data row of every table. *)
Lemma filas_totales (pdf : PDF) (df : DataFrame) :
  extraer_tablas_pdf pdf = Ok df ->
  List.length (data df) = list_sum (map aporte (todas_las_tablas pdf)).
Proof.
  intros Hex.
  destruct (extraer_tablas_pdf_Ok pdf df Hex)
    as (fs & dfc & T & HF & _ & _ & _ & _ & _ & Hdata & _).
  rewrite <- suma_aporte, Hdata, length_flat_map_sum.
  apply (list_sum_Forall2 (fun u g => marco u = Ok g)); [exact HF|].
  intros [[p' i'] t'] g _ _ Hu. apply marco_Ok in Hu as (_ & Hlen & _).
  now rewrite length_map.
Qed.

(** C3: in every frame [extraer_tablas_pdf] returns, a detected table
    with one row or none has no row (none is tagged with its page and
    ordinal), a detected table with two rows, the header and one data
    row, has exactly one, and in general a table has its data rows; the
    frame has no other rows than these. *)
Theorem C3_aporte_de_cada_tabla (pdf : PDF) (df : DataFrame) (p i : Z)
  (t : Table) :
  extraer_tablas_pdf pdf = Ok df ->
  tabla_en pdf p i = Some t ->
  ((List.length t <= 1)%nat -> filas_de p i df = [])
  /\ (List.length t = 2%nat -> exists row, filas_de p i df = [row])
  /\ List.length (filas_de p i df) = (List.length t - 1)%nat
  /\ List.length (data df) = list_sum (map aporte (todas_las_tablas pdf)).
Proof.
  intros Hex Ht. pose proof (filas_de_aporte pdf df p i Hex) as Hn.
  rewrite Ht in Hn. unfold aporte in Hn.
  split; [|split; [|split]].
  - intros Hle. apply length_zero_iff_nil. lia.
  - intros H2. rewrite H2 in Hn. simpl in Hn.
    destruct (filas_de p i df) as [|row [|row' rest]]; try discriminate Hn.
    now exists row.
  - exact Hn.
  - now apply filas_totales.
Qed.

(** C3, witness: a page with a header-only table and then a table with
    a header and one data row. *)
Lemma C3_aporte_de_cada_tabla_witness :
  let pdf := [[ [[Some "Producto"; Some "Precio"]];
                [[Some "Producto"; Some "Precio"];
                 [Some "Papa"; Some "1000"]] ]] in
  let df := mkDF [Some "Producto"; Some "Precio"; pagina; tabla]
                 [[VStr "Papa"; VStr "1000"; VInt 1; VInt 2]] in
  extraer_tablas_pdf pdf = Ok df
  /\ filas_de 1 1 df = []
  /\ exists row, filas_de 1 2 df = [row].
Proof.
  cbv zeta. split; [reflexivity|]. split.
  - apply (C3_aporte_de_cada_tabla
             [[ [[Some "Producto"; Some "Precio"]];
                [[Some "Producto"; Some "Precio"];
                 [Some "Papa"; Some "1000"]] ]]
             (mkDF [Some "Producto"; Some "Precio"; pagina; tabla]
                   [[VStr "Papa"; VStr "1000"; VInt 1; VInt 2]])
             1 1 [[Some "Producto"; Some "Precio"]]);
      [reflexivity | reflexivity | simpl; lia].
  - exists [VStr "Papa"; VStr "1000"; VInt 1; VInt 2]. reflexivity.
Defined.

(** C9: in every frame [extraer_tablas_pdf] returns, every row holds an
    integer (so not a missing value) under [pagina] and under [tabla]: the
    page and the ordinal, both at least 1, of a table of the document with
    a data row.  They are set on each table's frame before the frames are
    concatenated, cleaned and filtered, so no row is made of missing
    values only, and [dropna(how="all")] removes nothing: the result is
    the concatenation with its empty strings replaced, row for row. *)
Theorem C9_pagina_y_tabla_enteros (pdf : PDF) (df : DataFrame) :
  extraer_tablas_pdf pdf = Ok df ->
  (forall row, In row (data df) ->
     forallb isna row = false
     /\ exists (p i : Z) (t : Table),
          cell pagina (columns df) row = VInt p
          /\ cell tabla (columns df) row = VInt i
          /\ 1 <= p /\ 1 <= i
          /\ tabla_en pdf p i = Some t
          /\ (2 <= List.length t)%nat)
  /\ exists (all_tables : list DataFrame) (df_total : DataFrame),
       for_pages (enumerate 1 pdf) [] = Ok all_tables
       /\ Forall (fun g => exists p i, etiquetado p i g) all_tables
       /\ concat all_tables = Ok df_total
       /\ dropna_all (replace "" VNA df_total) = replace "" VNA df_total
       /\ df = replace "" VNA df_total
       /\ List.length (data df) = List.length (data df_total).
Proof.
  intros Hex.
  destruct (extraer_tablas_pdf_Ok pdf df Hex)
    as (fs & dfc & T & HF & Hloops & Hne & Hc & Hdf & Hnada & Hdata & Hcell).
  assert (Hrow : forall row, In row (data df) ->
            exists (p i : Z) (t : Table),
              cell pagina (columns df) row = VInt p
              /\ cell tabla (columns df) row = VInt i
              /\ 1 <= p /\ 1 <= i
              /\ tabla_en pdf p i = Some t
              /\ (2 <= List.length t)%nat).
  { intros row' Hin. rewrite Hdata in Hin.
    apply in_flat_map in Hin as (g & Hg & Hin).
    apply in_map_iff in Hin as (row & <- & Hin).
    destruct (Forall2_In_r _ _ _ HF g Hg) as ([[p i] t] & Hu & Hm).
    apply marco_Ok in Hm as (Het & _).
    unfold etiquetado in Het. rewrite Forall_forall in Het.
    destruct (Het row Hin) as [Hp Hi].
    apply usables_tabla_en in Hu as (Ht & Hlen & Hp1 & Hi1).
    exists p, i, t. rewrite !Hcell by exact Hg. rewrite Hp, Hi.
    repeat split; assumption. }
  split.
  - intros row Hin. split; [|now apply Hrow].
    destruct (Hrow row Hin) as (p & i & t & Hp & _).
    now apply (fila_con_entero pagina (columns df) row p).
  - exists fs, dfc. split; [exact Hloops|]. split.
    + apply Forall_forall. intros g Hg.
      destruct (Forall2_In_r _ _ _ HF g Hg) as ([[p i] t] & _ & Hm).
      exists p, i. now apply marco_Ok in Hm.
    + repeat split; try assumption.
      rewrite Hdf. unfold replace. cbn [data]. apply length_map.
Qed.

(** C9, witness: one page, one table whose only data row is made of
    empty strings. *)
Lemma C9_pagina_y_tabla_enteros_witness :
  let pdf := [[ [[Some "Producto"; Some "Precio"]; [Some ""; Some ""]] ]] in
  let df := mkDF [Some "Producto"; Some "Precio"; pagina; tabla]
                 [[VNA; VNA; VInt 1; VInt 1]] in
  extraer_tablas_pdf pdf = Ok df
  /\ forall row, In row (data df) -> forallb isna row = false.
Proof.
  cbv zeta. split; [reflexivity|].
  intros row Hin.
  apply (proj1 (C9_pagina_y_tabla_enteros
                  [[ [[Some "Producto"; Some "Precio"]; [Some ""; Some ""]] ]]
                  (mkDF [Some "Producto"; Some "Precio"; pagina; tabla]
                        [[VNA; VNA; VInt 1; VInt 1]])
                  eq_refl) row Hin).
Defined.

Lemma flat_map_nil_iff {A B : Type} (f : A -> list B) (l : list A) :
  flat_map f l = [] <-> forall x, In x l -> f x = [].
Proof.
  induction l as [|x t IH]; simpl; [tauto|]. split.
  - intros H. apply app_eq_nil in H as [Hx Ht]. rewrite IH in Ht.
    intros y [<-|Hy]; auto.
  - intros H. rewrite (H x) by now left. simpl. apply IH.
    intros y Hy. apply H. now right.
Qed.

Lemma enumerate_snd {A : Type} (s : Z) (l : list A) :
  map snd (enumerate s l) = l.
Proof. revert s. induction l as [|x t IH]; intros s; simpl; [|rewrite IH]; reflexivity. Qed.

Lemma enumerate_In_snd {A : Type} (s : Z) (l : list A) (x : A) :
  In x l <-> exists k, In (k, x) (enumerate s l).
Proof.
  rewrite <- (enumerate_snd s l) at 1. rewrite in_map_iff. split.
  - intros ([k y] & <- & Hin). now exists k.
  - intros [k Hin]. now exists (k, x).
Qed.

(** No usable table: every detected table has fewer than two rows. *)
Lemma usables_nil (pdf : PDF) :
  usables pdf = [] <->
  Forall (fun t : Table => (List.length t < 2)%nat) (todas_las_tablas pdf).
Proof.
  unfold usables, usables_desde, usables_pagina, todas_las_tablas.
  rewrite Forall_forall, flat_map_nil_iff. split.
  - intros H t Ht. apply in_flat_map in Ht as (page & Hpage & Ht).
    apply (enumerate_In_snd 1) in Hpage as [pn Hpage].
    apply (enumerate_In_snd 0) in Ht as [idx Ht].
    specialize (H _ Hpage). cbn [fst snd] in H.
    rewrite flat_map_nil_iff in H. specialize (H _ Ht). cbn [fst snd] in H.
    destruct (2 <=? List.length t)%nat eqn:E; [discriminate H|].
    now apply Nat.leb_gt in E.
  - intros H [pn page] Hpage. cbn [fst snd]. apply flat_map_nil_iff.
    intros [idx t] Ht. cbn [fst snd].
    assert (Hlt : (List.length t < 2)%nat).
    { apply H. apply in_flat_map. exists page. split.
      - apply (enumerate_In_snd 1). now exists pn.
      - apply (enumerate_In_snd 0). now exists idx. }
    apply Nat.leb_gt in Hlt. now rewrite Hlt.
Qed.

(** The frame of a well-formed usable table is always built. *)
Lemma marco_bien (u : Z * Z * Table) :
  (2 <= List.length (snd u))%nat -> bien_formada (snd u) = true ->
  exists g, marco u = Ok g /\ is_unique (columns g) = true.
Proof.
  destruct u as [[p i] t]. cbn [snd]. intros Hlen Hbien.
  destruct t as [|header rows]; [simpl in Hlen; lia|].
  cbn [bien_formada] in Hbien. apply andb_true_iff in Hbien as [Hw Hu].
  assert (Hrows : rows <> []) by (destruct rows; [simpl in Hlen; lia | discriminate]).
  assert (Hall : Forall (fun r => List.length r = List.length header) rows).
  { apply Forall_forall. intros r Hr. rewrite forallb_forall in Hw.
    now apply Nat.eqb_eq, Hw. }
  destruct (DataFrame_new_bien rows header Hrows Hall) as [df0 Hdf0].
  destruct (marco (p, i, header :: rows)) as [g|e] eqn:Hm.
  - exists g. split; [exact Hm|].
    apply marco_Ok in Hm as (_ & _ & _ & h & r & [= <- <-] & Hun). now apply Hun.
  - unfold marco in Hm. rewrite Hdf0 in Hm. discriminate Hm.
Qed.

(** C4, as the code has it: the error of line 109 is raised exactly when
    the document has no usable table, that is when every detected table
    of every page has fewer than two rows.  With at least one usable
    table a frame is returned whenever every usable table is a grid with
    as many cells in each data row as in the header and no header text
    twice. *)
Theorem C4_NoTablesFound (pdf : PDF) :
  (extraer_tablas_pdf pdf = Raise NoTablesFound <-> usables pdf = [])
  /\ (usables pdf = [] <->
      Forall (fun t : Table => (List.length t < 2)%nat) (todas_las_tablas pdf))
  /\ (usables pdf <> [] ->
      Forall (fun u => bien_formada (snd u) = true) (usables pdf) ->
      exists df, extraer_tablas_pdf pdf = Ok df).
Proof.
  split; [|split; [apply usables_nil|]].
  - rewrite extraer_tablas_pdf_spec. split.
    + intros Hr. destruct (mapM marco (usables pdf)) as [fs|e] eqn:Hm.
      * cbn [bind] in Hr. apply mapM_Ok in Hm.
        destruct (vacia fs) eqn:Hv.
        -- apply vacia_true in Hv. now apply (Forall2_nil_iff _ _ _ Hm).
        -- unfold unir in Hr. destruct (concat fs) as [dfc|e] eqn:Hc;
             [discriminate Hr|].
           cbn [bind] in Hr. injection Hr as ->.
           now apply concat_Raise in Hc.
      * cbn [bind] in Hr. injection Hr as ->.
        apply mapM_Raise in Hm as (u & Hu & Hm).
        apply marco_Raise in Hm; [now elim Hm|].
        now apply usables_desde_In in Hu.
    + intros ->. reflexivity.
  - intros Hne Hbien.
    assert (Hall : Forall (fun u => exists g, marco u = Ok g) (usables pdf)).
    { rewrite Forall_forall in *. intros u Hu.
      destruct (marco_bien u) as (g & Hg & _); [|now apply Hbien|now exists g].
      now apply usables_desde_In in Hu. }
    destruct (mapM_bien marco _ Hall) as [fs Hfs].
    rewrite extraer_tablas_pdf_spec, Hfs. cbn [bind].
    apply mapM_Ok in Hfs.
    assert (Hfne : fs <> []).
    { intros Hnil. apply Hne. now apply (Forall2_nil_iff _ _ _ Hfs). }
    apply vacia_false in Hfne as Hv. rewrite Hv.
    assert (Hun : Forall (fun g => is_unique (columns g) = true) fs).
    { apply Forall_forall. intros g Hg.
      destruct (Forall2_In_r _ _ _ Hfs g Hg) as (u & Hu & Hm).
      rewrite Forall_forall in Hbien.
      destruct (marco_bien u) as (g' & Hg' & Hu');
        [now apply usables_desde_In in Hu | now apply Hbien|].
      congruence. }
    destruct (concat_bien fs Hfne Hun) as [dfc Hc].
    unfold unir. rewrite Hc. now eexists.
Qed.

(** C4, witness: the two-page document of the first scenario, whose only
    table is well formed. *)
Lemma C4_NoTablesFound_witness :
  let pdf : PDF :=
    [ [ [ [Some "Producto"; Some "Precio"];
          [Some "Papa"; Some "1000"];
          [Some "Yuca"; Some "800"] ] ]; [] ] in
  usables pdf <> []
  /\ Forall (fun u => bien_formada (snd u) = true) (usables pdf)
  /\ exists df, extraer_tablas_pdf pdf = Ok df.
Proof.
  cbv zeta.
  assert (Hne : usables [ [ [ [Some "Producto"; Some "Precio"];
                              [Some "Papa"; Some "1000"];
                              [Some "Yuca"; Some "800"] ] ]; [] ] <> [])
    by (vm_compute; discriminate).
  assert (Hbien : Forall (fun u => bien_formada (snd u) = true)
                    (usables [ [ [ [Some "Producto"; Some "Precio"];
                                   [Some "Papa"; Some "1000"];
                                   [Some "Yuca"; Some "800"] ] ]; [] ]))
    by (vm_compute; repeat constructor).
  split; [exact Hne|]. split; [exact Hbien|].
  exact (proj2 (proj2 (C4_NoTablesFound _)) Hne Hbien).
Defined.

(** C4 as stated fails: a page with a table laid out in two blocks, so
    with the header texts twice, and a second table with other columns
    has two usable tables, and the extraction fails in [pd.concat]. *)
Lemma C4_counterexample :
  let pdf :=
    [[ [[Some "Producto"; Some "Precio"; Some "Producto"; Some "Precio"];
        [Some "Papa"; Some "1000"; Some "Yuca"; Some "800"]];
       [[Some "Fruta"; Some "Precio"];
        [Some "Mango"; Some "2500"]] ]] in
  List.length (usables pdf) = 2%nat
  /\ extraer_tablas_pdf pdf
     = Raise (InvalidIndexError
                "Reindexing only valid with uniquely valued Index objects")
  /\ ~ (exists df, extraer_tablas_pdf pdf = Ok df).
Proof.
  cbv zeta. split; [reflexivity|]. split; [reflexivity|].
  intros [df Hdf]. vm_compute in Hdf. discriminate Hdf.
Qed.

(* ================================================================== *)
(** * Properties: the date column and the scenarios *)
(* ================================================================== *)

(** [agregar_fecha] puts the ISO date in front of every row, under a new
    first column [Fecha]. *)
Lemma agregar_fecha_Ok (df : DataFrame) (fecha : date) :
  ~ In Fecha (columns df) ->
  agregar_fecha df fecha
  = Ok (mkDF (Fecha :: columns df)
             (map (cons (VStr (isoformat fecha))) (data df))).
Proof.
  intros Hnot. unfold agregar_fecha, insert.
  apply existsb_label_false in Hnot. rewrite Hnot. reflexivity.
Qed.

(** On a frame that already has a column [Fecha], [insert] refuses. *)
Lemma agregar_fecha_Raise (df : DataFrame) (fecha : date) :
  In Fecha (columns df) ->
  agregar_fecha df fecha
  = Raise (ValueError "cannot insert Fecha, already exists").
Proof.
  intros Hin. unfold agregar_fecha, insert.
  apply existsb_label in Hin. rewrite Hin. reflexivity.
Qed.

Lemma isoformat_valida (fecha : date) :
  valid_date fecha = true ->
  isoformat fecha
  = cuatro_digitos (year fecha) ++ "-" ++ dos_digitos (month fecha)
    ++ "-" ++ dos_digitos (day fecha).
Proof.
  intros Hv. apply valid_date_campos in Hv as (Hy & Hm & Hd).
  unfold isoformat.
  rewrite fmt_04d_cuatro_digitos by lia.
  now rewrite !fmt_02d_dos_digitos by lia.
Qed.

(** Extraction then date never loses a data row: the final frame has one
    row for every data row of every table, whatever the cells hold. *)
Lemma extraer_y_fechar_filas (pdf : PDF) (fecha : date) (df : DataFrame) :
  extraer_y_fechar pdf fecha = Ok df ->
  List.length (data df) = list_sum (map aporte (todas_las_tablas pdf)).
Proof.
  unfold extraer_y_fechar.
  destruct (extraer_tablas_pdf pdf) as [df0|e] eqn:Hex; [|discriminate].
  cbn [bind]. intros Hf. rewrite <- (filas_totales pdf df0 Hex).
  destruct (in_dec label_eq_dec Fecha (columns df0)) as [Hin|Hnot].
  - rewrite agregar_fecha_Raise in Hf by exact Hin. discriminate Hf.
  - rewrite agregar_fecha_Ok in Hf by exact Hnot. injection Hf as <-.
    cbn [data]. apply length_map.
Qed.

(** C1: a document of two pages, the first with one table of header
    [Producto, Precio] and two data rows (any cells), the second with no
    table.  [extraer_tablas_pdf] returns the four columns [Producto],
    [Precio], [pagina], [tabla] and two rows, each with [pagina] 1 and
    [tabla] 1; [agregar_fecha] for 15 March 2024 then gives five columns,
    [Fecha] first, with the text 2024-03-15 in both rows. *)
Theorem C1_escenario_dos_paginas (a1 b1 a2 b2 : Cell) :
  let pdf : PDF :=
    [ [ [ [Some "Producto"; Some "Precio"]; [a1; b1]; [a2; b2] ] ]; [] ] in
  let limpio (c : Cell) := replace_value "" VNA (of_cell c) in
  let df :=
    mkDF [Some "Producto"; Some "Precio"; pagina; tabla]
         [ [limpio a1; limpio b1; VInt 1; VInt 1];
           [limpio a2; limpio b2; VInt 1; VInt 1] ] in
  extraer_tablas_pdf pdf = Ok df
  /\ agregar_fecha df (Date 2024 3 15)
     = Ok (mkDF [Fecha; Some "Producto"; Some "Precio"; pagina; tabla]
             [ [VStr "2024-03-15"; limpio a1; limpio b1; VInt 1; VInt 1];
               [VStr "2024-03-15"; limpio a2; limpio b2; VInt 1; VInt 1] ])
  /\ extraer_y_fechar pdf (Date 2024 3 15)
     = agregar_fecha df (Date 2024 3 15).
Proof.
  cbv zeta.
  assert (Hex : extraer_tablas_pdf
                  [ [ [ [Some "Producto"; Some "Precio"]; [a1; b1]; [a2; b2] ] ]; [] ]
                = Ok (mkDF [Some "Producto"; Some "Precio"; pagina; tabla]
                        [ [replace_value "" VNA (of_cell a1);
                           replace_value "" VNA (of_cell b1); VInt 1; VInt 1];
                          [replace_value "" VNA (of_cell a2);
                           replace_value "" VNA (of_cell b2); VInt 1; VInt 1] ])).
  { destruct a1 as [[|? ?]|], b1 as [[|? ?]|], a2 as [[|? ?]|], b2 as [[|? ?]|];
      reflexivity. }
  split; [exact Hex|]. split; [reflexivity|].
  unfold extraer_y_fechar. rewrite Hex. reflexivity.
Qed.

(** C2 fails on the code: a data row made of empty strings only is kept.
    Its cells become [pd.NA], but the row already holds [pagina] and
    [tabla], so [dropna(how="all")] does not drop it, and it reaches the
    dated frame. *)
Theorem C2_fila_vacia_conservada :
  extraer_y_fechar
    [ [ [ [Some "Producto"; Some "Precio"];
          [Some "Papa"; Some "1000"];
          [Some ""; Some ""] ] ] ]
    (Date 2024 3 15)
  = Ok (mkDF [Fecha; Some "Producto"; Some "Precio"; pagina; tabla]
          [ [VStr "2024-03-15"; VStr "Papa"; VStr "1000"; VInt 1; VInt 1];
            [VStr "2024-03-15"; VNA; VNA; VInt 1; VInt 1] ]).
Proof. reflexivity. Qed.


(* ================================================================== *)
(** * Further properties: shape of the extracted frame *)
(* ================================================================== *)

Lemma setitem_columns_In (key c : label) (v : value) (df : DataFrame) :
  In c (columns (setitem key v df)) <-> c = key \/ In c (columns df).
Proof.
  unfold setitem. destruct (existsb (label_eqb key) (columns df)) eqn:E;
    cbn [columns].
  - apply existsb_label in E. split; [now right|]. intros [->|H]; assumption.
  - rewrite in_app_iff. simpl. split.
    + intros [H|[H|[]]]; [now right | now left].
    + intros [->|H]; [right; now left | now left].
Qed.

(** The columns of the frame of a table: its header names, [pagina] and
    [tabla]. *)
Lemma marco_columns (p i : Z) (header : Row) (rows : list Row) (g : DataFrame) :
  marco (p, i, header :: rows) = Ok g ->
  forall c, In c (columns g) <-> c = pagina \/ c = tabla \/ In c header.
Proof.
  unfold marco. destruct (DataFrame_new rows header) as [df|e] eqn:Hnew;
    [|discriminate].
  cbn [bind]. intros [= <-] c.
  apply DataFrame_new_Ok in Hnew as (Hcols & _ & _).
  rewrite !setitem_columns_In, Hcols. tauto.
Qed.

(** The columns of a concatenation are the labels of its frames. *)
Lemma concat_columns (frames : list DataFrame) (df : DataFrame) :
  concat frames = Ok df ->
  forall c, In c (columns df) <-> exists g, In g frames /\ In c (columns g).
Proof.
  unfold concat. destruct frames as [|f rest]; [discriminate|].
  destruct (forallb (fun g => columns_eqb (columns g) (columns f)) rest) eqn:Eq.
  - intros [= <-] c. cbn [columns]. split.
    + intros Hc. exists f. split; [now left | exact Hc].
    + intros (g & [<-|Hg] & Hc); [exact Hc|].
      rewrite forallb_forall in Eq. specialize (Eq g Hg).
      apply columns_eqb_eq in Eq. now rewrite <- Eq.
  - destruct (forallb (fun g => is_unique (columns g)) (f :: rest));
      [|discriminate].
    intros [= <-] c.
    change (In c (unique (flat_map columns (f :: rest)))
            <-> exists g, In g (f :: rest) /\ In c (columns g)).
    rewrite unique_In. apply in_flat_map.
Qed.

(** Stacking frames with one value per column gives one value per
    column. *)
Lemma concat_rectangular (frames : list DataFrame) (df : DataFrame) :
  concat frames = Ok df ->
  Forall rectangular frames -> rectangular df.
Proof.
  unfold concat. destruct frames as [|f rest]; [discriminate|].
  intros Hc Hrect. rewrite Forall_forall in Hrect.
  unfold rectangular. rewrite Forall_forall.
  destruct (forallb (fun g => columns_eqb (columns g) (columns f)) rest) eqn:Eq.
  - injection Hc as <-. cbn [columns data]. intros row Hrow.
    change (In row (flat_map data (f :: rest))) in Hrow.
    apply in_flat_map in Hrow as (g & Hg & Hrow).
    pose proof (Hrect g Hg) as Hr. unfold rectangular in Hr.
    rewrite Forall_forall in Hr. rewrite (Hr row Hrow).
    destruct Hg as [<-|Hg]; [reflexivity|].
    rewrite forallb_forall in Eq. specialize (Eq g Hg).
    apply columns_eqb_eq in Eq. now rewrite Eq.
  - destruct (forallb (fun g => is_unique (columns g)) (f :: rest));
      [|discriminate].
    injection Hc as <-. intros row Hrow.
    change (In row (flat_map (reindex (unique (flat_map columns (f :: rest))))
                             (f :: rest))) in Hrow.
    apply in_flat_map in Hrow as (g & Hg & Hrow). unfold reindex in Hrow.
    apply in_map_iff in Hrow as (row0 & <- & _). apply length_map.
Qed.

Lemma replace_value_no_vacio (v x : value) :
  v <> VStr "" -> replace_value "" v x <> VStr "".
Proof.
  intros Hv. destruct x as [s| | | |]; simpl; try discriminate.
  destruct (String.eqb s "") eqn:E; [exact Hv|].
  apply String.eqb_neq in E. congruence.
Qed.

Lemma Forall2_In_l {A B : Type} (R : A -> B -> Prop) (l : list A) (l' : list B) :
  Forall2 R l l' -> forall x, In x l -> exists y, In y l' /\ R x y.
Proof.
  induction 1 as [|x y t t' Hxy _ IH]; intros z Hz; [contradiction|].
  destruct Hz as [<-|Hz].
  - exists y. split; [now left | exact Hxy].
  - destruct (IH z Hz) as (y' & Hin & Hr). exists y'. split; [now right | exact Hr].
Qed.

(** A returned frame has at least one row. *)
Lemma extraer_tablas_pdf_no_vacio (pdf : PDF) (df : DataFrame) :
  extraer_tablas_pdf pdf = Ok df -> data df <> [].
Proof.
  intros Hex Hnil. pose proof (filas_totales pdf df Hex) as Hn.
  rewrite Hnil in Hn. simpl in Hn.
  destruct (extraer_tablas_pdf_Ok pdf df Hex)
    as (fs & dfc & T & HF & _ & Hne & _).
  pose proof (suma_aporte pdf) as Hs. rewrite <- Hn in Hs.
  pose proof (Forall2_length HF) as Hlen.
  destruct (usables pdf) as [|[[p i] t] us] eqn:Hus.
  - destruct fs; [congruence | discriminate Hlen].
  - assert (Hin : In (p, i, t) (usables pdf)) by (rewrite Hus; now left).
    apply usables_desde_In in Hin. cbn [snd] in Hin.
    simpl in Hs. unfold aporte in Hs at 1. lia.
Qed.

(** X1: a frame [extraer_tablas_pdf] returns is never empty, has one
    value per column in every row, has the columns [pagina] and [tabla],
    and holds no empty string: every one has been replaced. *)
Theorem extraer_tablas_pdf_forma (pdf : PDF) (df : DataFrame) :
  extraer_tablas_pdf pdf = Ok df ->
  data df <> []
  /\ rectangular df
  /\ In pagina (columns df)
  /\ In tabla (columns df)
  /\ forall row, In row (data df) -> ~ In (VStr "") row.
Proof.
  intros Hex.
  destruct (extraer_tablas_pdf_Ok pdf df Hex)
    as (fs & dfc & T & HF & _ & Hne & Hc & Hdf & _ & _ & _).
  assert (Hmarcos : forall g, In g fs ->
            rectangular g /\ In pagina (columns g) /\ In tabla (columns g)).
  { intros g Hg.
    destruct (Forall2_In_r _ _ _ HF g Hg) as ([[p i] t] & _ & Hm).
    pose proof Hm as Hm'. apply marco_Ok in Hm' as (_ & _ & Hrect & h & r & -> & _).
    split; [exact Hrect|].
    split; apply (marco_columns p i h r g Hm); tauto. }
  assert (Hrect : rectangular dfc).
  { apply (concat_rectangular fs dfc Hc). apply Forall_forall.
    intros g Hg. now apply Hmarcos. }
  destruct fs as [|f rest]; [congruence|].
  assert (Hf : In f (f :: rest)) by now left.
  destruct (Hmarcos f Hf) as (_ & Hp & Ht).
  subst df. unfold replace. cbn [columns data].
  split; [|split; [|split; [|split]]].
  - exact (extraer_tablas_pdf_no_vacio pdf _ Hex).
  - unfold rectangular in *. cbn [columns data]. rewrite Forall_forall in *.
    intros row' Hin. apply in_map_iff in Hin as (row & <- & Hin).
    rewrite length_map. now apply Hrect.
  - apply (concat_columns _ _ Hc). now exists f.
  - apply (concat_columns _ _ Hc). now exists f.
  - intros row' Hin Habs. apply in_map_iff in Hin as (row & <- & _).
    apply in_map_iff in Habs as (x & Hx & _).
    revert Hx. apply replace_value_no_vacio. discriminate.
Qed.

(** X1, witness: the two-page document of the first scenario. *)
Lemma extraer_tablas_pdf_forma_witness :
  let df := mkDF [Some "Producto"; Some "Precio"; pagina; tabla]
                 [[VStr "Papa"; VStr "1000"; VInt 1; VInt 1];
                  [VNA; VNone; VInt 1; VInt 1]] in
  data df <> []
  /\ rectangular df
  /\ In pagina (columns df)
  /\ In tabla (columns df)
  /\ forall row, In row (data df) -> ~ In (VStr "") row.
Proof.
  apply (extraer_tablas_pdf_forma
           [ [ [ [Some "Producto"; Some "Precio"];
                 [Some "Papa"; Some "1000"];
                 [Some ""; None] ] ]; [] ]).
  reflexivity.
Defined.

(** The labels of the returned frame, one by one. *)
Lemma columnas_de_extraccion (pdf : PDF) (df : DataFrame) :
  extraer_tablas_pdf pdf = Ok df ->
  forall c : label,
    In c (columns df) <->
    c = pagina \/ c = tabla
    \/ exists p i t, In (p, i, t) (usables pdf) /\ In c (encabezado t).
Proof.
  intros Hex c.
  destruct (extraer_tablas_pdf_Ok pdf df Hex)
    as (fs & dfc & T & HF & _ & Hne & Hc & Hdf & _ & _ & _).
  subst df. unfold replace. cbn [columns].
  rewrite (concat_columns fs dfc Hc). split.
  - intros (g & Hg & Hcg).
    destruct (Forall2_In_r _ _ _ HF g Hg) as ([[p i] t] & Hu & Hm).
    pose proof Hm as Hm'. apply marco_Ok in Hm' as (_ & _ & _ & h & r & -> & _).
    apply (marco_columns p i h r g Hm) in Hcg as [->|[->|Hh]]; [tauto | tauto |].
    right. right. exists p, i, (h :: r). now split.
  - assert (Hex1 : exists g, In g fs) by (destruct fs; [congruence | eexists; now left]).
    intros [->|[->|(p & i & t & Hu & Hh)]].
    + destruct Hex1 as [g Hg]. exists g. split; [exact Hg|].
      destruct (Forall2_In_r _ _ _ HF g Hg) as ([[p i] t] & _ & Hm).
      pose proof Hm as Hm'. apply marco_Ok in Hm' as (_ & _ & _ & h & r & -> & _).
      apply (marco_columns p i h r g Hm). tauto.
    + destruct Hex1 as [g Hg]. exists g. split; [exact Hg|].
      destruct (Forall2_In_r _ _ _ HF g Hg) as ([[p i] t] & _ & Hm).
      pose proof Hm as Hm'. apply marco_Ok in Hm' as (_ & _ & _ & h & r & -> & _).
      apply (marco_columns p i h r g Hm). tauto.
    + destruct (Forall2_In_l _ _ _ HF _ Hu) as (g & Hg & Hm).
      exists g. split; [exact Hg|].
      pose proof Hm as Hm'. apply marco_Ok in Hm' as (_ & _ & _ & h & r & -> & _).
      apply (marco_columns p i h r g Hm). simpl in Hh. tauto.
Qed.

(** X2: the columns of the returned frame are exactly [pagina], [tabla]
    and the header names of the usable tables: no name is lost, renamed
    or invented. *)
Theorem extraer_tablas_pdf_columnas (pdf : PDF) (df : DataFrame) :
  extraer_tablas_pdf pdf = Ok df ->
  forall c : label,
    In c (columns df) <->
    c = pagina \/ c = tabla
    \/ exists p i t, In (p, i, t) (usables pdf) /\ In c (encabezado t).
Proof. exact (columnas_de_extraccion pdf df). Qed.

(** X2, witness: two tables with different headers on one page; the
    name [Fruta] comes from the second. *)
Lemma extraer_tablas_pdf_columnas_witness :
  let pdf : PDF :=
    [ [ [ [Some "Producto"; Some "Precio"]; [Some "Papa"; Some "1000"] ];
        [ [Some "Fruta"; Some "Precio"]; [Some "Mango"; Some "2500"] ] ] ] in
  In (Some "Fruta")
     [Some "Producto"; Some "Precio"; pagina; tabla; Some "Fruta"] <->
  Some "Fruta" = pagina \/ Some "Fruta" = tabla
  \/ exists p i t, In (p, i, t) (usables pdf) /\ In (Some "Fruta") (encabezado t).
Proof.
  exact (extraer_tablas_pdf_columnas
           [ [ [ [Some "Producto"; Some "Precio"]; [Some "Papa"; Some "1000"] ];
               [ [Some "Fruta"; Some "Precio"]; [Some "Mango"; Some "2500"] ] ] ]
           (mkDF [Some "Producto"; Some "Precio"; pagina; tabla; Some "Fruta"]
                 [[VStr "Papa"; VStr "1000"; VInt 1; VInt 1; VNaN];
                  [VNaN; VStr "2500"; VInt 1; VInt 2; VStr "Mango"]])
           eq_refl (Some "Fruta")).
Defined.

(* ================================================================== *)
(** * Further properties: order and content of the rows *)
(* ================================================================== *)

Lemma map_constante {A B : Type} (f : A -> B) (a : B) (l : list A) :
  (forall x, In x l -> f x = a) -> map f l = repeat a (List.length l).
Proof.
  induction l as [|x t IH]; simpl; intros H; [reflexivity|].
  rewrite (H x) by now left. f_equal. apply IH. intros y Hy. apply H. now right.
Qed.

Lemma map_flat_map_Forall2 {A B C D : Type} (R : A -> B -> Prop)
  (f : C -> D) (Blk : B -> list C) (Esp : A -> list D)
  (us : list A) (fs : list B) :
  Forall2 R us fs ->
  (forall u g, In u us -> In g fs -> R u g -> map f (Blk g) = Esp u) ->
  map f (flat_map Blk fs) = flat_map Esp us.
Proof.
  induction 1 as [|u g us' fs' Hug _ IH]; intros H; [reflexivity|].
  simpl. rewrite map_app, (H u g) by (auto; now left). f_equal.
  apply IH. intros u' g' Hu' Hg'. apply H; now right.
Qed.

(** X3: the rows of the returned frame are in document order: page by
    page, within a page table by table, each usable table's data rows
    together.  Reading [pagina] and [tabla] down the frame gives, for each
    usable table in turn, its page and ordinal once per data row. *)
Theorem extraer_tablas_pdf_orden (pdf : PDF) (df : DataFrame) :
  extraer_tablas_pdf pdf = Ok df ->
  map (etiqueta (columns df)) (data df)
  = flat_map (fun u : Z * Z * Table =>
                repeat (VInt (fst (fst u)), VInt (snd (fst u)))
                       (aporte (snd u)))
             (usables pdf).
Proof.
  intros Hex.
  destruct (extraer_tablas_pdf_Ok pdf df Hex)
    as (fs & dfc & T & HF & _ & _ & _ & _ & _ & Hdata & Hcell).
  rewrite Hdata.
  apply (map_flat_map_Forall2 (fun u g => marco u = Ok g)); [exact HF|].
  intros [[p i] t] g _ Hg Hm. cbn [fst snd].
  apply marco_Ok in Hm as (Het & Hlen & _).
  unfold etiquetado in Het. rewrite Forall_forall in Het.
  rewrite <- Hlen, <- (length_map (T g)). apply map_constante.
  intros row' Hin. apply in_map_iff in Hin as (row & <- & Hin).
  unfold etiqueta. rewrite !Hcell by exact Hg.
  destruct (Het row Hin) as [-> ->]. reflexivity.
Qed.

(** X3, witness: a page with two tables, a page with none, a page with
    one. *)
Lemma extraer_tablas_pdf_orden_witness :
  let pdf : PDF :=
    [ [ [ [Some "Producto"]; [Some "Papa"]; [Some "Yuca"] ];
        [ [Some "Producto"] ];
        [ [Some "Producto"]; [Some "Mango"] ] ];
      [];
      [ [ [Some "Producto"]; [Some "Lulo"] ] ] ] in
  exists df,
    extraer_tablas_pdf pdf = Ok df
    /\ map (etiqueta (columns df)) (data df)
       = [ (VInt 1, VInt 1); (VInt 1, VInt 1); (VInt 1, VInt 3);
           (VInt 3, VInt 1) ].
Proof.
  cbv zeta. eexists. split; [reflexivity|].
  rewrite (extraer_tablas_pdf_orden
             [ [ [ [Some "Producto"]; [Some "Papa"]; [Some "Yuca"] ];
                 [ [Some "Producto"] ];
                 [ [Some "Producto"]; [Some "Mango"] ] ];
               [];
               [ [ [Some "Producto"]; [Some "Lulo"] ] ] ] _ eq_refl).
  reflexivity.
Defined.

(** What a padded data row holds under a header name: the cell at the
    first position of the name, [None] when the row stops before it. *)
Lemma cell_pad_row (c : label) (header : list label) (r : Row) (j : nat) :
  index_of c header = Some j ->
  cell c header (pad_row (List.length header) r) = of_cell (nth j r None).
Proof.
  intros Hj. unfold cell. rewrite Hj. apply index_of_nth in Hj.
  assert (Hlt : (j < List.length header)%nat)
    by (apply nth_error_Some; congruence).
  unfold pad_row.
  destruct (Nat.lt_ge_cases j (List.length r)) as [Hin|Hout].
  - rewrite app_nth1 by (now rewrite length_map).
    rewrite (nth_indep _ VNaN (of_cell None)) by (now rewrite length_map).
    apply map_nth.
  - rewrite app_nth2 by (now rewrite length_map). rewrite length_map.
    rewrite (nth_overflow r) by exact Hout.
    rewrite (nth_indep _ VNaN VNone) by (rewrite repeat_length; lia).
    apply nth_repeat.
Qed.

(** The rows of the frame of a table, data row by data row: the page
    under [pagina], the ordinal under [tabla], and under any other label
    what the padded data row holds under it in the header. *)
Lemma marco_filas (p i : Z) (header : Row) (rows : list Row) (g : DataFrame) :
  marco (p, i, header :: rows) = Ok g ->
  exists G : Row -> list value,
    data g = map G rows
    /\ forall r, In r rows ->
       forall c, cell c (columns g) (G r)
                 = if label_eqb c tabla then VInt i
                   else if label_eqb c pagina then VInt p
                   else cell c header (pad_row (List.length header) r).
Proof.
  unfold marco. destruct (DataFrame_new rows header) as [df0|e] eqn:Hnew;
    [|discriminate].
  cbn [bind]. intros [= <-].
  pose proof (DataFrame_new_Ok rows header df0 Hnew) as (Hcols & Hrect & _).
  assert (Hdata : data df0 = map (pad_row (List.length header)) rows).
  { unfold DataFrame_new in Hnew. cbv zeta in Hnew.
    destruct (Nat.eqb _ (max_width rows)) eqn:E; [|discriminate Hnew].
    apply Nat.eqb_eq in E. injection Hnew as <-. cbn [data].
    unfold label, Row, Cell in *. now rewrite E. }
  pose proof (setitem_rectangular pagina (VInt p) df0 Hrect) as Hrect1.
  destruct (setitem_filas pagina (VInt p) df0 Hrect) as (G1 & HG1 & Hrow1).
  destruct (setitem_filas tabla (VInt i) _ Hrect1) as (G2 & HG2 & Hrow2).
  exists (fun r => G2 (G1 (pad_row (List.length header) r))). split.
  - now rewrite HG2, HG1, Hdata, !map_map.
  - intros r Hr c.
    assert (H0 : In (pad_row (List.length header) r) (data df0))
      by (rewrite Hdata; now apply in_map).
    assert (H1 : In (G1 (pad_row (List.length header) r))
                    (data (setitem pagina (VInt p) df0)))
      by (rewrite HG1; now apply in_map).
    destruct (Hrow2 _ H1) as [_ Hc2]. rewrite Hc2.
    destruct (label_eqb c tabla); [reflexivity|].
    destruct (Hrow1 _ H0) as [_ Hc1]. rewrite Hc1, Hcols. reflexivity.
Qed.

Lemma filter_bloque {A B C : Type} (R : A -> B -> Prop) (kmatch : A -> bool)
  (test : C -> bool) (Blk : B -> list C) (b0 : list C)
  (us : list A) (fs : list B) :
  Forall2 R us fs ->
  (forall u g, In u us -> In g fs -> R u g ->
     (kmatch u = true -> Blk g = b0)
     /\ forall x, In x (Blk g) -> test x = kmatch u) ->
  filter test (flat_map Blk fs) = flat_map (fun _ => b0) (filter kmatch us).
Proof.
  induction 1 as [|u g us' fs' Hug _ IH]; intros H; [reflexivity|].
  simpl. rewrite filter_app.
  destruct (H u g (or_introl eq_refl) (or_introl eq_refl) Hug) as [Hb Ht].
  rewrite IH by (intros u' g' Hu' Hg'; apply H; now right).
  destruct (kmatch u) eqn:E.
  - simpl. rewrite <- (Hb eq_refl). f_equal. now apply filter_todo.
  - replace (filter test (Blk g)) with (@nil C); [reflexivity|].
    symmetry. clear Hb. induction (Blk g) as [|x t IHt]; [reflexivity|].
    simpl. rewrite (Ht x) by now left. apply IHt.
    intros y Hy. apply Ht. now right.
Qed.

Lemma length_flat_map_const {A C : Type} (b0 : list C) (l : list A) :
  List.length (flat_map (fun _ => b0) l)
  = (List.length l * List.length b0)%nat.
Proof.
  induction l as [|x t IH]; simpl; [reflexivity|].
  rewrite length_app, IH. lia.
Qed.

Lemma list_sum_positivo {A : Type} (f : A -> nat) (l : list A) :
  (0 < list_sum (map f l))%nat -> exists x, In x l /\ (0 < f x)%nat.
Proof.
  induction l as [|x t IH]; simpl; [lia|]. intros H.
  destruct (f x) as [|n] eqn:E.
  - destruct (IH H) as (y & Hy & Hf). exists y. split; [now right | exact Hf].
  - exists x. split; [now left | lia].
Qed.

(** The rows tagged with the page and ordinal of a table are the data
    rows of that table, in order, each moved to the columns of the
    result. *)
Lemma filas_de_tabla (pdf : PDF) (df : DataFrame) (p i : Z)
  (header : Row) (rows : list Row) :
  extraer_tablas_pdf pdf = Ok df ->
  tabla_en pdf p i = Some (header :: rows) ->
  rows <> [] ->
  exists F : Row -> list value,
    filas_de p i df = map F rows
    /\ forall r, In r rows ->
       forall c, cell c (columns df) (F r)
                 = replace_value "" VNA
                     (if label_eqb c tabla then VInt i
                      else if label_eqb c pagina then VInt p
                      else cell c header (pad_row (List.length header) r)).
Proof.
  intros Hex Ht Hrows.
  destruct (extraer_tablas_pdf_Ok pdf df Hex)
    as (fs & dfc & T & HF & _ & _ & _ & _ & _ & Hdata & Hcell).
  pose proof (filas_de_aporte pdf df p i Hex) as Hn. rewrite Ht in Hn.
  assert (Hap : aporte (header :: rows) = List.length rows)
    by (unfold aporte; simpl; lia).
  assert (Hpos : (0 < List.length rows)%nat)
    by (destruct rows; [congruence | simpl; lia]).
  (* the table is one of the usable ones *)
  pose proof (suma_peso pdf p i) as Hs. rewrite Ht, Hap in Hs.
  destruct (list_sum_positivo (peso p i) (usables pdf)) as ([[p' i'] t'] & Hu & Hw);
    [lia|].
  unfold peso in Hw. cbn [fst snd] in Hw.
  destruct ((p' =? p) && (i' =? i)) eqn:Ek; [|lia].
  apply andb_true_iff in Ek as [Ep Ei].
  apply Z.eqb_eq in Ep, Ei. subst p' i'.
  pose proof (usables_tabla_en pdf p i t' Hu) as (Ht' & _).
  rewrite Ht in Ht'. injection Ht' as <-.
  destruct (Forall2_In_l _ _ _ HF _ Hu) as (g0 & Hg0 & Hm0).
  destruct (marco_filas p i header rows g0 Hm0) as (G & HG & HGc).
  exists (fun r => T g0 (G r)). split.
  - unfold filas_de. rewrite Hdata.
    rewrite (filter_bloque (fun u g => marco u = Ok g)
               (fun u : Z * Z * Table =>
                  (fst (fst u) =? p) && (snd (fst u) =? i))
               _ (fun g => map (T g) (data g))
               (map (T g0) (data g0)) (usables pdf) fs HF).
    + assert (Hlen : List.length
                       (filter (fun u : Z * Z * Table =>
                                  (fst (fst u) =? p) && (snd (fst u) =? i))
                               (usables pdf)) = 1%nat).
      { pose proof Hn as Hn'. unfold filas_de in Hn'. rewrite Hdata in Hn'.
        rewrite (filter_bloque (fun u g => marco u = Ok g)
                   (fun u : Z * Z * Table =>
                      (fst (fst u) =? p) && (snd (fst u) =? i))
                   _ (fun g => map (T g) (data g))
                   (map (T g0) (data g0)) (usables pdf) fs HF) in Hn'.
        - rewrite length_flat_map_const, length_map, HG, length_map, Hap in Hn'.
          nia.
        - intros [[p' i'] t'] g Hu' Hg Hm. cbn [fst snd]. split.
          + intros Ek. apply andb_true_iff in Ek as [Ep Ei].
            apply Z.eqb_eq in Ep, Ei. subst p' i'.
            pose proof (usables_tabla_en pdf p i t' Hu') as (Ht' & _).
            rewrite Ht in Ht'. injection Ht' as <-. congruence.
          + intros row' Hin. apply in_map_iff in Hin as (row & <- & Hin).
            apply marco_Ok in Hm as (Het & _).
            unfold etiquetado in Het. rewrite Forall_forall in Het.
            rewrite !Hcell by exact Hg. destruct (Het row Hin) as [-> ->].
            reflexivity. }
      destruct (filter _ (usables pdf)) as [|u1 [|u2 rest]]; try discriminate Hlen.
      simpl. now rewrite app_nil_r, HG, map_map.
    + intros [[p' i'] t'] g Hu' Hg Hm. cbn [fst snd]. split.
      * intros Ek. apply andb_true_iff in Ek as [Ep Ei].
        apply Z.eqb_eq in Ep, Ei. subst p' i'.
        pose proof (usables_tabla_en pdf p i t' Hu') as (Ht' & _).
        rewrite Ht in Ht'. injection Ht' as <-. congruence.
      * intros row' Hin. apply in_map_iff in Hin as (row & <- & Hin).
        apply marco_Ok in Hm as (Het & _).
        unfold etiquetado in Het. rewrite Forall_forall in Het.
        rewrite !Hcell by exact Hg. destruct (Het row Hin) as [-> ->].
        reflexivity.
  - intros r Hr c. rewrite Hcell by exact Hg0. now rewrite HGc.
Qed.

Lemma muestra_replace (c : Cell) :
  muestra c (replace_value "" VNA (of_cell c)) = true.
Proof.
  destruct c as [s|]; [|reflexivity]. unfold muestra, of_cell, replace_value.
  destruct (String.eqb s "") eqn:E; [reflexivity|].
  cbn [value_eqb]. apply String.eqb_refl.
Qed.

(** X4: extraction keeps what the tables hold.  For a table with data
    rows, the rows of the result tagged with its page and ordinal are as
    many as its data rows and follow their order; under a header name
    other than [pagina] and [tabla] each shows the cell the data row has
    at the first position of that name: the text of the cell, and a
    missing value where the grid has no cell or the cell is the empty
    string.  Under a name the header does not have, every one of these
    rows shows a missing value. *)
Theorem extraer_tablas_pdf_contenido (pdf : PDF) (df : DataFrame) (p i : Z)
  (header : Row) (rows : list Row) (h : label) :
  extraer_tablas_pdf pdf = Ok df ->
  tabla_en pdf p i = Some (header :: rows) ->
  rows <> [] ->
  h <> pagina -> h <> tabla ->
  List.length (filas_de p i df) = List.length rows
  /\ (forall j, index_of h header = Some j ->
      Forall2 (fun r v => muestra (nth j r None) v = true)
              rows (map (cell h (columns df)) (filas_de p i df)))
  /\ (~ In h header ->
      Forall (fun v => isna v = true)
             (map (cell h (columns df)) (filas_de p i df))).
Proof.
  intros Hex Ht Hrows Hp Htb.
  destruct (filas_de_tabla pdf df p i header rows Hex Ht Hrows) as (F & HF & Hc).
  apply label_eqb_neq in Hp, Htb.
  assert (Hcel : forall r, In r rows ->
            cell h (columns df) (F r)
            = replace_value "" VNA
                (cell h header (pad_row (List.length header) r))).
  { intros r Hr. rewrite (Hc r Hr h), Htb, Hp. reflexivity. }
  split; [now rewrite HF, length_map|]. split.
  - intros j Hj. rewrite HF, map_map.
    clear HF Hc Hrows Ht. induction rows as [|r rest IH]; [constructor|].
    cbn [map]. constructor.
    + rewrite (Hcel r) by now left.
      replace (cell h header (pad_row (List.length header) r))
        with (of_cell (nth j r None))
        by (symmetry; exact (cell_pad_row h header r j Hj)).
      apply muestra_replace.
    + apply IH. intros r' Hr'. apply Hcel. now right.
  - intros Hnot. rewrite HF, map_map. apply Forall_forall.
    intros v Hv. apply in_map_iff in Hv as (r & <- & Hr).
    rewrite (Hcel r Hr).
    now rewrite (cell_notin h header (pad_row (List.length header) r) Hnot).
Qed.

(** X4, witness: the prices of a table with a missing cell and an empty
    one. *)
Lemma extraer_tablas_pdf_contenido_witness :
  let pdf : PDF :=
    [ [ [ [Some "Producto"; Some "Precio"];
          [Some "Papa"; Some "1000"];
          [Some "Yuca"; Some ""];
          [Some "Lulo"; None] ] ] ] in
  exists df v1 v2 v3,
    extraer_tablas_pdf pdf = Ok df
    /\ map (cell (Some "Precio") (columns df)) (filas_de 1 1 df) = [v1; v2; v3]
    /\ v1 = VStr "1000" /\ isna v2 = true /\ isna v3 = true.
Proof.
  cbv zeta.
  destruct (extraer_tablas_pdf
              [ [ [ [Some "Producto"; Some "Precio"];
                    [Some "Papa"; Some "1000"];
                    [Some "Yuca"; Some ""];
                    [Some "Lulo"; None] ] ] ]) as [df|e] eqn:Hex;
    [|vm_compute in Hex; discriminate Hex].
  pose proof (extraer_tablas_pdf_contenido _ df 1 1
                [Some "Producto"; Some "Precio"]
                [ [Some "Papa"; Some "1000"];
                  [Some "Yuca"; Some ""];
                  [Some "Lulo"; None] ]
                (Some "Precio")
                Hex eq_refl ltac:(discriminate) ltac:(discriminate)
                ltac:(discriminate)) as (_ & H & _).
  specialize (H 1%nat eq_refl).
  inversion H as [|r1 v1 l1 l1' Hv1 H1 E1 E1']; subst.
  inversion H1 as [|r2 v2 l2 l2' Hv2 H2 E2 E2']; subst.
  inversion H2 as [|r3 v3 l3 l3' Hv3 H3 E3 E3']; subst.
  inversion H3; subst.
  exists df, v1, v2, v3.
  split; [reflexivity|]. split; [congruence|].
  cbn in Hv1, Hv2, Hv3.
  split; [|split; assumption].
  destruct v1; cbn in Hv1; try discriminate Hv1.
  f_equal. now apply String.eqb_eq.
Defined.

(** X5: extraction followed by the date.  When a usable table has a
    header cell [Fecha], [insert] refuses the column and the step raises
    [ValueError]; otherwise the result is the extracted frame with a new
    first column [Fecha] holding the ISO date in every row, and nothing
    else changed.  For a [date] the text is year on four digits, month and
    day on two, with dashes. *)
Theorem extraer_y_fechar_resultado (pdf : PDF) (fecha : date) (df0 : DataFrame) :
  extraer_tablas_pdf pdf = Ok df0 ->
  valid_date fecha = true ->
  ((exists p i t, In (p, i, t) (usables pdf) /\ In Fecha (encabezado t)) ->
     extraer_y_fechar pdf fecha
     = Raise (ValueError "cannot insert Fecha, already exists"))
  /\ (~ (exists p i t, In (p, i, t) (usables pdf) /\ In Fecha (encabezado t)) ->
      extraer_y_fechar pdf fecha
      = Ok (mkDF (Fecha :: columns df0)
                 (map (cons (VStr (isoformat fecha))) (data df0))))
  /\ isoformat fecha
     = cuatro_digitos (year fecha) ++ "-" ++ dos_digitos (month fecha)
       ++ "-" ++ dos_digitos (day fecha).
Proof.
  intros Hex Hv. pose proof (columnas_de_extraccion pdf df0 Hex Fecha) as Hcols.
  unfold extraer_y_fechar. rewrite Hex. cbn [bind].
  split; [|split].
  - intros Hf. apply agregar_fecha_Raise. apply Hcols. tauto.
  - intros Hnf. apply agregar_fecha_Ok. intros Hin.
    apply Hcols in Hin as [H|[H|H]]; [discriminate H | discriminate H | tauto].
  - now apply isoformat_valida.
Qed.

(** X5, witness: a bulletin whose table has its own [Fecha] column. *)
Lemma extraer_y_fechar_resultado_witness :
  let pdf : PDF :=
    [ [ [ [Some "Fecha"; Some "Precio"]; [Some "15/03"; Some "1000"] ] ] ] in
  extraer_y_fechar pdf (Date 2024 3 15)
  = Raise (ValueError "cannot insert Fecha, already exists").
Proof.
  cbv zeta.
  apply (proj1 (extraer_y_fechar_resultado
                  [ [ [ [Some "Fecha"; Some "Precio"];
                        [Some "15/03"; Some "1000"] ] ] ]
                  (Date 2024 3 15)
                  (mkDF [Some "Fecha"; Some "Precio"; pagina; tabla]
                        [[VStr "15/03"; VStr "1000"; VInt 1; VInt 1]])
                  eq_refl eq_refl)).
  exists 1, 1, [ [Some "Fecha"; Some "Precio"]; [Some "15/03"; Some "1000"] ].
  split; [now left | now left].
Defined.

(* ================================================================== *)
(** * Further properties: the candidates name their date *)
(* ================================================================== *)

Lemma app_asociativa (a b c : string) : (a ++ b) ++ c = a ++ b ++ c.
Proof. induction a as [|x a IH]; simpl; [reflexivity | now rewrite IH]. Qed.

Lemma valor_str (n : Z) : 1 <= n <= 9999 -> valor (str n) = n.
Proof.
  intros Hn. apply Z.eqb_eq.
  apply (@por_casos (fun z => valor (str z) =? z) 1 9999);
    [vm_compute; reflexivity | lia].
Qed.

Lemma valor_dos_digitos (n : Z) : 0 <= n <= 99 -> valor (dos_digitos n) = n.
Proof.
  intros Hn. apply Z.eqb_eq.
  apply (@por_casos (fun z => valor (dos_digitos z) =? z) 0 99);
    [vm_compute; reflexivity | lia].
Qed.

Lemma todos_digitos_str (n : Z) : 1 <= n <= 9999 -> todos_digitos (str n) = true.
Proof.
  intros Hn.
  apply (@por_casos (fun z => todos_digitos (str z)) 1 9999);
    [vm_compute; reflexivity | lia].
Qed.

(** Two texts that start with digits and then a slash agree on the digits
    and on the rest. *)
Lemma corte_en_barra (a b r r' : string) :
  todos_digitos a = true -> todos_digitos b = true ->
  a ++ "/" ++ r = b ++ "/" ++ r' -> a = b /\ r = r'.
Proof.
  revert b. induction a as [|x a IH]; intros [|y b] Ha Hb H; simpl in *.
  - injection H as H. now split.
  - injection H as Hy _. subst y. discriminate Hb.
  - injection H as Hx _. subst x. discriminate Ha.
  - injection H as Hxy H. subst y.
    apply andb_true_iff in Ha as [_ Ha]. apply andb_true_iff in Hb as [_ Hb].
    destruct (IH b Ha Hb H) as [-> ->]. now split.
Qed.

Lemma dos_digitos_corte (m m' : Z) (x y : string) :
  dos_digitos m ++ x = dos_digitos m' ++ y ->
  dos_digitos m = dos_digitos m' /\ x = y.
Proof.
  unfold dos_digitos. simpl. intros H. injection H as H1 H2 H3.
  rewrite H1, H2. now split.
Qed.

(** The third candidate, written flat. *)
Lemma tercera_candidata (fecha : date) (us : list string) :
  valid_date fecha = true ->
  construir_urls_candidatas fecha = Ok us ->
  nth_error us 2
  = Some (uploads ++ str (year fecha) ++ "/" ++ dos_digitos (month fecha)
          ++ "/Boletin_diario_" ++ str (year fecha)
          ++ dos_digitos (month fecha) ++ dos_digitos (day fecha) ++ ".pdf").
Proof.
  intros Hv Hu. apply valid_date_campos in Hv as (Hy & Hm & Hd).
  destruct (meses_mes _ Hm) as (mes & Hg & _ & _).
  rewrite (construir_urls_candidatas_eq fecha mes Hg) in Hu.
  cbv zeta in Hu. injection Hu as <-. cbn [nth_error]. f_equal.
  rewrite !fmt_02d_dos_digitos by lia. rewrite !app_asociativa. reflexivity.
Qed.

Lemma Some_iny {A : Type} (a b : A) : Some a = Some b -> a = b.
Proof. congruence. Qed.

(** X6: the candidates name their date.  Two dates whose third candidate
    (the numeric daily-bulletin name) is the same text are the same date,
    so no two days are ever looked up at the same list of locations. *)
Theorem construir_urls_candidatas_inyectiva (d1 d2 : date) (us1 us2 : list string) :
  valid_date d1 = true -> valid_date d2 = true ->
  construir_urls_candidatas d1 = Ok us1 ->
  construir_urls_candidatas d2 = Ok us2 ->
  nth_error us1 2 = nth_error us2 2 ->
  d1 = d2.
Proof.
  intros Hv1 Hv2 Hu1 Hu2 H3.
  rewrite (tercera_candidata d1 us1 Hv1 Hu1) in H3.
  rewrite (tercera_candidata d2 us2 Hv2 Hu2) in H3.
  apply valid_date_campos in Hv1 as (Hy1 & Hm1 & Hd1).
  apply valid_date_campos in Hv2 as (Hy2 & Hm2 & Hd2).
  apply Some_iny in H3. apply (append_inv_head uploads) in H3.
  apply corte_en_barra in H3 as [HY H3]; try (apply todos_digitos_str; lia).
  apply dos_digitos_corte in H3 as [HM H3].
  apply (append_inv_head "/Boletin_diario_") in H3.
  rewrite HY in H3. apply append_inv_head in H3.
  apply dos_digitos_corte in H3 as [_ H3].
  apply dos_digitos_corte in H3 as [HD _].
  apply (f_equal valor) in HY, HM, HD.
  rewrite !valor_str in HY by lia.
  rewrite !valor_dos_digitos in HM, HD by lia.
  destruct d1, d2. simpl in *. congruence.
Qed.

(** X6, witness: a date is told from its own candidates. *)
Lemma construir_urls_candidatas_inyectiva_witness :
  Date 2024 3 5 = Date 2024 3 5.
Proof.
  apply (construir_urls_candidatas_inyectiva (Date 2024 3 5) (Date 2024 3 5)
           [ "https://corabastos.com.co/wp-content/uploads/2024/03/Boletin-05marzo2024.pdf";
             "https://corabastos.com.co/wp-content/uploads/2024/03/Boletin-5marzo2024.pdf";
             "https://corabastos.com.co/wp-content/uploads/2024/03/Boletin_diario_20240305.pdf" ]
           [ "https://corabastos.com.co/wp-content/uploads/2024/03/Boletin-05marzo2024.pdf";
             "https://corabastos.com.co/wp-content/uploads/2024/03/Boletin-5marzo2024.pdf";
             "https://corabastos.com.co/wp-content/uploads/2024/03/Boletin_diario_20240305.pdf" ]);
    reflexivity.
Defined.

(* ================================================================== *)
(** * Further properties: the upload and [main] *)
(* ================================================================== *)

Lemma agregar_fecha_inv (df df' : DataFrame) (fecha : date) :
  agregar_fecha df fecha = Ok df' ->
  ~ In Fecha (columns df)
  /\ df' = mkDF (Fecha :: columns df)
                (map (cons (VStr (isoformat fecha))) (data df)).
Proof.
  intros H. destruct (in_dec label_eq_dec Fecha (columns df)) as [Hin|Hnot].
  - rewrite agregar_fecha_Raise in H by exact Hin. discriminate H.
  - rewrite agregar_fecha_Ok in H by exact Hnot. injection H as <-. now split.
Qed.

Lemma agregar_fecha_Raise_inv (df : DataFrame) (fecha : date) (e : exn) :
  agregar_fecha df fecha = Raise e ->
  In Fecha (columns df)
  /\ e = ValueError "cannot insert Fecha, already exists".
Proof.
  intros H. destruct (in_dec label_eq_dec Fecha (columns df)) as [Hin|Hnot].
  - rewrite agregar_fecha_Raise in H by exact Hin. injection H as <-. now split.
  - rewrite agregar_fecha_Ok in H by exact Hnot. discriminate H.
Qed.

Section OrquestadorProps.

Variable World : Type.
Variable requests_get : string -> World -> result Response * World.
Variable pdfplumber_open : bytes -> result PDF.
Variables Client Spreadsheet Worksheet : Type.
Variable get_gspread_client : World -> result Client * World.
Variable open_by_key : Client -> string -> World -> result Spreadsheet * World.
Variable worksheet : Spreadsheet -> string -> World -> busqueda Worksheet * World.
Variable add_worksheet :
  Spreadsheet -> string -> Z -> Z -> World -> result Worksheet * World.
Variable get_all_values : Worksheet -> World -> result (list (list string)) * World.
Variable append_row : Worksheet -> list label -> World -> result unit * World.
Variable append_rows : Worksheet -> list (list value) -> World -> result unit * World.
Variable SPREADSHEET_ID : string.

(** A call on the world leaves the two logs as they are. *)
Lemma en_mundo_logs {A : Type} (op : World -> A * World) (c : Corrida World) :
  requested (red (snd (en_mundo op c))) = requested (red c)
  /\ escritos (snd (en_mundo op c)) = escritos c.
Proof. unfold en_mundo. destruct (op (world (red c))). now split. Qed.

Lemma abrir_hoja_logs (c : Corrida World) :
  requested (red (snd (abrir_hoja get_gspread_client open_by_key worksheet
                                  add_worksheet SPREADSHEET_ID c)))
  = requested (red c)
  /\ escritos (snd (abrir_hoja get_gspread_client open_by_key worksheet
                               add_worksheet SPREADSHEET_ID c))
     = escritos c.
Proof.
  unfold abrir_hoja.
  pose proof (en_mundo_logs get_gspread_client c) as [Hr1 He1].
  destruct (en_mundo get_gspread_client c) as [[gc|e] c1]; cbn [snd] in *;
    [|now split].
  pose proof (en_mundo_logs (open_by_key gc SPREADSHEET_ID) c1) as [Hr2 He2].
  destruct (en_mundo (open_by_key gc SPREADSHEET_ID) c1) as [[sh|e] c2];
    cbn [snd] in *; [|split; congruence].
  pose proof (en_mundo_logs (worksheet sh SHEET_NAME) c2) as [Hr3 He3].
  destruct (en_mundo (worksheet sh SHEET_NAME) c2) as [[ws| |e] c3];
    cbn [snd] in *; try (split; congruence).
  pose proof (en_mundo_logs (add_worksheet sh SHEET_NAME 1000 30) c3) as [Hr4 He4].
  split; congruence.
Qed.

(** The header step on a worksheet that can raise: it asks for at most
    one write, the row of the column labels, and only after
    [get_all_values] returned the empty list. *)
Lemma inicializar_encabezados_si_vacio_ws_logs (ws : Worksheet)
  (df : DataFrame) (c : Corrida World) :
  let r := inicializar_encabezados_si_vacio_ws get_all_values append_row ws df c in
  requested (red (snd r)) = requested (red c)
  /\ (escritos (snd r) = escritos c
      \/ (escritos (snd r) = (escritos c ++ [Fila (columns df)])%list
          /\ fst (get_all_values ws (world (red c))) = Ok [])).
Proof.
  cbv zeta. unfold inicializar_encabezados_si_vacio_ws.
  pose proof (en_mundo_logs (get_all_values ws) c) as [Hr1 He1].
  assert (Hfst : fst (en_mundo (get_all_values ws) c)
                 = fst (get_all_values ws (world (red c))))
    by (unfold en_mundo; now destruct (get_all_values ws (world (red c)))).
  destruct (en_mundo (get_all_values ws) c) as [[existing|e] c1];
    cbn [fst snd] in *; [|split; [exact Hr1 | now left]].
  destruct (vacia existing) eqn:Hv.
  - apply vacia_true in Hv. subst existing.
    pose proof (en_mundo_logs (append_row ws (columns df))
                  (anotar (Fila (columns df)) c1)) as [Hr2 He2].
    cbn [anotar red escritos] in Hr2, He2.
    split; [congruence|]. right. split; [|now symmetry].
    rewrite He2. now rewrite He1.
  - split; [exact Hr1 | now left].
Qed.

Lemma append_df_to_sheet_ws_logs (ws : Worksheet) (df : DataFrame)
  (c : Corrida World) :
  let r := append_df_to_sheet_ws append_rows ws df c in
  requested (red (snd r)) = requested (red c)
  /\ ((escritos (snd r) = escritos c /\ data df = [])
      \/ (escritos (snd r) = (escritos c ++ [Filas (data df)])%list
          /\ data df <> [])).
Proof.
  cbv zeta. unfold append_df_to_sheet_ws. cbv zeta.
  destruct (vacia (data df)) eqn:Hv.
  - apply vacia_true in Hv. split; [reflexivity|]. now left.
  - apply vacia_false in Hv.
    pose proof (en_mundo_logs (append_rows ws (data df))
                  (anotar (Filas (data df)) c)) as [Hr He].
    cbn [anotar red escritos] in Hr, He. split; [exact Hr|]. right. now split.
Qed.

(** The upload asks for nothing, for the header row, for the batch of
    rows, or for the header row and then the batch; an empty frame gives
    no batch; no URL is requested. *)
Lemma cargar_logs (df : DataFrame) (c : Corrida World) :
  let c' := cargar get_gspread_client open_by_key worksheet add_worksheet
                   get_all_values append_row append_rows SPREADSHEET_ID df c in
  requested (red c') = requested (red c)
  /\ exists l,
       escritos c' = (escritos c ++ l)%list
       /\ (l = [] \/ l = [Fila (columns df)]
           \/ ((l = [Filas (data df)] \/ l = [Fila (columns df); Filas (data df)])
               /\ data df <> [])).
Proof.
  cbv zeta. unfold cargar.
  pose proof (abrir_hoja_logs c) as [Hr0 He0].
  destruct (abrir_hoja get_gspread_client open_by_key worksheet add_worksheet
                       SPREADSHEET_ID c) as [[ws|e] c1]; cbn [snd] in *.
  2:{ split; [exact Hr0|]. exists []. rewrite app_nil_r. split; [exact He0 | now left]. }
  pose proof (inicializar_encabezados_si_vacio_ws_logs ws df c1) as [Hr1 He1].
  cbv zeta in Hr1, He1.
  destruct (inicializar_encabezados_si_vacio_ws get_all_values append_row ws df c1)
    as [[u|e] c2]; cbn [snd] in *.
  - pose proof (append_df_to_sheet_ws_logs ws df c2) as [Hr2 He2].
    cbv zeta in Hr2, He2.
    split; [congruence|].
    destruct He1 as [He1|[He1 _]], He2 as [[He2 Hd]|[He2 Hd]].
    + exists []. rewrite app_nil_r. split; [congruence | now left].
    + exists [Filas (data df)]. split; [congruence|]. right. right.
      split; [now left | exact Hd].
    + exists [Fila (columns df)]. split; [congruence|]. right. now left.
    + exists [Fila (columns df); Filas (data df)]. split.
      * rewrite He2, He1, He0, <- app_assoc. reflexivity.
      * right. right. split; [now right | exact Hd].
  - split; [congruence|].
    destruct He1 as [He1|[He1 _]].
    + exists []. rewrite app_nil_r. split; [congruence | now left].
    + exists [Fila (columns df)]. split; [congruence|]. right. now left.
Qed.

Lemma respuestas_length (urls : list string) (w : World) :
  List.length (respuestas requests_get urls w) = List.length urls.
Proof.
  revert w. induction urls as [|u t IH]; intros w; simpl; [reflexivity|].
  destruct (requests_get u w) as [r w']. simpl. now rewrite IH.
Qed.

(** The download asks for at least one and at most three of the
    candidates of a date, in order from the first, and never raises. *)
Lemma descargar_pdf_pedidos (fecha : date) (net : Net World) :
  valid_date fecha = true ->
  exists (urls : list string) (n : nat) (r : option bytes) (net' : Net World),
    construir_urls_candidatas fecha = Ok urls
    /\ descargar_pdf requests_get fecha net = (Ok r, net')
    /\ requested net' = (requested net ++ firstn n urls)%list
    /\ (1 <= n <= 3)%nat.
Proof.
  intros Hv. destruct (tres_candidatos fecha Hv) as (u1 & u2 & u3 & Hu).
  exists [u1; u2; u3].
  rewrite (descargar_pdf_eq World requests_get fecha _ net Hu).
  pose proof (probar_spec World requests_get [u1; u2; u3] net) as Hp.
  cbv zeta in Hp.
  destruct (probar requests_get [u1; u2; u3] net) as [[payload|] net'];
    cbn [fst snd].
  - destruct Hp as (k & resp & Hk & _ & _ & _ & Hreq).
    assert (Hlt : (k < 3)%nat).
    { assert (Hk' : nth_error (respuestas requests_get [u1; u2; u3] (world net)) k
                    <> None) by congruence.
      apply nth_error_Some in Hk'. now rewrite respuestas_length in Hk'. }
    exists (S k), (Some payload), net'. repeat split; auto; lia.
  - destruct Hp as [_ Hreq].
    exists 3%nat, None, net'. repeat split; auto.
Qed.

(** X7: the requests of a run.  On a day that is not a business day
    [main] requests nothing; on a business day it requests at least one
    and at most three of the day's candidates, in order from the first,
    and nothing else, whatever happens afterwards. *)
Theorem main_pedidos (hoy : date) (c : Corrida World) :
  valid_date hoy = true ->
  exists (urls : list string) (n : nat),
    construir_urls_candidatas hoy = Ok urls
    /\ requested (red (snd (main requests_get pdfplumber_open
                                get_gspread_client open_by_key worksheet
                                add_worksheet get_all_values append_row
                                append_rows SPREADSHEET_ID hoy c)))
       = (requested (red c) ++ firstn n urls)%list
    /\ (n <= 3)%nat
    /\ (es_dia_habil hoy = false -> n = 0%nat)
    /\ (es_dia_habil hoy = true -> (1 <= n)%nat).
Proof.
  intros Hv.
  destruct (descargar_pdf_pedidos hoy (red c) Hv)
    as (urls & n & r & net' & Hu & Hd & Hreq & Hn).
  exists urls. unfold main. destruct (es_dia_habil hoy) eqn:Hh; cbn [negb].
  - exists n. split; [exact Hu|]. split; [|repeat split; (lia || congruence)].
    rewrite Hd. destruct r as [pdf_bytes|]; [|exact Hreq].
    destruct (extraer_de_bytes pdfplumber_open pdf_bytes) as [df|e];
      [|exact Hreq].
    destruct (agregar_fecha df hoy) as [df'|e]; [|exact Hreq].
    cbn [snd].
    pose proof (cargar_logs df' (con_red net' c)) as [Hr _]. cbv zeta in Hr.
    rewrite Hr. exact Hreq.
  - exists 0%nat. split; [exact Hu|]. cbn [snd firstn].
    rewrite app_nil_r. repeat split; (reflexivity || lia || congruence).
Qed.

(** X8: the writes of a run.  [main] asks the worksheet for nothing, for
    one header row, for one batch of rows, or for one header row and then
    one batch, and for something only on a business day.  The header row
    starts with [Fecha]; the batch is never empty and each of its rows
    starts with today's ISO date. *)
Theorem main_escritos (hoy : date) (c : Corrida World) :
  exists l : list escritura,
    escritos (snd (main requests_get pdfplumber_open get_gspread_client
                        open_by_key worksheet add_worksheet get_all_values
                        append_row append_rows SPREADSHEET_ID hoy c))
    = (escritos c ++ l)%list
    /\ (l = []
        \/ (es_dia_habil hoy = true
            /\ exists (cols : list label) (rows : list (list value)),
                 rows <> []
                 /\ Forall (fun row => hd_error row = Some (VStr (isoformat hoy)))
                           rows
                 /\ (l = [Fila (Fecha :: cols)]
                     \/ l = [Filas rows]
                     \/ l = [Fila (Fecha :: cols); Filas rows]))).
Proof.
  assert (Hnada : forall c' : Corrida World,
            escritos c' = escritos c ->
            exists l, escritos c' = (escritos c ++ l)%list
                      /\ (l = []
                          \/ (es_dia_habil hoy = true
                              /\ exists (cols : list label) (rows : list (list value)),
                                   rows <> []
                                   /\ Forall (fun row => hd_error row
                                                         = Some (VStr (isoformat hoy)))
                                             rows
                                   /\ (l = [Fila (Fecha :: cols)]
                                       \/ l = [Filas rows]
                                       \/ l = [Fila (Fecha :: cols); Filas rows])))).
  { intros c' He. exists []. rewrite app_nil_r. split; [exact He | now left]. }
  unfold main. destruct (es_dia_habil hoy) eqn:Hh; cbn [negb];
    [|now apply Hnada].
  destruct (descargar_pdf requests_get hoy (red c)) as [[[pdf_bytes|]|e] net'];
    try (now apply Hnada).
  destruct (extraer_de_bytes pdfplumber_open pdf_bytes) as [df|e] eqn:Hex;
    [|now apply Hnada].
  destruct (agregar_fecha df hoy) as [df'|e] eqn:Hf; [|now apply Hnada].
  cbn [snd].
  apply agregar_fecha_inv in Hf as [_ ->].
  assert (Hdata : data df <> []).
  { unfold extraer_de_bytes in Hex.
    destruct (pdfplumber_open pdf_bytes) as [pdf|e]; [|discriminate Hex].
    now apply (extraer_tablas_pdf_no_vacio pdf). }
  pose proof (cargar_logs
                (mkDF (Fecha :: columns df)
                      (map (cons (VStr (isoformat hoy))) (data df)))
                (con_red net' c)) as [_ (l & Hl & Hcases)].
  cbv zeta in Hl. cbn [columns data con_red escritos] in Hl, Hcases.
  exists l. split; [exact Hl|].
  destruct Hcases as [->|Hcases]; [now left|]. right. split; [reflexivity|].
  exists (columns df), (map (cons (VStr (isoformat hoy))) (data df)).
  split; [destruct (data df); [congruence | discriminate]|].
  split.
  - apply Forall_forall. intros row Hin.
    apply in_map_iff in Hin as (r & <- & _). reflexivity.
  - destruct Hcases as [->|[[->| ->] _]]; auto.
Qed.

(** X9: when [main] lets an exception through.  For today's date, [main]
    raises exactly when the day is a business day, a candidate was
    accepted, its document was read and its tables extracted, and a usable
    table has a header cell [Fecha]: line 155 is outside the two [try]
    blocks and [insert] refuses the column.  Nothing has been written
    then. *)
Theorem main_excepcion (hoy : date) (c : Corrida World) (e : exn) :
  valid_date hoy = true ->
  (fst (main requests_get pdfplumber_open get_gspread_client open_by_key
             worksheet add_worksheet get_all_values append_row append_rows
             SPREADSHEET_ID hoy c) = Raise e
   <->
   es_dia_habil hoy = true
   /\ e = ValueError "cannot insert Fecha, already exists"
   /\ exists (pdf_bytes : bytes) (pdf : PDF) (df : DataFrame),
        fst (descargar_pdf requests_get hoy (red c)) = Ok (Some pdf_bytes)
        /\ pdfplumber_open pdf_bytes = Ok pdf
        /\ extraer_tablas_pdf pdf = Ok df
        /\ exists p i t, In (p, i, t) (usables pdf) /\ In Fecha (encabezado t))
  /\ (fst (main requests_get pdfplumber_open get_gspread_client open_by_key
                worksheet add_worksheet get_all_values append_row append_rows
                SPREADSHEET_ID hoy c) = Raise e ->
      escritos (snd (main requests_get pdfplumber_open get_gspread_client
                          open_by_key worksheet add_worksheet get_all_values
                          append_row append_rows SPREADSHEET_ID hoy c))
      = escritos c).
Proof.
  intros Hv.
  destruct (descargar_pdf_pedidos hoy (red c) Hv)
    as (urls & n & r & net' & _ & Hd & _ & _).
  unfold main. rewrite Hd. cbn [fst].
  destruct (es_dia_habil hoy) eqn:Hh; cbn [negb fst snd].
  2:{ split; [|discriminate]. split; [discriminate|]. intros [H _]. discriminate H. }
  destruct r as [pdf_bytes|]; cbn [fst snd].
  2:{ split; [|discriminate]. split; [discriminate|].
      intros (_ & _ & b & pdf & df & H & _). discriminate H. }
  unfold extraer_de_bytes.
  destruct (pdfplumber_open pdf_bytes) as [pdf|e1] eqn:Hopen; cbn [bind fst snd].
  2:{ split; [|discriminate]. split; [discriminate|].
      intros (_ & _ & b & pdf & df & [= <-] & H & _). congruence. }
  destruct (extraer_tablas_pdf pdf) as [df|e1] eqn:Hex; cbn [fst snd].
  2:{ split; [|discriminate]. split; [discriminate|].
      intros (_ & _ & b & pdf' & df & [= <-] & H & H' & _). congruence. }
  destruct (agregar_fecha df hoy) as [df'|e2] eqn:Hf; cbn [fst snd].
  - split; [|discriminate]. split; [discriminate|].
    intros (_ & _ & b & pdf' & df'' & [= <-] & H & H' & Hfe).
    rewrite Hopen in H. injection H as <-. rewrite Hex in H'. injection H' as <-.
    apply agregar_fecha_inv in Hf as [Hnot _]. exfalso. apply Hnot.
    apply (columnas_de_extraccion pdf df Hex). tauto.
  - apply agregar_fecha_Raise_inv in Hf as [Hin ->].
    split; [|reflexivity]. split.
    + intros [= <-]. split; [reflexivity|]. split; [reflexivity|].
      exists pdf_bytes, pdf, df. repeat split; try assumption.
      apply (columnas_de_extraccion pdf df Hex) in Hin as [H|[H|H]];
        [discriminate H | discriminate H | exact H].
    + intros (_ & -> & _). reflexivity.
Qed.

(** Where a run stops.  On a day that is not a business day [main]
    does nothing at all.  On a business day, when no candidate is accepted,
    or the accepted document cannot be read or yields no frame, it has
    made its requests and nothing else: the spreadsheet service is not
    contacted and nothing is written. *)
Lemma main_sin_carga (hoy : date) (c : Corrida World) :
  (es_dia_habil hoy = false ->
   main requests_get pdfplumber_open get_gspread_client open_by_key worksheet
        add_worksheet get_all_values append_row append_rows SPREADSHEET_ID
        hoy c = (Ok tt, c))
  /\ (es_dia_habil hoy = true ->
      forall net',
        (descargar_pdf requests_get hoy (red c) = (Ok None, net')
         \/ exists pdf_bytes e,
              descargar_pdf requests_get hoy (red c) = (Ok (Some pdf_bytes), net')
              /\ extraer_de_bytes pdfplumber_open pdf_bytes = Raise e) ->
        main requests_get pdfplumber_open get_gspread_client open_by_key
             worksheet add_worksheet get_all_values append_row append_rows
             SPREADSHEET_ID hoy c
        = (Ok tt, mkCorrida net' (escritos c))).
Proof.
  unfold main. split; intros Hh; rewrite Hh; cbn [negb]; [reflexivity|].
  intros net' [Hd|(b & e & Hd & Hex)]; rewrite Hd; [reflexivity|].
  now rewrite Hex.
Qed.

End OrquestadorProps.

(** X7, witness: Tuesday 5 March 2024 on the collaborators of [Ensayo]. *)
Lemma main_pedidos_witness :
  valid_date (Date 2024 3 5) = true
  /\ exists (urls : list string) (n : nat),
       construir_urls_candidatas (Date 2024 3 5) = Ok urls
       /\ requested (red (snd (main_ensayo Ensayo.abrir_precios (Date 2024 3 5))))
          = firstn n urls
       /\ (n <= 3)%nat.
Proof.
  split; [reflexivity|].
  destruct (main_pedidos Ensayo.World Ensayo.requests_get Ensayo.abrir_precios
              unit unit unit Ensayo.get_gspread_client Ensayo.open_by_key
              Ensayo.worksheet Ensayo.add_worksheet Ensayo.get_all_values
              Ensayo.append_row Ensayo.append_rows "hoja-de-ensayo"
              (Date 2024 3 5) inicio_ensayo eq_refl)
    as (urls & n & Hu & Hreq & Hn & _).
  exists urls, n. split; [exact Hu|]. split; [exact Hreq | exact Hn].
Defined.

(** X9, witness: the same day with a bulletin whose table has a column
    [Fecha]: [main] raises, with nothing written. *)
Lemma main_excepcion_witness :
  fst (main_ensayo Ensayo.abrir_con_fecha (Date 2024 3 5))
  = Raise (ValueError "cannot insert Fecha, already exists")
  /\ escritos (snd (main_ensayo Ensayo.abrir_con_fecha (Date 2024 3 5))) = [].
Proof.
  split; [reflexivity|].
  apply (proj2 (main_excepcion Ensayo.World Ensayo.requests_get
                  Ensayo.abrir_con_fecha unit unit unit
                  Ensayo.get_gspread_client Ensayo.open_by_key
                  Ensayo.worksheet Ensayo.add_worksheet Ensayo.get_all_values
                  Ensayo.append_row Ensayo.append_rows "hoja-de-ensayo"
                  (Date 2024 3 5) inicio_ensayo
                  (ValueError "cannot insert Fecha, already exists") eq_refl)).
  reflexivity.
Defined.

(** A full run on the collaborators of [Ensayo], whose sheet starts with
    no row: three requests and one write, the batch.  The sheet read as
    [[[]]], so no header row went before the data. *)
Example main_ensayo_carga :
  main_ensayo Ensayo.abrir_precios (Date 2024 3 5)
  = (Ok tt,
     mkCorrida
       (mkNet
          ((3%nat,
            [ ["2024-03-05"; "Papa"; "1000"; "1"; "1"] ]) : Ensayo.World)
          [ "https://corabastos.com.co/wp-content/uploads/2024/03/Boletin-05marzo2024.pdf";
            "https://corabastos.com.co/wp-content/uploads/2024/03/Boletin-5marzo2024.pdf";
            "https://corabastos.com.co/wp-content/uploads/2024/03/Boletin_diario_20240305.pdf" ])
       [ Filas [ [VStr "2024-03-05"; VStr "Papa"; VStr "1000"; VInt 1; VInt 1] ] ]).
Proof. reflexivity. Qed.

(* ================================================================== *)
(** * Further properties: the sink over successive runs *)
(* ================================================================== *)

Section CargasProps.

Variable Worksheet : Type.
Variable get_all_values : Worksheet -> list (list string).
Variable append_row : list label -> Worksheet -> Worksheet.
Variable append_rows : list (list value) -> Worksheet -> Worksheet.

(** When the calls of the worksheet return, the two steps [main] makes
    are the two sink functions of lines 123-132. *)
Lemma sink_ws_coincide (df : DataFrame) (c : Corrida Worksheet) :
  let h := mkHoja (world (red c)) (escritos c) in
  let r1 := inicializar_encabezados_si_vacio_ws
              (fun (_ : unit) w => (Ok (get_all_values w), w))
              (fun (_ : unit) r w => (Ok tt, append_row r w)) tt df c in
  let h1 := inicializar_encabezados_si_vacio get_all_values append_row h df in
  let r2 := append_df_to_sheet_ws
              (fun (_ : unit) rs w => (Ok tt, append_rows rs w)) tt df c in
  let h2 := append_df_to_sheet append_rows h df in
  (fst r1 = Ok tt /\ world (red (snd r1)) = ws h1
   /\ escritos (snd r1) = escrito h1)
  /\ (fst r2 = Ok tt /\ world (red (snd r2)) = ws h2
      /\ escritos (snd r2) = escrito h2).
Proof.
  cbv zeta. split.
  - unfold inicializar_encabezados_si_vacio_ws, inicializar_encabezados_si_vacio,
      en_mundo. cbn [ws escrito].
    destruct (vacia (get_all_values (world (red c)))); cbn; auto.
  - unfold append_df_to_sheet_ws, append_df_to_sheet, en_mundo. cbv zeta.
    destruct (vacia (data df)); cbn; auto.
Qed.

(** What the store is expected to do: a sheet that received a row with
    the text [Fecha] does not read as the empty list, and a sheet that
    does not read as the empty list stays so when rows are appended. *)
Hypothesis fila_no_vacia :
  forall r w, In Fecha r -> get_all_values (append_row r w) <> [].
Hypothesis filas_no_vacian :
  forall rs w, get_all_values w <> [] -> get_all_values (append_rows rs w) <> [].

Lemma carga_no_vacia (df : DataFrame) (h : Hoja Worksheet) :
  In Fecha (columns df) ->
  get_all_values
    (ws (append_df_to_sheet append_rows
           (inicializar_encabezados_si_vacio get_all_values append_row h df) df))
  <> [].
Proof.
  intros Hf.
  assert (H1 : get_all_values
                 (ws (inicializar_encabezados_si_vacio get_all_values append_row h df))
               <> []).
  { unfold inicializar_encabezados_si_vacio.
    destruct (vacia (get_all_values (ws h))) eqn:Hv; cbn [ws].
    - now apply fila_no_vacia.
    - now apply vacia_false. }
  unfold append_df_to_sheet. cbv zeta.
  destruct (vacia (data df)); cbn [ws]; [exact H1|].
  now apply filas_no_vacian.
Qed.

(** X10: headers at most once, and only on an empty reading.  Over any
    number of runs, each with a dated frame, the sink writes a header row
    at most once, in the first run, and exactly when [get_all_values]
    returned the empty list before it; the row is then the columns of
    the first frame.  When that first reading is anything else, as
    [[[]]] is, no run writes a header row.  Later runs never write one,
    whatever their columns.  The batches of rows are those of the runs,
    in order, a run with no row writing none. *)
Theorem cargas_un_encabezado (dfs : list DataFrame) (h : Hoja Worksheet) :
  Forall (fun df => In Fecha (columns df)) dfs ->
  let h' := cargas get_all_values append_row append_rows dfs h in
  filter es_fila (escrito h')
  = (filter es_fila (escrito h)
     ++ match dfs with
        | [] => []
        | df :: _ =>
            if vacia (get_all_values (ws h)) then [Fila (columns df)] else []
        end)%list
  /\ (get_all_values (ws h) <> [] ->
      filter es_fila (escrito h') = filter es_fila (escrito h))
  /\ filter (fun e => negb (es_fila e)) (escrito h')
     = (filter (fun e => negb (es_fila e)) (escrito h)
        ++ map (fun df => Filas (data df))
               (filter (fun df => negb (vacia (data df))) dfs))%list.
Proof.
  cbv zeta.
  enough (H : forall h, Forall (fun df => In Fecha (columns df)) dfs ->
            filter es_fila
              (escrito (cargas get_all_values append_row append_rows dfs h))
            = (filter es_fila (escrito h)
               ++ match dfs with
                  | [] => []
                  | df :: _ =>
                      if vacia (get_all_values (ws h))
                      then [Fila (columns df)] else []
                  end)%list
            /\ filter (fun e => negb (es_fila e))
                 (escrito (cargas get_all_values append_row append_rows dfs h))
               = (filter (fun e => negb (es_fila e)) (escrito h)
                  ++ map (fun df => Filas (data df))
                         (filter (fun df => negb (vacia (data df))) dfs))%list).
  { intros Hall. destruct (H h Hall) as [H1 H2].
    split; [exact H1|]. split; [|exact H2].
    intros Hne. rewrite H1. apply vacia_false in Hne. rewrite Hne.
    destruct dfs; now rewrite app_nil_r. }
  clear h. induction dfs as [|df rest IH]; intros h Hall.
  - simpl. now rewrite !app_nil_r.
  - apply Forall_cons_iff in Hall as [Hf Hrest].
    unfold cargas in *. cbn [fold_left].
    set (h1 := append_df_to_sheet append_rows
                 (inicializar_encabezados_si_vacio get_all_values append_row h df)
                 df).
    destruct (IH h1 Hrest) as [IH1 IH2]. rewrite IH1, IH2.
    assert (Hne : vacia (get_all_values (ws h1)) = false)
      by (apply vacia_false; now apply carga_no_vacia).
    assert (Hsin : match rest with
                   | [] => []
                   | df0 :: _ =>
                       if vacia (get_all_values (ws h1))
                       then [Fila (columns df0)] else []
                   end = @nil escritura)
      by (destruct rest; [reflexivity | now rewrite Hne]).
    rewrite Hsin, app_nil_r.
    unfold h1, append_df_to_sheet, inicializar_encabezados_si_vacio. cbv zeta.
    cbn [filter].
    destruct (vacia (get_all_values (ws h))), (vacia (data df));
      cbn [escrito negb map app];
      rewrite ?filter_app; cbn [filter es_fila negb];
      rewrite ?app_nil_r, <- ?app_assoc; split; reflexivity.
Qed.

End CargasProps.

(** X10, witness: two runs on a worksheet of gspread 6 that starts with
    no row, the second with other columns.  Two batches are written and
    no header row. *)
Lemma cargas_un_encabezado_witness :
  let d1 := mkDF [Fecha; Some "Producto"] [[VStr "2024-03-05"; VStr "Papa"]] in
  let d2 := mkDF [Fecha; Some "Fruta"; Some "Precio"]
                 [[VStr "2024-03-06"; VStr "Mango"; VStr "2500"]] in
  let h' := cargas HojaLista.get_all_values HojaLista.append_row
                   Ensayo.append_rows_lista [d1; d2]
                   (mkHoja ([] : HojaLista.Worksheet) []) in
  filter es_fila (escrito h') = []
  /\ filter (fun e => negb (es_fila e)) (escrito h')
     = [Filas (data d1); Filas (data d2)]
  /\ ws h' = [ ["2024-03-05"; "Papa"]; ["2024-03-06"; "Mango"; "2500"] ].
Proof.
  cbv zeta.
  pose proof (cargas_un_encabezado HojaLista.Worksheet
                HojaLista.get_all_values HojaLista.append_row
                Ensayo.append_rows_lista
                (fun r w _ => get_all_values_no_vacio (HojaLista.append_row r w))
                (fun rs w _ => get_all_values_no_vacio
                                 (Ensayo.append_rows_lista rs w))
                [ mkDF [Fecha; Some "Producto"]
                       [[VStr "2024-03-05"; VStr "Papa"]];
                  mkDF [Fecha; Some "Fruta"; Some "Precio"]
                       [[VStr "2024-03-06"; VStr "Mango"; VStr "2500"]] ]
                (mkHoja ([] : HojaLista.Worksheet) [])
                ltac:(repeat constructor)) as (_ & H2 & H3).
  split; [exact (H2 (get_all_values_no_vacio [])) |].
  split; [exact H3 | reflexivity].
Defined.

(* ================================================================== *)
(** * Further properties: how extraction fails, what is never accepted *)
(* ================================================================== *)






Lemma contains_vacio (needle : string) :
  needle <> "" -> contains needle "" = false.
Proof. destruct needle; [congruence | reflexivity]. Qed.

(** X12: a response that declares no content type is never accepted,
    whatever its status and its body: the header defaults to the empty
    text, which has no [pdf] in it.  The locator then goes on to the next
    candidate. *)
Theorem aceptado_sin_content_type (resp : Response) :
  (forall k v, In (k, v) (headers resp) -> lower k <> "content-type") ->
  aceptado resp = false /\ rechazado (Ok resp) = true.
Proof.
  intros Hno.
  assert (Hget : headers_get (headers resp) "Content-Type" "" = "").
  { induction (headers resp) as [|[k v] t IH]; [reflexivity|].
    cbn [headers_get].
    destruct (String.eqb (lower k) (lower "Content-Type")) eqn:E.
    - apply String.eqb_eq in E. exfalso. apply (Hno k v); [now left | exact E].
    - apply IH. intros k' v' Hin. apply (Hno k' v'). now right. }
  assert (Ha : aceptado resp = false).
  { unfold aceptado. cbv zeta. rewrite Hget. cbn [lower].
    rewrite contains_vacio by discriminate. apply andb_false_r. }
  split; [exact Ha|]. simpl. now rewrite Ha.
Qed.

(** X12, witness: status 200 and a PDF body, but only a length header. *)
Lemma aceptado_sin_content_type_witness :
  aceptado (mkResponse 200 [("Content-Length", "4")]
                       [Byte.x25; Byte.x50; Byte.x44; Byte.x46]) = false
  /\ rechazado (Ok (mkResponse 200 [("Content-Length", "4")]
                               [Byte.x25; Byte.x50; Byte.x44; Byte.x46])) = true.
Proof.
  apply (aceptado_sin_content_type
           (mkResponse 200 [("Content-Length", "4")]
                       [Byte.x25; Byte.x50; Byte.x44; Byte.x46])).
  intros k v [[= <- <-]|[]]. discriminate.
Defined.
